(** * The host time-zone engine of android/utils/timezone.cpp

    A shallow embedding of the zone-name validator, the host zone discoverer,
    the transition-rule resolvers and the offset engine (class [TimeZone])
    together with the three public entry points, followed by the properties
    that the specification states about them.

    Conventions of the embedding.
    - [int], [long], [time_t] and [off_t] values are integers of [Z]; the
      development covers the executions in which C arithmetic does not
      overflow, so no wrap-around is written.
    - A C string is the [string] of its bytes before the terminating NUL; a
      [const char*] that may be NULL is an [option string].  Reading [p[i]]
      gives [None] exactly at the terminator.
    - A function that mutates [*this] or a global is a state transformer; a
      C++ exception or an undefined operation ends the execution with
      [Abort], the state reached so far being kept. *)

From Stdlib Require Import ZArith List String Ascii Bool Lia DecimalString
  DecimalPos.
Import ListNotations.

Local Open Scope list_scope.
Local Open Scope string_scope.
Local Open Scope Z_scope.

(** ** C strings *)

Module CStr.

(** [const char*]: NULL, or a NUL-terminated string. *)
Definition cstr := option string.

(** [strchr(s, c)] for a character [c] other than NUL: the suffix of [s]
    that starts at the first occurrence of [c]. *)
Fixpoint strchr (s : string) (c : ascii) : option string :=
  match s with
  | EmptyString => None
  | String a s' => if Ascii.eqb a c then Some s else strchr s' c
  end.

(** [p + n], for [n] within the string (terminator included). *)
Fixpoint advance (n : nat) (p : string) : string :=
  match n, p with
  | O, _ => p
  | S n', String _ p' => advance n' p'
  | S _, EmptyString => EmptyString
  end.

(** [p[i] == 0] *)
Definition is_nul_at (p : string) (i : nat) : bool :=
  match String.get i p with
  | None => true
  | Some _ => false
  end.

Definition strlen (s : string) : Z := Z.of_nat (String.length s).

(** The pieces of [s] between the occurrences of [c]. *)
Fixpoint split_on (c : ascii) (s : string) : list string :=
  match s with
  | EmptyString => [EmptyString]
  | String a s' =>
      if Ascii.eqb a c then EmptyString :: split_on c s'
      else match split_on c s' with
           | [] => [String a EmptyString]
           | seg :: segs => String a seg :: segs
           end
  end.

Definition nonempty (s : string) : bool :=
  match s with
  | EmptyString => false
  | String _ _ => true
  end.

End CStr.
Import CStr.

(** ** Zone-name validator *)

(** [check_timezone_is_zoneinfo], timezone.cpp lines 57-77. *)
Definition check_timezone_is_zoneinfo (tz : cstr) : Z :=
  match tz with
  | None => 0
  | Some tz =>
      match strchr tz "/" with
      | None => 0
      | Some slash1 =>
          if is_nul_at slash1 1 then 0
          else
            match strchr (advance 1 slash1) "/" with
            | Some slash2 =>
                if is_nul_at slash2 1
                   || match strchr (advance 1 slash2) "/" with
                      | Some _ => true
                      | None => false
                      end
                then 0
                else 1
            | None => 1
            end
      end
  end.

(** The form the specification gives for a zone identifier: two or three
    segments separated by ['/'], none of them empty. *)
Definition is_zoneinfo_form (s : string) : bool :=
  match split_on "/" s with
  | [area; location] => nonempty area && nonempty location
  | [area; location; sub] => nonempty area && nonempty location && nonempty sub
  | _ => false
  end.

(** The form the validator accepts: two or three segments, the last one not
    empty. *)
Definition accepted_form (s : string) : bool :=
  match split_on "/" s with
  | [_; location] => nonempty location
  | [_; _; sub] => nonempty sub
  | _ => false
  end.

(** ** Civil time: [struct tm] and the C library's UTC conversion *)

Record tm := mk_tm {
  tm_sec : Z;
  tm_min : Z;
  tm_hour : Z;
  tm_mday : Z;
  tm_mon : Z;
  tm_year : Z;
  tm_wday : Z;
  tm_yday : Z;
  tm_isdst : Z
}.

Definition tm_zero : tm := mk_tm 0 0 0 0 0 0 0 0 0.

Definition set_tm_sec (v : Z) (t : tm) : tm :=
  mk_tm v (tm_min t) (tm_hour t) (tm_mday t) (tm_mon t) (tm_year t)
        (tm_wday t) (tm_yday t) (tm_isdst t).
Definition set_tm_min (v : Z) (t : tm) : tm :=
  mk_tm (tm_sec t) v (tm_hour t) (tm_mday t) (tm_mon t) (tm_year t)
        (tm_wday t) (tm_yday t) (tm_isdst t).
Definition set_tm_hour (v : Z) (t : tm) : tm :=
  mk_tm (tm_sec t) (tm_min t) v (tm_mday t) (tm_mon t) (tm_year t)
        (tm_wday t) (tm_yday t) (tm_isdst t).
Definition set_tm_mday (v : Z) (t : tm) : tm :=
  mk_tm (tm_sec t) (tm_min t) (tm_hour t) v (tm_mon t) (tm_year t)
        (tm_wday t) (tm_yday t) (tm_isdst t).
Definition set_tm_mon (v : Z) (t : tm) : tm :=
  mk_tm (tm_sec t) (tm_min t) (tm_hour t) (tm_mday t) v (tm_year t)
        (tm_wday t) (tm_yday t) (tm_isdst t).
Definition set_tm_year (v : Z) (t : tm) : tm :=
  mk_tm (tm_sec t) (tm_min t) (tm_hour t) (tm_mday t) (tm_mon t) v
        (tm_wday t) (tm_yday t) (tm_isdst t).
Definition set_tm_isdst (v : Z) (t : tm) : tm :=
  mk_tm (tm_sec t) (tm_min t) (tm_hour t) (tm_mday t) (tm_mon t) (tm_year t)
        (tm_wday t) (tm_yday t) v.

Module Calendar.

(** The proleptic Gregorian calendar, as the C library's [gmtime] and
    [timegm] use it.  Months are numbered from 0 as in [tm_mon]. *)

Definition is_leap (y : Z) : bool :=
  (y mod 4 =? 0) && (negb (y mod 100 =? 0) || (y mod 400 =? 0)).

Definition days_in_year (y : Z) : Z := if is_leap y then 366 else 365.

Definition days_in_month (y m : Z) : Z :=
  match m with
  | 0 => 31
  | 1 => if is_leap y then 29 else 28
  | 2 => 31
  | 3 => 30
  | 4 => 31
  | 5 => 30
  | 6 => 31
  | 7 => 31
  | 8 => 30
  | 9 => 31
  | 10 => 30
  | 11 => 31
  | _ => 0
  end.

Definition days_before_month (y m : Z) : Z :=
  let feb := if is_leap y then 1 else 0 in
  match m with
  | 0 => 0
  | 1 => 31
  | 2 => 59 + feb
  | 3 => 90 + feb
  | 4 => 120 + feb
  | 5 => 151 + feb
  | 6 => 181 + feb
  | 7 => 212 + feb
  | 8 => 243 + feb
  | 9 => 273 + feb
  | 10 => 304 + feb
  | 11 => 334 + feb
  | _ => 0
  end.

(** Leap years among the years 1 .. y. *)
Definition leaps_through (y : Z) : Z := y / 4 - y / 100 + y / 400.

(** Days from 1970-01-01 to the first of January of year [y]. *)
Definition days_before_year (y : Z) : Z :=
  365 * (y - 1970) + (leaps_through (y - 1) - leaps_through 1969).

(** Days from 1970-01-01 to the calendar day of [t]. *)
Definition day_number (t : tm) : Z :=
  let y := tm_year t + 1900 in
  days_before_year y + days_before_month y (tm_mon t) + (tm_mday t - 1).

Definition seconds_of_day (t : tm) : Z :=
  tm_sec t + 60 * (tm_min t + 60 * tm_hour t).

(** The UTC timestamp of a civil instant ([timegm]). *)
Definition timegm (t : tm) : Z := 86400 * day_number t + seconds_of_day t.

(** A civil instant that names a real second of a real day. *)
Definition valid_civil (t : tm) : bool :=
  (0 <=? tm_mon t) && (tm_mon t <=? 11)
  && (1 <=? tm_mday t)
  && (tm_mday t <=? days_in_month (tm_year t + 1900) (tm_mon t))
  && (0 <=? tm_hour t) && (tm_hour t <=? 23)
  && (0 <=? tm_min t) && (tm_min t <=? 59)
  && (0 <=? tm_sec t) && (tm_sec t <=? 59).

(** Year, month (1..12) and day of the day that lies [z] days after
    1970-01-01. *)
Definition civil_from_days (z : Z) : Z * Z * Z :=
  let z := z + 719468 in
  let era := z / 146097 in
  let doe := z - era * 146097 in
  let yoe := (doe - doe / 1460 + doe / 36524 - doe / 146096) / 365 in
  let y := yoe + era * 400 in
  let doy := doe - (365 * yoe + yoe / 4 - yoe / 100) in
  let mp := (5 * doy + 2) / 153 in
  let d := doy - (153 * mp + 2) / 5 + 1 in
  let m := if mp <? 10 then mp + 3 else mp - 9 in
  (if m <=? 2 then y + 1 else y, m, d).

(** [gmtime]: the civil UTC instant of a timestamp.  The C library returns
    a null pointer when the year does not fit [tm_year], which happens only
    for timestamps beyond about 6.7e16 seconds; the definition gives the
    civil instant for every timestamp. *)
Definition gmtime (t : Z) : tm :=
  let days := t / 86400 in
  let rem := t mod 86400 in
  let '(y, m, d) := civil_from_days days in
  mk_tm (rem mod 60) (rem mod 3600 / 60) (rem / 3600)
        d (m - 1) (y - 1900)
        ((days + 4) mod 7) (days - days_before_year y) 0.

End Calendar.
Import Calendar.

(** ** Comparing and subtracting civil instants *)

(** [TimeZone::utcCompare], lines 1062-1101. *)
Definition utcCompare (utc1 utc2 : tm) : Z :=
  if tm_year utc1 >? tm_year utc2 then 1
  else if tm_year utc1 <? tm_year utc2 then -1
  else if tm_mon utc1 >? tm_mon utc2 then 1
  else if tm_mon utc1 <? tm_mon utc2 then -1
  else if tm_mday utc1 >? tm_mday utc2 then 1
  else if tm_mday utc1 <? tm_mday utc2 then -1
  else if tm_hour utc1 >? tm_hour utc2 then 1
  else if tm_hour utc1 <? tm_hour utc2 then -1
  else if tm_min utc1 >? tm_min utc2 then 1
  else if tm_min utc1 <? tm_min utc2 then -1
  else if tm_sec utc1 >? tm_sec utc2 then 1
  else if tm_sec utc1 <? tm_sec utc2 then -1
  else 0.

Definition kSecondsPerDay : Z := 60 * 60 * 24.

(** The value of an [int] expression whose exact value is [z]: the 32-bit
    two's complement number equal to [z] modulo 2^32.  (Signed overflow is
    undefined in C++; the compilers this code is built with wrap.) *)
Definition int_of (z : Z) : Z := (z + 2 ^ 31) mod 2 ^ 32 - 2 ^ 31.

(** [TimeZone::diffTime], lines 1123-1143.  The fields of [struct tm] and
    [kSecondsPerDay] are [int], so the seconds of the day and the product
    with [tm_mday] are computed in [int]; they are then summed in [long],
    taken as the 64-bit type of the Unix targets, which holds the sum of a
    few [int] values exactly. *)
Definition diffTime (end_ beginning : tm) : Z :=
  let endInSecs :=
    int_of (tm_sec end_ + 60 * (tm_min end_ + 60 * tm_hour end_)) in
  let beginningInSecs :=
    int_of (tm_sec beginning
            + 60 * (tm_min beginning + 60 * tm_hour beginning)) in
  let '(endInSecs, beginningInSecs) :=
    if tm_year end_ >? tm_year beginning then
      (endInSecs + kSecondsPerDay, beginningInSecs)
    else if tm_year end_ <? tm_year beginning then
      (endInSecs, beginningInSecs + kSecondsPerDay)
    else if tm_mon end_ >? tm_mon beginning then
      (endInSecs + kSecondsPerDay, beginningInSecs)
    else if tm_mon end_ <? tm_mon beginning then
      (endInSecs, beginningInSecs + kSecondsPerDay)
    else
      (endInSecs + int_of (kSecondsPerDay * tm_mday end_),
       beginningInSecs + int_of (kSecondsPerDay * tm_mday beginning)) in
  endInSecs - beginningInSecs.

(** The six calendar fields in the order of significance. *)
Definition civil_key (t : tm) : list Z :=
  [tm_year t; tm_mon t; tm_mday t; tm_hour t; tm_min t; tm_sec t].

(** Lexicographic comparison of two keys. *)
Fixpoint lex_compare (a b : list Z) : comparison :=
  match a, b with
  | x :: a', y :: b' =>
      match x ?= y with
      | Eq => lex_compare a' b'
      | c => c
      end
  | [], [] => Eq
  | [], _ :: _ => Lt
  | _ :: _, [] => Gt
  end.

Definition civil_lt (a b : tm) : Prop :=
  lex_compare (civil_key a) (civil_key b) = Lt.
Definition civil_le (a b : tm) : Prop :=
  lex_compare (civil_key a) (civil_key b) <> Gt.

(** ** Executions: state, faults and observable events *)

Module Exec.

(** How an execution can end without returning: a C++ exception that
    nothing catches ([std::invalid_argument], [std::out_of_range]), or an
    operation whose behaviour the language leaves undefined. *)
Inductive fault := Exception | Undefined.

Inductive result (A : Type) :=
| Ok (a : A)
| Abort (f : fault).
Arguments Ok {A} a.
Arguments Abort {A} f.

(** What a call does to its collaborators.  [EvResolve] marks an entry
    into the transition-rule resolver ([TimeZone::androidTimeZoneSet]);
    the others are the calls made to the host. *)
Inductive Event :=
| EvResolve (tzname : string) (year : Z)
| EvRunCommand (argv : list string) (timeout : Z)
| EvRegistry (key : string)
| EvOpen (path : string)
| EvRead (path : string).

Record Run (S A : Type) := mkRun {
  outcome : result A;
  final : S;
  emitted : list Event
}.
Arguments mkRun {S A} _ _ _.
Arguments outcome {S A} _.
Arguments final {S A} _.
Arguments emitted {S A} _.

(** A computation over a state of type [S]. *)
Definition M (S A : Type) := S -> Run S A.

Definition ret {S A} (a : A) : M S A := fun s => mkRun (Ok a) s [].

Definition bind {S A B} (m : M S A) (k : A -> M S B) : M S B :=
  fun s =>
    let r := m s in
    match outcome r with
    | Ok a =>
        let r' := k a (final r) in
        mkRun (outcome r') (final r') (emitted r ++ emitted r')%list
    | Abort f => mkRun (Abort f) (final r) (emitted r)
    end.

Definition get {S} : M S S := fun s => mkRun (Ok s) s [].
Definition modify {S} (f : S -> S) : M S unit := fun s => mkRun (Ok tt) (f s) [].
Definition emit {S} (e : Event) : M S unit := fun s => mkRun (Ok tt) s [e].
Definition abort {S A} (f : fault) : M S A := fun s => mkRun (Abort f) s [].

Definition lift {S A} (r : result A) : M S A := fun s => mkRun r s [].

(** Runs a computation on a component of the state (a member, or the
    object a pointer designates). *)
Definition zoom {S T A} (proj : S -> T) (upd : T -> S -> S) (m : M T A)
  : M S A :=
  fun s =>
    let r := m (proj s) in
    mkRun (outcome r) (upd (final r) s) (emitted r).

(** Number of entries into the resolver among the events. *)
Definition resolver_calls (evs : list Event) : nat :=
  List.length
    (filter (fun e => match e with EvResolve _ _ => true | _ => false end)
            evs).

End Exec.
Import Exec.

Notation "x <- m ;; k" := (bind m (fun x => k))
  (at level 61, m at next level, right associativity).
Notation "m ;;; k" := (bind m (fun _ => k))
  (at level 61, right associativity).

(** ** The text facilities of the C++ library that the resolvers use *)

Module Text.

Definition code (a : ascii) : Z := Z.of_N (N_of_ascii a).

(** [isspace] in the C locale. *)
Definition isspace (a : ascii) : bool :=
  (code a =? 32) || ((9 <=? code a) && (code a <=? 13)).

Definition isdigit (a : ascii) : bool :=
  (48 <=? code a) && (code a <=? 57).

Definition newline : ascii := "010"%char.

(** The pieces of [s] between the characters that satisfy [sep]. *)
Fixpoint fields (sep : ascii -> bool) (s : string) : list string :=
  match s with
  | EmptyString => [EmptyString]
  | String a s' =>
      if sep a then EmptyString :: fields sep s'
      else match fields sep s' with
           | [] => [String a EmptyString]
           | seg :: segs => String a seg :: segs
           end
  end.

(** [while (ss >> token) tokens.push_back(token)]: the maximal runs of
    characters that are not white space. *)
Definition tokenize (line : string) : list string :=
  filter nonempty (fields isspace line).

(** [while (std::getline(file, line)) rules.push_back(line)]: the lines of
    the text; a final newline does not open a further line. *)
Definition getlines (content : string) : list string :=
  let pieces := split_on newline content in
  match rev pieces with
  | EmptyString :: front => rev front
  | _ => pieces
  end.

(** A single [std::getline(file, line)] on a freshly opened file: the text
    before the first newline, empty when nothing can be read. *)
Definition getline_first (content : string) : string :=
  match split_on newline content with
  | line :: _ => line
  | [] => EmptyString
  end.

(** [s.substr(pos, n)]: throws [std::out_of_range] when [pos > s.size()]. *)
Definition substr (pos n : nat) (s : string) : result string :=
  if (String.length s <? pos)%nat then Abort Exception
  else Ok (substring pos n s).

(** [s[0]]: the terminator when [s] is empty. *)
Definition front_char (s : string) : ascii :=
  match s with
  | String a _ => a
  | EmptyString => zero
  end.

Fixpoint skip_spaces (s : string) : string :=
  match s with
  | String a s' => if isspace a then skip_spaces s' else s
  | EmptyString => s
  end.

Fixpoint read_digits (acc : Z) (s : string) : Z :=
  match s with
  | String a s' =>
      if isdigit a then read_digits (10 * acc + (code a - 48)) s' else acc
  | EmptyString => acc
  end.

Definition INT_MIN : Z := -2147483648.
Definition INT_MAX : Z := 2147483647.

(** [std::stoi(str)]: leading white space, an optional sign, then decimal
    digits; what follows the digits is ignored.  Throws
    [std::invalid_argument] when there is no digit and [std::out_of_range]
    when the value is not an [int]. *)
Definition stoi (str : string) : result Z :=
  let s := skip_spaces str in
  let '(negative, s) :=
    match s with
    | String "-"%char s' => (true, s')
    | String "+"%char s' => (false, s')
    | _ => (false, s)
    end in
  match s with
  | String a _ =>
      if isdigit a then
        let v := read_digits 0 s in
        let v := if negative then - v else v in
        if (INT_MIN <=? v) && (v <=? INT_MAX) then Ok v else Abort Exception
      else Abort Exception
  | EmptyString => Abort Exception
  end.

(** [std::vector<T>(v.begin() + first, v.begin() + last)]: undefined when
    the iterators leave the vector. *)
Definition vector_range {A} (first last : nat) (v : list A)
  : result (list A) :=
  if (last <=? List.length v)%nat
  then Ok (firstn (last - first) (skipn first v))
  else Abort Undefined.

(** [StringFormat("%d", n)] *)
Definition format_d (n : Z) : string := NilZero.string_of_int (Z.to_int n).

End Text.
Import Text.

(** ** The host *)

(** The three build variants of the unit: [__APPLE__], [__linux__] or
    [__FreeBSD__], and [_WIN32]. *)
Inductive Platform := Apple | Linux | Win32.

Module Fs.

Inductive file_kind := RegularFile | Directory | SymbolicLink | OtherFile.

(** The two members of [struct stat] that the unit reads. *)
Record stat_t := mk_stat {
  st_mode : file_kind;
  st_size : Z
}.

(** What one [read(fd, buf, 1)] delivers while the file lasts. *)
Inductive read1 :=
| Got (b : ascii)
| ReadError.

(** The file-system calls of the host.  A call that fails gives [None]. *)
Record FileSystem := mkFileSystem {
  fs_access_R : string -> bool;
  fs_readlink : string -> option string;
  fs_stat : string -> option stat_t;
  fs_lstat : string -> option stat_t;
  fs_readdir : string -> option (list string);
  fs_open : string -> option (list read1)
}.

End Fs.
Import Fs.

Module Win.

Record SYSTEMTIME := mkSYSTEMTIME {
  wYear : Z;
  wMonth : Z;
  wDayOfWeek : Z;
  wDay : Z;
  wHour : Z;
  wMinute : Z;
  wSecond : Z;
  wMilliseconds : Z
}.

Record REG_TZI_FORMAT := mkREG_TZI_FORMAT {
  Bias : Z;
  StandardBias : Z;
  DaylightBias : Z;
  StandardDate : SYSTEMTIME;
  DaylightDate : SYSTEMTIME
}.

(** The members of [TIME_ZONE_INFORMATION] that the unit uses have the
    layout of the registry record. *)
Definition TIME_ZONE_INFORMATION := REG_TZI_FORMAT.

Definition SYSTEMTIME_zero : SYSTEMTIME := mkSYSTEMTIME 0 0 0 0 0 0 0 0.
Definition TZI_zero : TIME_ZONE_INFORMATION :=
  mkREG_TZI_FORMAT 0 0 0 SYSTEMTIME_zero SYSTEMTIME_zero.

Definition ERROR_SUCCESS : Z := 0.
Definition REG_BINARY : Z := 3.

(** What [RegQueryValueEx] leaves in its out-parameters. *)
Record RegQuery := mkRegQuery {
  query_result : Z;
  query_dataType : Z;
  query_data : REG_TZI_FORMAT
}.

(** [_win32_timezones], lines 422-877: rows of (win_name, zoneinfo_name). *)
Definition _win32_timezones : list (string * string) := [
  ("AUS Central Standard Time", "Australia/Darwin");
  ("AUS Eastern Standard Time", "Australia/Sydney");
  ("AUS Eastern Standard Time", "Australia/Melbourne");
  ("Afghanistan Standard Time", "Asia/Kabul");
  ("Alaskan Standard Time", "America/Anchorage");
  ("Alaskan Standard Time", "America/Juneau");
  ("Alaskan Standard Time", "America/Metlakatla");
  ("Alaskan Standard Time", "America/Nome");
  ("Alaskan Standard Time", "America/Sitka");
  ("Alaskan Standard Time", "America/Yakutat");
  ("Aleutian Standard Time", "America/Adak");
  ("Altai Standard Time", "Asia/Barnaul");
  ("Arab Standard Time", "Asia/Riyadh");
  ("Arab Standard Time", "Asia/Bahrain");
  ("Arab Standard Time", "Asia/Kuwait");
  ("Arab Standard Time", "Asia/Qatar");
  ("Arab Standard Time", "Asia/Aden");
  ("Arabian Standard Time", "Asia/Dubai");
  ("Arabian Standard Time", "Asia/Muscat");
  ("Arabian Standard Time", "Etc/GMT-4");
  ("Arabic Standard Time", "Asia/Baghdad");
  ("Argentina Standard Time", "America/Buenos_Aires");
  ("Argentina Standard Time", "America/Argentina/La_Rioja");
  ("Argentina Standard Time", "America/Argentina/Rio_Gallegos");
  ("Argentina Standard Time", "America/Argentina/Salta");
  ("Argentina Standard Time", "America/Argentina/San_Juan");
  ("Argentina Standard Time", "America/Argentina/San_Luis");
  ("Argentina Standard Time", "America/Argentina/Tucuman");
  ("Argentina Standard Time", "America/Argentina/Ushuaia");
  ("Argentina Standard Time", "America/Catamarca");
  ("Argentina Standard Time", "America/Cordoba");
  ("Argentina Standard Time", "America/Jujuy");
  ("Argentina Standard Time", "America/Mendoza");
  ("Astrakhan Standard Time", "Europe/Astrakhan");
  ("Astrakhan Standard Time", "Europe/Ulyanovsk");
  ("Atlantic Standard Time", "America/Halifax");
  ("Atlantic Standard Time", "Atlantic/Bermuda");
  ("Atlantic Standard Time", "America/Glace_Bay");
  ("Atlantic Standard Time", "America/Goose_Bay");
  ("Atlantic Standard Time", "America/Moncton");
  ("Atlantic Standard Time", "America/Thule");
  ("Aus Central W. Standard Time", "Australia/Eucla");
  ("Azerbaijan Standard Time", "Asia/Baku");
  ("Azores Standard Time", "Atlantic/Azores");
  ("Azores Standard Time", "America/Scoresbysund");
  ("Bahia Standard Time", "America/Bahia");
  ("Bangladesh Standard Time", "Asia/Dhaka");
  ("Bangladesh Standard Time", "Asia/Thimphu");
  ("Belarus Standard Time", "Europe/Minsk");
  ("Bougainville Standard Time", "Pacific/Bougainville");
  ("Canada Central Standard Time", "America/Regina");
  ("Canada Central Standard Time", "America/Swift_Current");
  ("Cape Verde Standard Time", "Atlantic/Cape_Verde");
  ("Cape Verde Standard Time", "Etc/GMT+1");
  ("Caucasus Standard Time", "Asia/Yerevan");
  ("Cen. Australia Standard Time", "Australia/Adelaide");
  ("Cen. Australia Standard Time", "Australia/Broken_Hill");
  ("Central America Standard Time", "America/Guatemala");
  ("Central America Standard Time", "America/Belize");
  ("Central America Standard Time", "America/Costa_Rica");
  ("Central America Standard Time", "Pacific/Galapagos");
  ("Central America Standard Time", "America/Tegucigalpa");
  ("Central America Standard Time", "America/Managua");
  ("Central America Standard Time", "America/El_Salvador");
  ("Central America Standard Time", "Etc/GMT+6");
  ("Central Asia Standard Time", "Asia/Almaty");
  ("Central Asia Standard Time", "Antarctica/Vostok");
  ("Central Asia Standard Time", "Asia/Urumqi");
  ("Central Asia Standard Time", "Indian/Chagos");
  ("Central Asia Standard Time", "Asia/Bishkek");
  ("Central Asia Standard Time", "Asia/Qyzylorda");
  ("Central Asia Standard Time", "Etc/GMT-6");
  ("Central Brazilian Standard Time", "America/Cuiaba");
  ("Central Brazilian Standard Time", "America/Campo_Grande");
  ("Central Europe Standard Time", "Europe/Budapest");
  ("Central Europe Standard Time", "Europe/Tirane");
  ("Central Europe Standard Time", "Europe/Prague");
  ("Central Europe Standard Time", "Europe/Podgorica");
  ("Central Europe Standard Time", "Europe/Belgrade");
  ("Central Europe Standard Time", "Europe/Ljubljana");
  ("Central Europe Standard Time", "Europe/Bratislava");
  ("Central European Standard Time", "Europe/Warsaw");
  ("Central European Standard Time", "Europe/Sarajevo");
  ("Central European Standard Time", "Europe/Zagreb");
  ("Central European Standard Time", "Europe/Skopje");
  ("Central Pacific Standard Time", "Pacific/Guadalcanal");
  ("Central Pacific Standard Time", "Antarctica/Macquarie");
  ("Central Pacific Standard Time", "Pacific/Ponape");
  ("Central Pacific Standard Time", "Pacific/Kosrae");
  ("Central Pacific Standard Time", "Pacific/Noumea");
  ("Central Pacific Standard Time", "Pacific/Efate");
  ("Central Pacific Standard Time", "Etc/GMT-11");
  ("Central Standard Time", "America/Chicago");
  ("Central Standard Time", "America/Winnipeg");
  ("Central Standard Time", "America/Rainy_River");
  ("Central Standard Time", "America/Rankin_Inlet");
  ("Central Standard Time", "America/Resolute");
  ("Central Standard Time", "America/Matamoros");
  ("Central Standard Time", "America/Indiana/Knox");
  ("Central Standard Time", "America/Indiana/Tell_City");
  ("Central Standard Time", "America/Menominee");
  ("Central Standard Time", "America/North_Dakota/Beulah");
  ("Central Standard Time", "America/North_Dakota/Center");
  ("Central Standard Time", "America/North_Dakota/New_Salem");
  ("Central Standard Time", "CST6CDT");
  ("Central Standard Time (Mexico)", "America/Mexico_City");
  ("Central Standard Time (Mexico)", "America/Bahia_Banderas");
  ("Central Standard Time (Mexico)", "America/Merida");
  ("Central Standard Time (Mexico)", "America/Monterrey");
  ("Chatham Islands Standard Time", "Pacific/Chatham");
  ("China Standard Time", "Asia/Shanghai");
  ("China Standard Time", "Asia/Hong_Kong");
  ("China Standard Time", "Asia/Macau");
  ("Cuba Standard Time", "America/Havana");
  ("Dateline Standard Time", "Etc/GMT+12");
  ("E. Africa Standard Time", "Africa/Nairobi");
  ("E. Africa Standard Time", "Antarctica/Syowa");
  ("E. Africa Standard Time", "Africa/Djibouti");
  ("E. Africa Standard Time", "Africa/Asmera");
  ("E. Africa Standard Time", "Africa/Addis_Ababa");
  ("E. Africa Standard Time", "Indian/Comoro");
  ("E. Africa Standard Time", "Indian/Antananarivo");
  ("E. Africa Standard Time", "Africa/Khartoum");
  ("E. Africa Standard Time", "Africa/Mogadishu");
  ("E. Africa Standard Time", "Africa/Juba");
  ("E. Africa Standard Time", "Africa/Dar_es_Salaam");
  ("E. Africa Standard Time", "Africa/Kampala");
  ("E. Africa Standard Time", "Indian/Mayotte");
  ("E. Africa Standard Time", "Etc/GMT-3");
  ("E. Australia Standard Time", "Australia/Brisbane");
  ("E. Australia Standard Time", "Australia/Lindeman");
  ("E. Europe Standard Time", "Europe/Chisinau");
  ("E. South America Standard Time", "America/Sao_Paulo");
  ("Easter Island Standard Time", "Pacific/Easter");
  ("Eastern Standard Time", "America/New_York");
  ("Eastern Standard Time", "America/Nassau");
  ("Eastern Standard Time", "America/Toronto");
  ("Eastern Standard Time", "America/Iqaluit");
  ("Eastern Standard Time", "America/Montreal");
  ("Eastern Standard Time", "America/Nipigon");
  ("Eastern Standard Time", "America/Pangnirtung");
  ("Eastern Standard Time", "America/Thunder_Bay");
  ("Eastern Standard Time", "America/Detroit");
  ("Eastern Standard Time", "America/Indiana/Petersburg");
  ("Eastern Standard Time", "America/Indiana/Vincennes");
  ("Eastern Standard Time", "America/Indiana/Winamac");
  ("Eastern Standard Time", "America/Kentucky/Monticello");
  ("Eastern Standard Time", "America/Louisville");
  ("Eastern Standard Time", "EST5EDT");
  ("Eastern Standard Time (Mexico)", "America/Cancun");
  ("Egypt Standard Time", "Africa/Cairo");
  ("Ekaterinburg Standard Time", "Asia/Yekaterinburg");
  ("FLE Standard Time", "Europe/Kiev");
  ("FLE Standard Time", "Europe/Mariehamn");
  ("FLE Standard Time", "Europe/Sofia");
  ("FLE Standard Time", "Europe/Tallinn");
  ("FLE Standard Time", "Europe/Helsinki");
  ("FLE Standard Time", "Europe/Vilnius");
  ("FLE Standard Time", "Europe/Riga");
  ("FLE Standard Time", "Europe/Uzhgorod");
  ("FLE Standard Time", "Europe/Zaporozhye");
  ("Fiji Standard Time", "Pacific/Fiji");
  ("GMT Standard Time", "Europe/London");
  ("GMT Standard Time", "Atlantic/Canary");
  ("GMT Standard Time", "Atlantic/Faeroe");
  ("GMT Standard Time", "Europe/Guernsey");
  ("GMT Standard Time", "Europe/Dublin");
  ("GMT Standard Time", "Europe/Isle_of_Man");
  ("GMT Standard Time", "Europe/Jersey");
  ("GMT Standard Time", "Europe/Lisbon");
  ("GMT Standard Time", "Atlantic/Madeira");
  ("GTB Standard Time", "Europe/Bucharest");
  ("GTB Standard Time", "Asia/Nicosia");
  ("GTB Standard Time", "Europe/Athens");
  ("Georgian Standard Time", "Asia/Tbilisi");
  ("Greenland Standard Time", "America/Godthab");
  ("Greenwich Standard Time", "Atlantic/Reykjavik");
  ("Greenwich Standard Time", "Africa/Ouagadougou");
  ("Greenwich Standard Time", "Africa/Abidjan");
  ("Greenwich Standard Time", "Africa/Accra");
  ("Greenwich Standard Time", "Africa/Banjul");
  ("Greenwich Standard Time", "Africa/Conakry");
  ("Greenwich Standard Time", "Africa/Bissau");
  ("Greenwich Standard Time", "Africa/Monrovia");
  ("Greenwich Standard Time", "Africa/Bamako");
  ("Greenwich Standard Time", "Africa/Nouakchott");
  ("Greenwich Standard Time", "Atlantic/St_Helena");
  ("Greenwich Standard Time", "Africa/Freetown");
  ("Greenwich Standard Time", "Africa/Dakar");
  ("Greenwich Standard Time", "Africa/Sao_Tome");
  ("Greenwich Standard Time", "Africa/Lome");
  ("Haiti Standard Time", "America/Port-au-Prince");
  ("Hawaiian Standard Time", "Pacific/Honolulu");
  ("Hawaiian Standard Time", "Pacific/Rarotonga");
  ("Hawaiian Standard Time", "Pacific/Tahiti");
  ("Hawaiian Standard Time", "Pacific/Johnston");
  ("Hawaiian Standard Time", "Etc/GMT+10");
  ("India Standard Time", "Asia/Calcutta");
  ("Iran Standard Time", "Asia/Tehran");
  ("Israel Standard Time", "Asia/Jerusalem");
  ("Jordan Standard Time", "Asia/Amman");
  ("Kaliningrad Standard Time", "Europe/Kaliningrad");
  ("Korea Standard Time", "Asia/Seoul");
  ("Libya Standard Time", "Africa/Tripoli");
  ("Line Islands Standard Time", "Pacific/Kiritimati");
  ("Line Islands Standard Time", "Etc/GMT-14");
  ("Lord Howe Standard Time", "Australia/Lord_Howe");
  ("Magadan Standard Time", "Asia/Magadan");
  ("Marquesas Standard Time", "Pacific/Marquesas");
  ("Mauritius Standard Time", "Indian/Mauritius");
  ("Mauritius Standard Time", "Indian/Reunion");
  ("Mauritius Standard Time", "Indian/Mahe");
  ("Middle East Standard Time", "Asia/Beirut");
  ("Montevideo Standard Time", "America/Montevideo");
  ("Morocco Standard Time", "Africa/Casablanca");
  ("Morocco Standard Time", "Africa/El_Aaiun");
  ("Mountain Standard Time", "America/Denver");
  ("Mountain Standard Time", "America/Edmonton");
  ("Mountain Standard Time", "America/Cambridge_Bay");
  ("Mountain Standard Time", "America/Inuvik");
  ("Mountain Standard Time", "America/Yellowknife");
  ("Mountain Standard Time", "America/Ojinaga");
  ("Mountain Standard Time", "America/Boise");
  ("Mountain Standard Time", "MST7MDT");
  ("Mountain Standard Time (Mexico)", "America/Chihuahua");
  ("Mountain Standard Time (Mexico)", "America/Mazatlan");
  ("Myanmar Standard Time", "Asia/Rangoon");
  ("Myanmar Standard Time", "Indian/Cocos");
  ("N. Central Asia Standard Time", "Asia/Novosibirsk");
  ("N. Central Asia Standard Time", "Asia/Omsk");
  ("Namibia Standard Time", "Africa/Windhoek");
  ("Nepal Standard Time", "Asia/Katmandu");
  ("New Zealand Standard Time", "Pacific/Auckland");
  ("New Zealand Standard Time", "Antarctica/McMurdo");
  ("Newfoundland Standard Time", "America/St_Johns");
  ("Norfolk Standard Time", "Pacific/Norfolk");
  ("North Asia East Standard Time", "Asia/Irkutsk");
  ("North Asia Standard Time", "Asia/Krasnoyarsk");
  ("North Asia Standard Time", "Asia/Novokuznetsk");
  ("North Korea Standard Time", "Asia/Pyongyang");
  ("Pacific SA Standard Time", "America/Santiago");
  ("Pacific SA Standard Time", "Antarctica/Palmer");
  ("Pacific Standard Time", "America/Los_Angeles");
  ("Pacific Standard Time", "America/Vancouver");
  ("Pacific Standard Time", "America/Dawson");
  ("Pacific Standard Time", "America/Whitehorse");
  ("Pacific Standard Time", "PST8PDT");
  ("Pacific Standard Time (Mexico)", "America/Tijuana");
  ("Pacific Standard Time (Mexico)", "America/Santa_Isabel");
  ("Pakistan Standard Time", "Asia/Karachi");
  ("Paraguay Standard Time", "America/Asuncion");
  ("Romance Standard Time", "Europe/Paris");
  ("Romance Standard Time", "Europe/Brussels");
  ("Romance Standard Time", "Europe/Copenhagen");
  ("Romance Standard Time", "Europe/Madrid");
  ("Romance Standard Time", "Africa/Ceuta");
  ("Russia Time Zone 10", "Asia/Srednekolymsk");
  ("Russia Time Zone 11", "Asia/Kamchatka");
  ("Russia Time Zone 11", "Asia/Anadyr");
  ("Russia Time Zone 3", "Europe/Samara");
  ("Russian Standard Time", "Europe/Moscow");
  ("Russian Standard Time", "Europe/Kirov");
  ("Russian Standard Time", "Europe/Simferopol");
  ("Russian Standard Time", "Europe/Volgograd");
  ("SA Eastern Standard Time", "America/Cayenne");
  ("SA Eastern Standard Time", "Antarctica/Rothera");
  ("SA Eastern Standard Time", "America/Fortaleza");
  ("SA Eastern Standard Time", "America/Belem");
  ("SA Eastern Standard Time", "America/Maceio");
  ("SA Eastern Standard Time", "America/Recife");
  ("SA Eastern Standard Time", "America/Santarem");
  ("SA Eastern Standard Time", "Atlantic/Stanley");
  ("SA Eastern Standard Time", "America/Paramaribo");
  ("SA Eastern Standard Time", "Etc/GMT+3");
  ("SA Pacific Standard Time", "America/Bogota");
  ("SA Pacific Standard Time", "America/Rio_Branco");
  ("SA Pacific Standard Time", "America/Eirunepe");
  ("SA Pacific Standard Time", "America/Coral_Harbour");
  ("SA Pacific Standard Time", "America/Guayaquil");
  ("SA Pacific Standard Time", "America/Jamaica");
  ("SA Pacific Standard Time", "America/Cayman");
  ("SA Pacific Standard Time", "America/Panama");
  ("SA Pacific Standard Time", "America/Lima");
  ("SA Pacific Standard Time", "Etc/GMT+5");
  ("SA Western Standard Time", "America/La_Paz");
  ("SA Western Standard Time", "America/Antigua");
  ("SA Western Standard Time", "America/Anguilla");
  ("SA Western Standard Time", "America/Aruba");
  ("SA Western Standard Time", "America/Barbados");
  ("SA Western Standard Time", "America/St_Barthelemy");
  ("SA Western Standard Time", "America/Kralendijk");
  ("SA Western Standard Time", "America/Manaus");
  ("SA Western Standard Time", "America/Boa_Vista");
  ("SA Western Standard Time", "America/Porto_Velho");
  ("SA Western Standard Time", "America/Blanc-Sablon");
  ("SA Western Standard Time", "America/Curacao");
  ("SA Western Standard Time", "America/Dominica");
  ("SA Western Standard Time", "America/Santo_Domingo");
  ("SA Western Standard Time", "America/Grenada");
  ("SA Western Standard Time", "America/Guadeloupe");
  ("SA Western Standard Time", "America/Guyana");
  ("SA Western Standard Time", "America/St_Kitts");
  ("SA Western Standard Time", "America/St_Lucia");
  ("SA Western Standard Time", "America/Marigot");
  ("SA Western Standard Time", "America/Martinique");
  ("SA Western Standard Time", "America/Montserrat");
  ("SA Western Standard Time", "America/Puerto_Rico");
  ("SA Western Standard Time", "America/Lower_Princes");
  ("SA Western Standard Time", "America/Port_of_Spain");
  ("SA Western Standard Time", "America/St_Vincent");
  ("SA Western Standard Time", "America/Tortola");
  ("SA Western Standard Time", "America/St_Thomas");
  ("SA Western Standard Time", "Etc/GMT+4");
  ("SE Asia Standard Time", "Asia/Bangkok");
  ("SE Asia Standard Time", "Antarctica/Davis");
  ("SE Asia Standard Time", "Indian/Christmas");
  ("SE Asia Standard Time", "Asia/Jakarta");
  ("SE Asia Standard Time", "Asia/Pontianak");
  ("SE Asia Standard Time", "Asia/Phnom_Penh");
  ("SE Asia Standard Time", "Asia/Vientiane");
  ("SE Asia Standard Time", "Asia/Saigon");
  ("SE Asia Standard Time", "Etc/GMT-7");
  ("Saint Pierre Standard Time", "America/Miquelon");
  ("Sakhalin Standard Time", "Asia/Sakhalin");
  ("Samoa Standard Time", "Pacific/Apia");
  ("Singapore Standard Time", "Asia/Singapore");
  ("Singapore Standard Time", "Asia/Brunei");
  ("Singapore Standard Time", "Asia/Makassar");
  ("Singapore Standard Time", "Asia/Kuala_Lumpur");
  ("Singapore Standard Time", "Asia/Kuching");
  ("Singapore Standard Time", "Asia/Manila");
  ("Singapore Standard Time", "Etc/GMT-8");
  ("South Africa Standard Time", "Africa/Johannesburg");
  ("South Africa Standard Time", "Africa/Bujumbura");
  ("South Africa Standard Time", "Africa/Gaborone");
  ("South Africa Standard Time", "Africa/Lubumbashi");
  ("South Africa Standard Time", "Africa/Maseru");
  ("South Africa Standard Time", "Africa/Blantyre");
  ("South Africa Standard Time", "Africa/Maputo");
  ("South Africa Standard Time", "Africa/Kigali");
  ("South Africa Standard Time", "Africa/Mbabane");
  ("South Africa Standard Time", "Africa/Lusaka");
  ("South Africa Standard Time", "Africa/Harare");
  ("South Africa Standard Time", "Etc/GMT-2");
  ("Sri Lanka Standard Time", "Asia/Colombo");
  ("Syria Standard Time", "Asia/Damascus");
  ("Taipei Standard Time", "Asia/Taipei");
  ("Tasmania Standard Time", "Australia/Hobart");
  ("Tasmania Standard Time", "Australia/Currie");
  ("Tocantins Standard Time", "America/Araguaina");
  ("Tokyo Standard Time", "Asia/Tokyo");
  ("Tokyo Standard Time", "Asia/Jayapura");
  ("Tokyo Standard Time", "Pacific/Palau");
  ("Tokyo Standard Time", "Asia/Dili");
  ("Tokyo Standard Time", "Etc/GMT-9");
  ("Tomsk Standard Time", "Asia/Tomsk");
  ("Tonga Standard Time", "Pacific/Tongatapu");
  ("Tonga Standard Time", "Pacific/Enderbury");
  ("Tonga Standard Time", "Pacific/Fakaofo");
  ("Tonga Standard Time", "Etc/GMT-13");
  ("Transbaikal Standard Time", "Asia/Chita");
  ("Turkey Standard Time", "Europe/Istanbul");
  ("Turks And Caicos Standard Time", "America/Grand_Turk");
  ("US Eastern Standard Time", "America/Indianapolis");
  ("US Eastern Standard Time", "America/Indiana/Marengo");
  ("US Eastern Standard Time", "America/Indiana/Vevay");
  ("US Mountain Standard Time", "America/Phoenix");
  ("US Mountain Standard Time", "America/Dawson_Creek");
  ("US Mountain Standard Time", "America/Creston");
  ("US Mountain Standard Time", "America/Fort_Nelson");
  ("US Mountain Standard Time", "America/Hermosillo");
  ("US Mountain Standard Time", "Etc/GMT+7");
  ("UTC", "Etc/GMT");
  ("UTC", "America/Danmarkshavn");
  ("UTC+12", "Etc/GMT-12");
  ("UTC+12", "Pacific/Tarawa");
  ("UTC+12", "Pacific/Majuro");
  ("UTC+12", "Pacific/Kwajalein");
  ("UTC+12", "Pacific/Nauru");
  ("UTC+12", "Pacific/Funafuti");
  ("UTC+12", "Pacific/Wake");
  ("UTC+12", "Pacific/Wallis");
  ("UTC-02", "Etc/GMT+2");
  ("UTC-02", "America/Noronha");
  ("UTC-02", "Atlantic/South_Georgia");
  ("UTC-08", "Etc/GMT+8");
  ("UTC-08", "Pacific/Pitcairn");
  ("UTC-09", "Etc/GMT+9");
  ("UTC-09", "Pacific/Gambier");
  ("UTC-11", "Etc/GMT+11");
  ("UTC-11", "Pacific/Pago_Pago");
  ("UTC-11", "Pacific/Niue");
  ("UTC-11", "Pacific/Midway");
  ("Ulaanbaatar Standard Time", "Asia/Ulaanbaatar");
  ("Ulaanbaatar Standard Time", "Asia/Choibalsan");
  ("Venezuela Standard Time", "America/Caracas");
  ("Vladivostok Standard Time", "Asia/Vladivostok");
  ("Vladivostok Standard Time", "Asia/Ust-Nera");
  ("W. Australia Standard Time", "Australia/Perth");
  ("W. Australia Standard Time", "Antarctica/Casey");
  ("W. Central Africa Standard Time", "Africa/Lagos");
  ("W. Central Africa Standard Time", "Africa/Luanda");
  ("W. Central Africa Standard Time", "Africa/Porto-Novo");
  ("W. Central Africa Standard Time", "Africa/Kinshasa");
  ("W. Central Africa Standard Time", "Africa/Bangui");
  ("W. Central Africa Standard Time", "Africa/Brazzaville");
  ("W. Central Africa Standard Time", "Africa/Douala");
  ("W. Central Africa Standard Time", "Africa/Algiers");
  ("W. Central Africa Standard Time", "Africa/Libreville");
  ("W. Central Africa Standard Time", "Africa/Malabo");
  ("W. Central Africa Standard Time", "Africa/Niamey");
  ("W. Central Africa Standard Time", "Africa/Ndjamena");
  ("W. Central Africa Standard Time", "Africa/Tunis");
  ("W. Central Africa Standard Time", "Etc/GMT-1");
  ("W. Europe Standard Time", "Europe/Berlin");
  ("W. Europe Standard Time", "Europe/Andorra");
  ("W. Europe Standard Time", "Europe/Vienna");
  ("W. Europe Standard Time", "Europe/Zurich");
  ("W. Europe Standard Time", "Europe/Busingen");
  ("W. Europe Standard Time", "Europe/Gibraltar");
  ("W. Europe Standard Time", "Europe/Rome");
  ("W. Europe Standard Time", "Europe/Vaduz");
  ("W. Europe Standard Time", "Europe/Luxembourg");
  ("W. Europe Standard Time", "Europe/Monaco");
  ("W. Europe Standard Time", "Europe/Malta");
  ("W. Europe Standard Time", "Europe/Amsterdam");
  ("W. Europe Standard Time", "Europe/Oslo");
  ("W. Europe Standard Time", "Europe/Stockholm");
  ("W. Europe Standard Time", "Arctic/Longyearbyen");
  ("W. Europe Standard Time", "Europe/San_Marino");
  ("W. Europe Standard Time", "Europe/Vatican");
  ("W. Mongolia Standard Time", "Asia/Hovd");
  ("West Asia Standard Time", "Asia/Tashkent");
  ("West Asia Standard Time", "Antarctica/Mawson");
  ("West Asia Standard Time", "Asia/Oral");
  ("West Asia Standard Time", "Asia/Aqtau");
  ("West Asia Standard Time", "Asia/Aqtobe");
  ("West Asia Standard Time", "Indian/Maldives");
  ("West Asia Standard Time", "Indian/Kerguelen");
  ("West Asia Standard Time", "Asia/Dushanbe");
  ("West Asia Standard Time", "Asia/Ashgabat");
  ("West Asia Standard Time", "Asia/Samarkand");
  ("West Asia Standard Time", "Etc/GMT-5");
  ("West Bank Standard Time", "Asia/Hebron");
  ("West Bank Standard Time", "Asia/Gaza");
  ("West Pacific Standard Time", "Pacific/Port_Moresby");
  ("West Pacific Standard Time", "Antarctica/DumontDUrville");
  ("West Pacific Standard Time", "Pacific/Truk");
  ("West Pacific Standard Time", "Pacific/Guam");
  ("West Pacific Standard Time", "Pacific/Saipan");
  ("West Pacific Standard Time", "Etc/GMT-10");
  ("Yakutsk Standard Time", "Asia/Yakutsk");
  ("Yakutsk Standard Time", "Asia/Khandyga")
].

End Win.
Import Win.

(** What [System::runCommand] reports, and the text found afterwards in the
    file that received the output. *)
Record CommandResult := mkCommandResult {
  commandRan : bool;
  exitCode : Z;
  captured : string
}.

(** The two calls of [tempfile_create], lines 1256 and 1316: each strategy
    asks for a file of its own, and the two requests are answered
    separately. *)
Inductive tempfile_call := ZdumpOutput | DateOutput.

Record Host := mkHost {
  platform : Platform;
  (** [time(NULL)] *)
  host_time : Z;
  (** [localtime]; [None] for a null result *)
  host_localtime : Z -> option tm;
  host_getenv : string -> option string;
  host_fs : FileSystem;
  (** [tempfile_create] and [tempfile_path] at each of the two calls;
      [None] when no file is made *)
  host_tempfile : tempfile_call -> option string;
  (** [System::runCommand(argv, flags, timeout, &exitCode, nullptr, file)] *)
  host_runCommand : list string -> Z -> string -> CommandResult;
  (** [strftime(buf, n, "%Z", tm)]: the text left in the buffer *)
  host_strftime_Z : tm -> string;
  (** [RegOpenKeyEx(HKEY_LOCAL_MACHINE, path, ...)]: the result code *)
  host_RegOpenKeyEx : string -> Z;
  (** [RegQueryValueEx(key of path, name, ...)] *)
  host_RegQueryValueEx : string -> string -> RegQuery
}.

(** ** The offset engine: class [TimeZone] *)

Record TimeZone := mkTimeZone {
  mStandardDateUtc : tm;
  mDaylightDateUtc : tm;
  mStandardOffset : Z;
  mDaylightOffset : Z;
  mCurrentYear : Z;
  mAndroidTimeZoneInit : Z;
  mTimeZoneName : string
}.

Definition set_mStandardDateUtc (v : tm) (z : TimeZone) : TimeZone :=
  mkTimeZone v (mDaylightDateUtc z) (mStandardOffset z) (mDaylightOffset z)
             (mCurrentYear z) (mAndroidTimeZoneInit z) (mTimeZoneName z).
Definition set_mDaylightDateUtc (v : tm) (z : TimeZone) : TimeZone :=
  mkTimeZone (mStandardDateUtc z) v (mStandardOffset z) (mDaylightOffset z)
             (mCurrentYear z) (mAndroidTimeZoneInit z) (mTimeZoneName z).
Definition set_mStandardOffset (v : Z) (z : TimeZone) : TimeZone :=
  mkTimeZone (mStandardDateUtc z) (mDaylightDateUtc z) v (mDaylightOffset z)
             (mCurrentYear z) (mAndroidTimeZoneInit z) (mTimeZoneName z).
Definition set_mDaylightOffset (v : Z) (z : TimeZone) : TimeZone :=
  mkTimeZone (mStandardDateUtc z) (mDaylightDateUtc z) (mStandardOffset z) v
             (mCurrentYear z) (mAndroidTimeZoneInit z) (mTimeZoneName z).
Definition set_mCurrentYear (v : Z) (z : TimeZone) : TimeZone :=
  mkTimeZone (mStandardDateUtc z) (mDaylightDateUtc z) (mStandardOffset z)
             (mDaylightOffset z) v (mAndroidTimeZoneInit z) (mTimeZoneName z).
Definition set_mAndroidTimeZoneInit (v : Z) (z : TimeZone) : TimeZone :=
  mkTimeZone (mStandardDateUtc z) (mDaylightDateUtc z) (mStandardOffset z)
             (mDaylightOffset z) (mCurrentYear z) v (mTimeZoneName z).
Definition set_mTimeZoneName (v : string) (z : TimeZone) : TimeZone :=
  mkTimeZone (mStandardDateUtc z) (mDaylightDateUtc z) (mStandardOffset z)
             (mDaylightOffset z) (mCurrentYear z) (mAndroidTimeZoneInit z) v.

(** [TimeZone::TimeZone()], lines 1016-1021.  The members that the
    constructor leaves alone are those of the zero-filled static storage in
    which the [LazyInstance] builds the object. *)
Definition TimeZone_new (host : Host) : TimeZone :=
  let timeNow := host_time host in
  mkTimeZone tm_zero tm_zero 0 0 (tm_year (gmtime timeNow) + 1900) 0 "".

(** [TimeZone::getIsDaylightSavingTime], lines 1103-1115. *)
Definition getIsDaylightSavingTime (this : TimeZone) (timeNow : Z) : Z :=
  if mDaylightOffset this =? 0 then -1
  else
    let utc := gmtime timeNow in
    if (utcCompare utc (mStandardDateUtc this) <? 0)
       || (utcCompare utc (mDaylightDateUtc this) >=? 0)
    then 0
    else 1.

(** [TimeZone::getTimeZoneDiff], lines 1117-1121. *)
Definition getTimeZoneDiff (this : TimeZone) (timeNow : Z) : Z :=
  let isdst := getIsDaylightSavingTime this timeNow in
  if isdst <=? 0 then mStandardOffset this
  else mStandardOffset this + mDaylightOffset this.

(** Dereferencing a pointer that may be null. *)
Definition deref {S A} (p : option A) : M S A :=
  match p with
  | Some a => ret a
  | None => abort Undefined
  end.

(** Running a computation on a local variable of the caller. *)
Definition with_local {S T A} (init : T) (m : M T A) : M S (A * T) :=
  fun s =>
    let r := m init in
    mkRun (match outcome r with
           | Ok a => Ok (a, final r)
           | Abort f => Abort f
           end) s (emitted r).

(** *** Registry strategy (Windows) *)

(** [TimeZone::parseTimeZoneInformationFromRegistry], lines 1156-1202; the
    state is [*tzi]. *)
Definition parseTimeZoneInformationFromRegistry (host : Host)
    (winName : string) : M TIME_ZONE_INFORMATION Z :=
  let registryPath :=
    "SOFTWARE\Microsoft\Windows NT\CurrentVersion\Time Zones\" ++ winName in
  emit (EvRegistry registryPath) ;;;
  let result := host_RegOpenKeyEx host registryPath in
  if negb (result =? ERROR_SUCCESS) then ret (-1)
  else
    let q := host_RegQueryValueEx host registryPath "TZI" in
    if negb (query_result q =? ERROR_SUCCESS)
       || negb (query_dataType q =? REG_BINARY)
    then ret (-1)
    else
      let binaryTzi := query_data q in
      modify (fun _ =>
        mkREG_TZI_FORMAT (Bias binaryTzi) (StandardBias binaryTzi)
          (DaylightBias binaryTzi) (StandardDate binaryTzi)
          (DaylightDate binaryTzi)) ;;;
      ret 0.

(** [TimeZone::parseSystemTime], lines 1204-1212; the state is
    [*androidTime]. *)
Definition parseSystemTime (winTime : SYSTEMTIME) : M tm unit :=
  modify (set_tm_year (wYear winTime - 1900)) ;;;
  modify (set_tm_mon (wMonth winTime - 1)) ;;;
  modify (set_tm_mday (wDay winTime)) ;;;
  modify (set_tm_hour (wHour winTime)) ;;;
  modify (set_tm_min (wMinute winTime)) ;;;
  modify (set_tm_sec (wSecond winTime)).

(** *** External-utility strategies (Unix) *)

Definition kMonthName : list string :=
  ["Jan"; "Feb"; "Mar"; "Apr"; "May"; "Jun";
   "Jul"; "Aug"; "Sep"; "Oct"; "Nov"; "Dec"].

(** The loop of [parseZdumpDate] over [kMonthName]: the index of the first
    name equal to [token], from [i] on, or -1. *)
Fixpoint month_index (names : list string) (i : Z) (token : string) : Z :=
  match names with
  | [] => -1
  | name :: names' =>
      if String.eqb token name then i else month_index names' (i + 1) token
  end.

(** [TimeZone::parseZdumpDate], lines 1216-1239; the state is [*date]. *)
Definition parseZdumpDate (tokens : list string) : M tm Z :=
  if (4 <=? List.length tokens)%nat then
    let monIdx := month_index kMonthName 0 (nth 0 tokens "") in
    if monIdx =? -1 then ret (-1)
    else
      modify (set_tm_mon monIdx) ;;;
      mday <- lift (stoi (nth 1 tokens "")) ;;
      modify (set_tm_mday mday) ;;;
      hh <- lift (substr 0 2 (nth 2 tokens "")) ;;
      hour <- lift (stoi hh) ;;
      modify (set_tm_hour hour) ;;;
      mm <- lift (substr 3 2 (nth 2 tokens "")) ;;
      min <- lift (stoi mm) ;;
      modify (set_tm_min min) ;;;
      ss <- lift (substr 6 2 (nth 2 tokens "")) ;;
      sec <- lift (stoi ss) ;;
      modify (set_tm_sec sec) ;;;
      year <- lift (stoi (nth 3 tokens "")) ;;
      modify (set_tm_year (year - 1900)) ;;;
      ret 0
  else ret (-1).

(** One turn of the loop of [setAndroidTimeZoneUsingZdump], lines 1276-1297,
    for the rule of index [i] (1 or 3).  [inl r]: the function returns [r];
    [inr d]: the turn ends with the offset [d] computed. *)
Definition zdump_rule (i : Z) (rule : string) : M TimeZone (Z + Z) :=
  let tokens := tokenize rule in
  utcTokens <- lift (vector_range 2 6 tokens) ;;
  r <- (if i =? 1
        then zoom mStandardDateUtc set_mStandardDateUtc
                  (parseZdumpDate utcTokens)
        else zoom mDaylightDateUtc set_mDaylightDateUtc
                  (parseZdumpDate utcTokens)) ;;
  if negb (r =? 0) then ret (inl (-1))
  else
    localTokens <- lift (vector_range 9 13 tokens) ;;
    p <- with_local tm_zero (parseZdumpDate localTokens) ;;
    let '(r', localDate) := p in
    if negb (r' =? 0) then ret (inl (-1))
    else
      this <- get ;;
      if i =? 1
      then ret (inr (diffTime localDate (mStandardDateUtc this)))
      else ret (inr (diffTime localDate (mDaylightDateUtc this))).

(** [TimeZone::setAndroidTimeZoneUsingZdump], lines 1241-1304.  The loop
    [for (i = 1; i < 4; i += 2)] has the two turns written out. *)
Definition setAndroidTimeZoneUsingZdump (host : Host) : M TimeZone Z :=
  this <- get ;;
  let zdumpCmd :=
    "zdump -v " ++ mTimeZoneName this ++ " | grep "
      ++ format_d (mCurrentYear this) in
  let shellCmd := ["/bin/bash"; "-c"; zdumpCmd] in
  let timeout := 5000 in
  match host_tempfile host ZdumpOutput with
  | None => ret (-1)
  | Some outputFilepath =>
      emit (EvRunCommand shellCmd timeout) ;;;
      let run := host_runCommand host shellCmd timeout outputFilepath in
      if commandRan run && (exitCode run =? 0) then
        let rules := getlines (captured run) in
        if (List.length rules =? 4)%nat then
          r1 <- zdump_rule 1 (nth 1 rules "") ;;
          match r1 with
          | inl r => ret r
          | inr utcOffsetDST =>
              r3 <- zdump_rule 3 (nth 3 rules "") ;;
              match r3 with
              | inl r => ret r
              | inr utcOffsetStandard =>
                  modify (set_mStandardOffset utcOffsetStandard) ;;;
                  modify (set_mDaylightOffset
                            (utcOffsetDST - utcOffsetStandard)) ;;;
                  ret 0
              end
          end
        else ret (-1)
      else ret (-1)
  end.

(** [TimeZone::setAndroidTimeZoneUsingDate], lines 1306-1337. *)
Definition setAndroidTimeZoneUsingDate (host : Host) : M TimeZone Z :=
  this <- get ;;
  let dateCmd := "TZ=" ++ mTimeZoneName this ++ " date +%z" in
  let shellCmd := ["/bin/bash"; "-c"; dateCmd] in
  let timeout := 1000 in
  match host_tempfile host DateOutput with
  | None => ret (-1)
  | Some outputFilepath =>
      emit (EvRunCommand shellCmd timeout) ;;;
      let run := host_runCommand host shellCmd timeout outputFilepath in
      if commandRan run && (exitCode run =? 0) then
        let tzdiff := getline_first (captured run) in
        let sign := if Ascii.eqb (front_char tzdiff) "+" then 1 else -1 in
        hh <- lift (substr 1 2 tzdiff) ;;
        hours <- lift (stoi hh) ;;
        mm <- lift (substr 3 2 tzdiff) ;;
        minutes <- lift (stoi mm) ;;
        modify (set_mStandardOffset (sign * (60 * (hours * 60 + minutes)))) ;;;
        modify (set_mDaylightOffset 0) ;;;
        ret 0
      else ret (-1)
  end.

(** *** The resolver and the queries *)

(** The loop of [androidTimeZoneSet] over [_win32_timezones]: the Windows
    name of the first row whose zoneinfo name is [tzname]. *)
Fixpoint find_win_name (rows : list (string * string)) (tzname : string)
  : option string :=
  match rows with
  | [] => None
  | (win_name, zoneinfo_name) :: rows' =>
      if String.eqb zoneinfo_name tzname then Some win_name
      else find_win_name rows' tzname
  end.

(** The part of [androidTimeZoneSet] that depends on the platform, lines
    1345-1378. *)
Definition resolve_on_platform (host : Host) (tzname : string)
  : M TimeZone unit :=
  match platform host with
  | Win32 =>
      match find_win_name _win32_timezones tzname with
      | Some winName =>
          p <- with_local TZI_zero
                 (parseTimeZoneInformationFromRegistry host winName) ;;
          let '(failed, win_tzi) := p in
          if negb (failed =? 0) then ret tt
          else
            modify (set_mStandardOffset (- StandardBias win_tzi * 60)) ;;;
            modify (set_mDaylightOffset (- DaylightBias win_tzi * 60)) ;;;
            this <- get ;;
            (if negb (mDaylightOffset this =? 0) then
               zoom mStandardDateUtc set_mStandardDateUtc
                    (parseSystemTime (StandardDate win_tzi)) ;;;
               zoom mStandardDateUtc set_mStandardDateUtc
                    (parseSystemTime (DaylightDate win_tzi))
             else ret tt) ;;;
            modify (set_mAndroidTimeZoneInit 1)
      | None => ret tt
      end
  | _ =>
      r1 <- setAndroidTimeZoneUsingZdump host ;;
      if negb (r1 =? 0) then
        r2 <- setAndroidTimeZoneUsingDate host ;;
        if negb (r2 =? 0) then ret tt
        else modify (set_mAndroidTimeZoneInit 1)
      else modify (set_mAndroidTimeZoneInit 1)
  end.

(** [TimeZone::androidTimeZoneSet], lines 1341-1380.  The event records the
    entry into the resolver with the year it resolves for. *)
Definition androidTimeZoneSet (host : Host) (tzname : string) : M TimeZone Z :=
  modify (set_mTimeZoneName tzname) ;;;
  modify (set_mAndroidTimeZoneInit 0) ;;;
  this <- get ;;
  emit (EvResolve tzname (mCurrentYear this)) ;;;
  resolve_on_platform host tzname ;;;
  this <- get ;;
  ret (if negb (mAndroidTimeZoneInit this =? 0) then 0 else -1).

(** [TimeZone::androidTimeZoneOffset], lines 1023-1038. *)
Definition androidTimeZoneOffset (host : Host) (timeNow : Z) : M TimeZone Z :=
  this <- get ;;
  if negb (mAndroidTimeZoneInit this =? 0) then
    let year := tm_year (gmtime timeNow) + 1900 in
    (if negb (year =? mCurrentYear this) then
       modify (set_mCurrentYear year) ;;;
       this <- get ;;
       _ <- androidTimeZoneSet host (mTimeZoneName this) ;;
       ret tt
     else ret tt) ;;;
    this <- get ;;
    ret (getTimeZoneDiff this timeNow)
  else
    local <- deref (host_localtime host timeNow) ;;
    let utc := gmtime timeNow in
    ret (diffTime local utc).

(** [TimeZone::androidLocaltime], lines 1040-1060; the result is the
    returned pointer, [None] when it is null, and otherwise the [struct tm]
    it designates. *)
Definition androidLocaltime (host : Host) (timeNow : Z)
  : M TimeZone (option tm) :=
  this <- get ;;
  if negb (mAndroidTimeZoneInit this =? 0) then
    let year := tm_year (gmtime timeNow) + 1900 in
    (if negb (year =? mCurrentYear this) then
       modify (set_mCurrentYear year) ;;;
       this <- get ;;
       _ <- androidTimeZoneSet host (mTimeZoneName this) ;;
       ret tt
     else ret tt) ;;;
    this <- get ;;
    let isdst := getIsDaylightSavingTime this timeNow in
    let tzdiff := getTimeZoneDiff this timeNow in
    let localTime := timeNow + tzdiff in
    let local := gmtime localTime in
    ret (Some (set_tm_isdst isdst local))
  else
    ret (host_localtime host timeNow).

(** ** Process-wide state *)

(** The values of the pointer [android_timezone]: null, the buffer
    [android_timezone0], or a name of the static table. *)
Inductive tzptr :=
| NullPtr
| Timezone0
| TableName (zoneinfo_name : string).

Record Globals := mkGlobals {
  android_timezone0 : string;
  android_timezone : tzptr;
  android_timezone_init : Z;
  (** the [LazyInstance]: [None] until the first access builds the object *)
  sAndroidTimeZone : option TimeZone
}.

Definition set_android_timezone0 (v : string) (g : Globals) : Globals :=
  mkGlobals v (android_timezone g) (android_timezone_init g)
            (sAndroidTimeZone g).
Definition set_android_timezone (v : tzptr) (g : Globals) : Globals :=
  mkGlobals (android_timezone0 g) v (android_timezone_init g)
            (sAndroidTimeZone g).
Definition set_android_timezone_init (v : Z) (g : Globals) : Globals :=
  mkGlobals (android_timezone0 g) (android_timezone g) v (sAndroidTimeZone g).
Definition set_sAndroidTimeZone (v : option TimeZone) (g : Globals) : Globals :=
  mkGlobals (android_timezone0 g) (android_timezone g)
            (android_timezone_init g) v.

(** The state of a process that has not yet used the unit. *)
Definition Globals_start : Globals := mkGlobals "" NullPtr 0 None.

(** The string that a value of [android_timezone] designates. *)
Definition tz_string (g : Globals) (p : tzptr) : cstr :=
  match p with
  | NullPtr => None
  | Timezone0 => Some (android_timezone0 g)
  | TableName s => Some s
  end.

(** [sizeof(android_timezone0)] *)
Definition TIMEZONE0_SIZE : Z := 256.

(** [snprintf(android_timezone0, sizeof(android_timezone0), "%s", tz)] *)
Definition store_timezone0 (tz : string) : M Globals unit :=
  modify (set_android_timezone0
            (substring 0 (Z.to_nat (TIMEZONE0_SIZE - 1)) tz)).

(** The engine that [sAndroidTimeZone->] designates, built at the first
    access. *)
Definition engine_of (host : Host) (g : Globals) : TimeZone :=
  match sAndroidTimeZone g with
  | Some z => z
  | None => TimeZone_new host
  end.

(** [sAndroidTimeZone->method(...)] *)
Definition on_engine {A} (host : Host) (m : M TimeZone A) : M Globals A :=
  zoom (engine_of host) (fun z g => set_sAndroidTimeZone (Some z) g) m.

(** Modelled from the spec: [bufprint] (android/utils/bufprint.h), one of
    the consumed facilities; its definition is not among the sources.  It is
    the bounded formatter that its callers in this unit rely on:
    [bufprint room text] prints [text] at a pointer [p] with [room = end - p];
    the result is the text stored at [p] and the distance from [p] of the
    returned pointer, which is [end] as soon as the text and its terminator
    do not fit. *)
Definition bufprint (room : Z) (text : string) : string * Z :=
  if strlen text <? room then (text, strlen text)
  else (substring 0 (Z.to_nat (room - 1)) text, room).

(** ** Host zone discoverer *)

Definition ZONEINFO_DIR : string := "/usr/share/zoneinfo/".

(** *** The byte-scan of the zoneinfo tree (Linux, FreeBSD) *)

Definition LOCALTIME_FILE1 : string := "/etc/localtime".
Definition PATH_MAX_linux : Z := 4096.

(** [ScanDataRec], lines 159-165.  [path] is the text in the buffer,
    [path_root] the offset in it at which the zoneinfo root ends;
    [path_end] is [path + PATH_MAX]. *)
Record ScanDataRec := mkScanDataRec {
  scan_localtime : string;
  scan_localtime_st : stat_t;
  scan_path_root : Z;
  scan_path : string
}.

Definition set_scan_path (v : string) (s : ScanDataRec) : ScanDataRec :=
  mkScanDataRec (scan_localtime s) (scan_localtime_st s) (scan_path_root s) v.

(** The loop of [compare_timezone_to_localtime], lines 200-212, with
    [remaining] turns to go; the result is the value of [nn] when the loop
    is left.  At the end of a file [read] stores nothing, and the loop then
    compares bytes of [temp] that were never written. *)
Fixpoint compare_bytes {S} (localtime path : string) (remaining : nat)
    (nn : Z) (fd1 fd2 : list read1) : M S Z :=
  match remaining with
  | O => ret nn
  | S remaining' =>
      emit (EvRead localtime) ;;;
      match fd1 with
      | ReadError :: _ => ret nn
      | _ =>
          emit (EvRead path) ;;;
          match fd2 with
          | ReadError :: _ => ret nn
          | _ =>
              match fd1, fd2 with
              | Got b1 :: fd1', Got b2 :: fd2' =>
                  if negb (Ascii.eqb b1 b2) then ret nn
                  else compare_bytes localtime path remaining' (nn + 1)
                                     fd1' fd2'
              | _, _ => abort Undefined
              end
          end
      end
  end.

(** [compare_timezone_to_localtime], lines 167-224. *)
Definition compare_timezone_to_localtime {S} (fs : FileSystem)
    (scan : ScanDataRec) (path : string) : M S Z :=
  match fs_stat fs path with
  | None => ret 0
  | Some st =>
      if negb (st_size st =? st_size (scan_localtime_st scan)) then ret 0
      else
        emit (EvOpen (scan_localtime scan)) ;;;
        match fs_open fs (scan_localtime scan) with
        | None => ret 0
        | Some fd1 =>
            emit (EvOpen path) ;;;
            match fs_open fs path with
            | None => ret 0
            | Some fd2 =>
                nn <- compare_bytes (scan_localtime scan) path
                        (Z.to_nat (st_size st)) 0 fd1 fd2 ;;
                ret (if nn =? st_size st then 1 else 0)
            end
        end
  end.

(** [bufprint(top, scan->path_end, "/%s", d_name)] on [scan->path], [top]
    being an offset in the buffer: the new text of the buffer and the offset
    of the returned pointer. *)
Definition print_entry (scan : ScanDataRec) (top : Z) (d_name : string)
  : string * Z :=
  let '(written, len) := bufprint (PATH_MAX_linux - top) ("/" ++ d_name) in
  (substring 0 (Z.to_nat top) (scan_path scan) ++ written, top + len).

(** The [while ((ent = readdir(d)) != NULL)] loop of [scan_timezone_dir],
    lines 237-282, over the entries still to be read.  [descend] is the
    recursive call, present when [depth < 2]. *)
Fixpoint scan_entries (fs : FileSystem)
    (descend : option (Z -> M ScanDataRec cstr))
    (top : Z) (depth : Z) (entries : list string) : M ScanDataRec cstr :=
  match entries with
  | [] => ret None
  | d_name :: entries' =>
      let continue := scan_entries fs descend top depth entries' in
      if Ascii.eqb (front_char d_name) "." then continue
      else
        scan <- get ;;
        let '(path, p) := print_entry scan top d_name in
        modify (set_scan_path path) ;;;
        if p >=? PATH_MAX_linux then continue
        else
          scan <- get ;;
          match fs_lstat fs (scan_path scan) with
          | None => continue
          | Some ent_st =>
              match st_mode ent_st, descend with
              | Directory, Some scan_timezone_dir =>
                  result <- scan_timezone_dir p ;;
                  match result with
                  | Some _ => ret result
                  | None => continue
                  end
              | RegularFile, _ =>
                  if (depth >=? 1) && (depth <=? 2) then
                    let name :=
                      advance (Z.to_nat (scan_path_root scan + 1))
                              (scan_path scan) in
                    if negb (check_timezone_is_zoneinfo (Some name) =? 0) then
                      same <- compare_timezone_to_localtime fs scan
                                (scan_path scan) ;;
                      if negb (same =? 0) then ret (Some name)
                      else continue
                    else continue
                  else continue
              | _, _ => continue
              end
          end
  end.

(** [scan_timezone_dir], lines 226-286, with [depth = 2 - levels]: [levels]
    counts the directory levels that may still be entered below this one. *)
Fixpoint scan_timezone_dir (fs : FileSystem) (levels : nat) (top : Z)
  : M ScanDataRec cstr :=
  let depth := 2 - Z.of_nat levels in
  scan <- get ;;
  match fs_readdir fs (scan_path scan) with
  | None => ret None
  | Some entries =>
      scan_entries fs
        (match levels with
         | S levels' => Some (scan_timezone_dir fs levels')
         | O => None
         end)
        top depth entries
  end.

(** [tzdir.back() == '/'] followed by [tzdir.pop_back()] *)
Fixpoint drop_trailing_slash (s : string) : string :=
  match s with
  | EmptyString => EmptyString
  | String a EmptyString => if Ascii.eqb a "/" then EmptyString else s
  | String a s' => String a (drop_trailing_slash s')
  end.

(** The search of [get_zoneinfo_timezone] (Linux, FreeBSD), lines 306-397,
    entered when [TZ] gives no valid name: the value of [tz] at the label
    [Exit], or at the [return NULL] of line 329. *)
Definition discover_linux (host : Host) : M Globals cstr :=
  let fs := host_fs host in
  let zoneinfo_dir := ZONEINFO_DIR in
  let env :=
    match host_getenv host "TZDIR" with
    | Some env => env
    | None => zoneinfo_dir
    end in
  if negb (fs_access_R fs env) then ret None
  else
    let tzdir := drop_trailing_slash env in
    let localtimePtr :=
      if negb (fs_access_R fs LOCALTIME_FILE1) then
        let '(temp, p) := bufprint PATH_MAX_linux (tzdir ++ "/" ++ "localtime") in
        if (p >=? PATH_MAX_linux) || negb (fs_access_R fs temp) then None
        else Some temp
      else Some LOCALTIME_FILE1 in
    match localtimePtr with
    | None => ret None
    | Some localtime =>
        let quick :=
          match fs_readlink fs localtime with
          | Some target =>
              let temp := substring 0 (Z.to_nat (PATH_MAX_linux - 1)) target in
              let len := strlen temp in
              if len >? strlen tzdir + 2 then
                if String.prefix tzdir temp
                   && Ascii.eqb
                        (front_char (advance (String.length tzdir) temp)) "/"
                then
                  let name := advance (String.length tzdir + 1) temp in
                  if negb (check_timezone_is_zoneinfo (Some name) =? 0)
                  then Some name
                  else None
                else None
              else None
          | None => None
          end in
        match quick with
        | Some tz => ret (Some tz)
        | None =>
            match fs_stat fs localtime with
            | None => ret None
            | Some localtime_st =>
                let '(path, path_root) := bufprint PATH_MAX_linux tzdir in
                p <- with_local
                       (mkScanDataRec localtime localtime_st path_root path)
                       (scan_timezone_dir fs 2 path_root) ;;
                ret (fst p)
            end
        end
    end.

(** [get_zoneinfo_timezone] for Linux and FreeBSD, lines 288-405. *)
Definition get_zoneinfo_timezone_linux (host : Host) : M Globals cstr :=
  g <- get ;;
  if android_timezone_init g =? 0 then
    let tz := host_getenv host "TZ" in
    modify (set_android_timezone_init 1) ;;;
    let tz :=
      match tz with
      | Some s => if check_timezone_is_zoneinfo (Some s) =? 0 then None else tz
      | None => None
      end in
    tz <- match tz with
          | Some _ => ret tz
          | None => discover_linux host
          end ;;
    match tz with
    | None => ret None
    | Some tz =>
        store_timezone0 tz ;;;
        modify (set_android_timezone Timezone0) ;;;
        g <- get ;;
        ret (tz_string g (android_timezone g))
    end
  else ret (tz_string g (android_timezone g)).

Definition PATH_MAX_apple : Z := 1024.
Definition LOCALTIME_FILE : string := "/etc/localtime".

(** [get_zoneinfo_timezone] for OS X, lines 99-133.  [buff] has
    [PATH_MAX + 1] bytes and [readlink] may fill them all, in which case the
    terminator is stored past the array. *)
Definition get_zoneinfo_timezone_apple (host : Host) : M Globals cstr :=
  g <- get ;;
  if android_timezone_init g =? 0 then
    let tz := host_getenv host "TZ" in
    modify (set_android_timezone_init 1) ;;;
    tz <- match tz with
          | Some _ => ret tz
          | None =>
              match fs_readlink (host_fs host) LOCALTIME_FILE with
              | None => ret None
              | Some target =>
                  let buff :=
                    substring 0 (Z.to_nat (PATH_MAX_apple + 1)) target in
                  if strlen buff >=? PATH_MAX_apple + 1 then abort Undefined
                  else if negb (String.prefix ZONEINFO_DIR buff) then ret None
                  else
                    let name := advance (String.length ZONEINFO_DIR) buff in
                    if check_timezone_is_zoneinfo (Some name) =? 0
                    then ret None
                    else ret (Some name)
              end
          end ;;
    match tz with
    | None => ret None
    | Some tz =>
        store_timezone0 tz ;;;
        modify (set_android_timezone Timezone0) ;;;
        g <- get ;;
        ret (tz_string g (android_timezone g))
    end
  else ret (tz_string g (android_timezone g)).

(** The loop of the Windows [get_zoneinfo_timezone] over
    [_win32_timezones]: the zoneinfo name of the first row whose Windows
    name is [tzname]. *)
Fixpoint find_zoneinfo_name (rows : list (string * string)) (tzname : string)
  : option string :=
  match rows with
  | [] => None
  | (win_name, zoneinfo_name) :: rows' =>
      if String.eqb win_name tzname then Some zoneinfo_name
      else find_zoneinfo_name rows' tzname
  end.

(** [get_zoneinfo_timezone] for Windows, lines 879-916. *)
Definition get_zoneinfo_timezone_win32 (host : Host) : M Globals cstr :=
  g <- get ;;
  if android_timezone_init g =? 0 then
    let t := host_time host in
    let tm := host_localtime host t in
    modify (set_android_timezone_init 1) ;;;
    match tm with
    | None => ret None
    | Some tm =>
        let tzname := host_strftime_Z host tm in
        match find_zoneinfo_name _win32_timezones tzname with
        | Some zoneinfo_name =>
            modify (set_android_timezone (TableName zoneinfo_name)) ;;;
            g <- get ;;
            ret (tz_string g (android_timezone g))
        | None => ret None
        end
    end
  else ret (tz_string g (android_timezone g)).

Definition get_zoneinfo_timezone (host : Host) : M Globals cstr :=
  match platform host with
  | Apple => get_zoneinfo_timezone_apple host
  | Linux => get_zoneinfo_timezone_linux host
  | Win32 => get_zoneinfo_timezone_win32 host
  end.

(** [bufprint_zoneinfo_timezone(p, end)], lines 79-88, with
    [room = end - p]: the text stored at [p] and the distance from [p] of
    the returned pointer. *)
Definition bufprint_zoneinfo_timezone (host : Host) (room : Z)
  : M Globals (string * Z) :=
  tz <- get_zoneinfo_timezone host ;;
  match tz with
  | None => ret (bufprint room "Unknown/Unknown")
  | Some name =>
      if check_timezone_is_zoneinfo tz =? 0
      then ret (bufprint room "Unknown/Unknown")
      else ret (bufprint room name)
  end.

(** ** Public entry points *)

(** [timezone_set], lines 1386-1402. *)
Definition timezone_set (host : Host) (tzname : cstr) : M Globals Z :=
  modify (set_android_timezone_init 0) ;;;
  if check_timezone_is_zoneinfo tzname =? 0 then ret (-1)
  else
    name <- deref tzname ;;
    let len := strlen name in
    if len >? TIMEZONE0_SIZE - 1 then ret (-1)
    else
      modify (set_android_timezone0 name) ;;;
      modify (set_android_timezone Timezone0) ;;;
      failed <- on_engine host (androidTimeZoneSet host name) ;;
      if negb (failed =? 0) then ret (-1)
      else
        modify (set_android_timezone_init 1) ;;;
        ret 0.

(** [android_tzoffset_in_seconds], lines 1404-1409. *)
Definition android_tzoffset_in_seconds (host : Host) (time : Z)
  : M Globals Z :=
  on_engine host (androidTimeZoneOffset host time).

(** [android_localtime], lines 1411-1415. *)
Definition android_localtime (host : Host) (time : Z)
  : M Globals (option tm) :=
  on_engine host (androidLocaltime host time).

(** ** What a computation leaves alone *)

(** [keeps I Q m]: whatever the start state, [m] ends in a state related to
    it by [I], having emitted only events that satisfy [Q]; this holds
    whether [m] returns or ends with a fault. *)
Definition keeps {S A} (I : S -> S -> Prop) (Q : Event -> Prop)
    (m : M S A) : Prop :=
  forall s, I s (final (m s)) /\ Forall Q (emitted (m s)).

(** No event, and nothing to say about the state. *)
Definition silent {S A} (m : M S A) : Prop :=
  keeps (fun _ _ => True) (fun _ => False) m.

(** The year and the zone name of the engine. *)
Definition same_subject (s s' : TimeZone) : Prop :=
  mCurrentYear s' = mCurrentYear s /\ mTimeZoneName s' = mTimeZoneName s.

Definition not_resolve (e : Event) : Prop :=
  match e with
  | EvResolve _ _ => False
  | _ => True
  end.

(** [keeps_unless I done m]: [m] ends in a state related to the start state
    by [I], unless it ends as [done] says. *)
Definition keeps_unless {S A} (I : S -> S -> Prop)
    (done : result A -> S -> Prop) (m : M S A) : Prop :=
  forall s, I s (final (m s)) \/ done (outcome (m s)) (final (m s)).

(** [ensures P m]: however [m] ends, its outcome and final state satisfy
    [P]. *)
Definition ensures {S A} (P : result A -> S -> Prop) (m : M S A) : Prop :=
  forall s, P (outcome (m s)) (final (m s)).

Definition any_event (e : Event) : Prop := True.

(** The two offsets of the engine's rule. *)
Definition same_offsets (s s' : TimeZone) : Prop :=
  mStandardOffset s' = mStandardOffset s /\
  mDaylightOffset s' = mDaylightOffset s.

(** ** The daylight window of a resolved rule *)

(** [mStandardDateUtc] holds the boundary read from the second line of the
    zdump output, the instant at which the daylight period starts;
    [mDaylightDateUtc] holds the one of the fourth line, at which standard
    time starts again.  A civil instant is in the window when it is not
    before the first and is before the second. *)
Definition in_daylight_window (this : TimeZone) (utc : tm) : Prop :=
  civil_le (mStandardDateUtc this) utc /\ civil_lt utc (mDaylightDateUtc this).


(** What the host itself gives as local time minus UTC ([None] when its
    [localtime] has no answer). *)
Definition host_offset (host : Host) (timeNow : Z) : option Z :=
  match host_localtime host timeNow with
  | Some local => Some (diffTime local (gmtime timeNow))
  | None => None
  end.

(** ** The states of the engine as the specification names them *)

(** The process holds a rule as its active resolved state. *)
Definition resolved (g : Globals) : Prop :=
  exists z, sAndroidTimeZone g = Some z /\ mAndroidTimeZoneInit z <> 0.

(** What the specification asks of every failure of [timezone_set]: it is
    reported, and no rule is kept as the active resolved state. *)
Definition failure_drops_rule (host : Host) (tzname : cstr) (g : Globals)
  : Prop :=
  let r := timezone_set host tzname g in
  outcome r = Ok (-1) -> ~ resolved (final r).

(** ** Sample hosts and engine states *)

Module Samples.

Definition nl : string := String newline "".

(** What [zdump -v America/New_York | grep 2024] prints. *)
Definition zdump_new_york_2024 : string :=
  "America/New_York  Sun Mar 10 06:59:59 2024 UT = Sun Mar 10 01:59:59 2024 EST isdst=0 gmtoff=-18000" ++ nl ++
  "America/New_York  Sun Mar 10 07:00:00 2024 UT = Sun Mar 10 03:00:00 2024 EDT isdst=1 gmtoff=-14400" ++ nl ++
  "America/New_York  Sun Nov  3 05:59:59 2024 UT = Sun Nov  3 01:59:59 2024 EDT isdst=1 gmtoff=-14400" ++ nl ++
  "America/New_York  Sun Nov  3 06:00:00 2024 UT = Sun Nov  3 01:00:00 2024 EST isdst=0 gmtoff=-18000" ++ nl.

(** The same text with the day of the second line unreadable. *)
Definition zdump_bad_day : string :=
  "America/New_York  Sun Mar 10 06:59:59 2024 UT = Sun Mar 10 01:59:59 2024 EST isdst=0 gmtoff=-18000" ++ nl ++
  "America/New_York  Sun Mar xx 07:00:00 2024 UT = Sun Mar 10 03:00:00 2024 EDT isdst=1 gmtoff=-14400" ++ nl ++
  "America/New_York  Sun Nov  3 05:59:59 2024 UT = Sun Nov  3 01:59:59 2024 EDT isdst=1 gmtoff=-14400" ++ nl ++
  "America/New_York  Sun Nov  3 06:00:00 2024 UT = Sun Nov  3 01:00:00 2024 EST isdst=0 gmtoff=-18000" ++ nl.

Definition empty_fs : FileSystem :=
  mkFileSystem (fun _ => false) (fun _ => None) (fun _ => None)
               (fun _ => None) (fun _ => None) (fun _ => None).

Definition no_registry : RegQuery := mkRegQuery 2 0 TZI_zero.

(** A Unix host one hour east of Greenwich, on 2024-07-01, whose commands
    answer as [run] says. *)
Definition unix_host (run : list string -> CommandResult) : Host :=
  mkHost Linux 1719792000 (fun t => Some (gmtime (t + 3600)))
         (fun _ => None) empty_fs (fun _ => Some "/tmp/android-tz")
         (fun argv _ _ => run argv)
         (fun _ => "") (fun _ => 2) (fun _ _ => no_registry).

Definition command_fails : CommandResult := mkCommandResult false 0 "".

(** No command runs. *)
Definition host_without_tools : Host := unix_host (fun _ => command_fails).

(** [zdump] knows New York in 2024 and nothing else; [date] is missing. *)
Definition host_with_zdump : Host :=
  unix_host (fun argv =>
    if String.eqb (nth 2 argv "") "zdump -v America/New_York | grep 2024"
    then mkCommandResult true 0 zdump_new_york_2024
    else command_fails).

(** [zdump] fails and [date] prints [-0500]. *)
Definition host_with_date : Host :=
  unix_host (fun argv =>
    if String.eqb (nth 2 argv "") "TZ=America/New_York date +%z"
    then mkCommandResult true 0 ("-0500" ++ nl)
    else command_fails).

(** [zdump] prints the text with the unreadable day. *)
Definition host_with_bad_zdump : Host :=
  unix_host (fun _ => mkCommandResult true 0 zdump_bad_day).

(** The engine after New York was resolved for 2024. *)
Definition new_york_2024 : TimeZone :=
  mkTimeZone (mk_tm 0 0 7 10 2 124 0 0 0) (mk_tm 0 0 6 3 10 124 0 0 0)
             (-18000) 3600 2024 1 "America/New_York".

(** The same engine as it was for 2023. *)
Definition new_york_2023 : TimeZone :=
  mkTimeZone (mk_tm 0 0 7 12 2 123 0 0 0) (mk_tm 0 0 6 5 10 123 0 0 0)
             (-18000) 3600 2023 1 "America/New_York".


(** 2024-07-01T00:00:00Z, 2024-01-01T00:00:00Z and the two boundaries. *)
Definition july_2024 : Z := 1719792000.
Definition january_2024 : Z := 1704067200.
Definition dst_start_2024 : Z := 1710054000.
Definition dst_end_2024 : Z := 1730613600.

(** A process whose engine holds the New York rule of 2024. *)
Definition resolved_process : Globals :=
  mkGlobals "America/New_York" Timezone0 1 (Some new_york_2024).

(** The Windows registry record of "Pacific Standard Time". *)
Definition pacific_tzi : REG_TZI_FORMAT :=
  mkREG_TZI_FORMAT 480 0 (-60)
    (mkSYSTEMTIME 0 11 0 1 2 0 0 0)
    (mkSYSTEMTIME 0 3 0 2 2 0 0 0).

Definition windows_host : Host :=
  mkHost Win32 1719792000 (fun t => Some (gmtime (t - 25200)))
         (fun _ => None) empty_fs (fun _ => None)
         (fun _ _ _ => command_fails)
         (fun _ => "Pacific Standard Time")
         (fun path =>
            if String.eqb path
                 "SOFTWARE\Microsoft\Windows NT\CurrentVersion\Time Zones\Pacific Standard Time"
            then ERROR_SUCCESS else 2)
         (fun _ _ => mkRegQuery ERROR_SUCCESS REG_BINARY pacific_tzi).

(** A zoneinfo tree: [/etc/localtime] is a copy of the London file. *)
Definition bytes_of (s : string) : list ascii := list_ascii_of_string s.

Definition london_bytes : list ascii := bytes_of "TZif2-London".
Definition paris_bytes : list ascii := bytes_of "TZif2-Paris!".
Definition utc_bytes : list ascii := bytes_of "TZif2-UTC".

Definition tree_file (path : string) : option (list ascii) :=
  if String.eqb path "/etc/localtime" then Some london_bytes
  else if String.eqb path "/usr/share/zoneinfo/Europe/Paris"
       then Some paris_bytes
  else if String.eqb path "/usr/share/zoneinfo/Europe/London"
       then Some london_bytes
  else if String.eqb path "/usr/share/zoneinfo/UTC" then Some utc_bytes
  else None.

Definition tree_dir (path : string) : option (list string) :=
  if String.eqb path "/usr/share/zoneinfo"
  then Some ["."; ".."; "UTC"; "Europe"]
  else if String.eqb path "/usr/share/zoneinfo/Europe"
       then Some ["."; ".."; "Paris"; "London"]
  else None.

Definition tree_stat (path : string) : option stat_t :=
  match tree_file path, tree_dir path with
  | Some bytes, _ => Some (mk_stat RegularFile (Z.of_nat (List.length bytes)))
  | None, Some _ => Some (mk_stat Directory 4096)
  | None, None => None
  end.

Definition zoneinfo_tree : FileSystem :=
  mkFileSystem
    (fun path =>
       match tree_stat (drop_trailing_slash path) with
       | Some _ => true
       | None => false
       end)
    (fun _ => None)
    tree_stat
    tree_stat
    tree_dir
    (fun path => option_map (map Got) (tree_file path)).

(** A Unix host with that tree, no [TZ] and no tools. *)
Definition host_with_tree : Host :=
  mkHost Linux 1719792000 (fun t => Some (gmtime (t + 3600)))
         (fun _ => None) zoneinfo_tree (fun _ => Some "/tmp/android-tz")
         (fun _ _ _ => command_fails)
         (fun _ => "") (fun _ => 2) (fun _ _ => no_registry).

(** The scan record that [get_zoneinfo_timezone] builds on that host. *)
Definition tree_scan : ScanDataRec :=
  mkScanDataRec "/etc/localtime" (mk_stat RegularFile 12) 19
                "/usr/share/zoneinfo".

End Samples.

(** ** Decimal digits *)

(** The character of the decimal digit [n], for [n] below 10. *)
Definition digit_char (n : nat) : ascii := ascii_of_nat (48 + n).

(** The text of a two-digit number. *)
Definition two_digits (a b : nat) : string :=
  String (digit_char a) (String (digit_char b) EmptyString).

(** ** The static table *)

(** A row of the table is sound when the zoneinfo name that the discoverer
    selects for its Windows name satisfies the validator, fits the buffer
    [android_timezone0], and is mapped back to that Windows name by the
    resolver. *)
Definition table_row_ok (row : string * string) : bool :=
  match find_zoneinfo_name _win32_timezones (fst row) with
  | Some z =>
      (check_timezone_is_zoneinfo (Some z) =? 1)
      && (strlen z <=? TIMEZONE0_SIZE - 1)
      && match find_win_name _win32_timezones z with
         | Some w => String.eqb w (fst row)
         | None => false
         end
  | None => false
  end.

(** The registry path of a Windows zone name. *)
Definition registry_path (winName : string) : string :=
  "SOFTWARE\Microsoft\Windows NT\CurrentVersion\Time Zones\" ++ winName.
(** ** Further sample hosts *)

Module MoreSamples.

(** The registry record of a zone nine hours east of Greenwich without
    daylight saving time: the offset is carried by [Bias] alone. *)
Definition tokyo_tzi : REG_TZI_FORMAT :=
  mkREG_TZI_FORMAT (-540) 0 0 SYSTEMTIME_zero SYSTEMTIME_zero.

Definition windows_tokyo_host : Host :=
  mkHost Win32 1719792000 (fun t => Some (gmtime (t + 32400)))
         (fun _ => None) Samples.empty_fs (fun _ => None)
         (fun _ _ _ => Samples.command_fails)
         (fun _ => "Tokyo Standard Time")
         (fun path =>
            if String.eqb path
                 "SOFTWARE\Microsoft\Windows NT\CurrentVersion\Time Zones\Tokyo Standard Time"
            then ERROR_SUCCESS else 2)
         (fun _ _ => mkRegQuery ERROR_SUCCESS REG_BINARY tokyo_tzi).

(** The host of the sample tree with [TZ] set to [tz], on [os]. *)
Definition host_with_TZ (os : Platform) (tz : string) : Host :=
  mkHost os 1719792000 (fun t => Some (gmtime (t + 3600)))
         (fun name => if String.eqb name "TZ" then Some tz else None)
         Samples.zoneinfo_tree (fun _ => Some "/tmp/android-tz")
         (fun _ _ _ => Samples.command_fails)
         (fun _ => "") (fun _ => 2) (fun _ _ => Samples.no_registry).

(** A host on [os] where [/etc/localtime] is a symbolic link to [target]
    and whose zoneinfo directory can be read; nothing else exists. *)
Definition host_with_link (os : Platform) (target : string) : Host :=
  mkHost os 1719792000 (fun t => Some (gmtime (t + 3600)))
         (fun _ => None)
         (mkFileSystem
            (fun path => String.eqb path "/usr/share/zoneinfo/"
                         || String.eqb path "/etc/localtime")
            (fun path => if String.eqb path "/etc/localtime"
                         then Some target else None)
            (fun _ => None) (fun _ => None) (fun _ => None) (fun _ => None))
         (fun _ => Some "/tmp/android-tz")
         (fun _ _ _ => Samples.command_fails)
         (fun _ => "") (fun _ => 2) (fun _ _ => Samples.no_registry).

(** A Unix host on which no temporary file can be made for the output of
    zdump, while one can be made for the output of date, which prints
    [-0500]. *)
Definition host_with_date_file_only : Host :=
  mkHost Linux 1719792000 (fun t => Some (gmtime (t + 3600)))
         (fun _ => None) Samples.empty_fs
         (fun call => match call with
                      | ZdumpOutput => None
                      | DateOutput => Some "/tmp/android-tz"
                      end)
         (fun argv _ _ =>
            if String.eqb (nth 2 argv "") "TZ=America/New_York date +%z"
            then mkCommandResult true 0 ("-0500" ++ Samples.nl)
            else Samples.command_fails)
         (fun _ => "") (fun _ => 2) (fun _ _ => Samples.no_registry).

End MoreSamples.

(** ** Invariants of the process-level state *)

(** The text in [android_timezone0] leaves room for its terminator. *)
Definition buffer_fits (g : Globals) : Prop :=
  strlen (android_timezone0 g) < TIMEZONE0_SIZE.

(** The events of reading files. *)
Definition file_event (e : Event) : Prop :=
  match e with
  | EvOpen _ | EvRead _ => True
  | _ => False
  end.

(** What the discoverer may do to the globals: the engine is left alone and
    the buffer keeps its bound. *)
Definition discovery_frame (g g' : Globals) : Prop :=
  sAndroidTimeZone g' = sAndroidTimeZone g /\
  (buffer_fits g -> buffer_fits g').

(** What a query may do to the globals: only the engine changes. *)
Definition query_frame (g g' : Globals) : Prop :=
  android_timezone0 g' = android_timezone0 g /\
  android_timezone g' = android_timezone g /\
  android_timezone_init g' = android_timezone_init g.

(** A discovery result, when it is a name, is a valid zoneinfo name. *)
Definition valid_result {S} (o : result cstr) (_ : S) : Prop :=
  forall z, o = Ok (Some z) -> check_timezone_is_zoneinfo (Some z) = 1.

(** ** The dates that zdump prints *)

(** A number below 100 with two digits, as in [07:00:00]. *)
Definition two_digit_text (n : Z) : string :=
  two_digits (Z.to_nat (n / 10)) (Z.to_nat (n mod 10)).

(** The four tokens of a date in a line of [zdump -v]: the English month
    abbreviation, the day of the month, the time of day and the year. *)
Definition zdump_date_tokens (d : tm) : list string :=
  [nth (Z.to_nat (tm_mon d)) kMonthName "";
   format_d (tm_mday d);
   two_digit_text (tm_hour d) ++ ":" ++ two_digit_text (tm_min d) ++ ":"
     ++ two_digit_text (tm_sec d);
   format_d (tm_year d + 1900)].

(** The fields a date of zdump has. *)
Definition zdump_date (d : tm) : Prop :=
  0 <= tm_mon d < 12 /\
  0 <= tm_mday d <= INT_MAX /\
  0 <= tm_hour d < 100 /\ 0 <= tm_min d < 100 /\ 0 <= tm_sec d < 100 /\
  0 <= tm_year d + 1900 <= INT_MAX.

(** A line of [zdump -v] for the instant [t] (seconds since the epoch) at
    which the offset [off] comes into force: the zone name, then the UTC
    date with its week day, then ["UT"], ["="], and the local date with its
    week day, then whatever follows. *)
Definition zdump_line (line : string) (t off : Z) : Prop :=
  zdump_date (gmtime t) /\ zdump_date (gmtime (t + off)) /\
  exists zone wd ut sep wd' rest,
    tokenize line
    = ((zone :: wd :: zdump_date_tokens (gmtime t))
       ++ (ut :: sep :: wd' :: zdump_date_tokens (gmtime (t + off)))
       ++ rest)%list.

(** The date that [parseZdumpDate] leaves in [date] for the tokens of
    [d]. *)
Definition parsed_date (d date : tm) : tm :=
  mk_tm (tm_sec d) (tm_min d) (tm_hour d) (tm_mday d) (tm_mon d)
        (tm_year d) (tm_wday date) (tm_yday date) (tm_isdst date).


(** * Properties *)

(** ** C strings and the validator's view of them *)

Lemma split_on_not_nil c s : split_on c s <> [].
Proof.
  destruct s as [|a s]; simpl; [discriminate|].
  destruct (Ascii.eqb a c); [discriminate|].
  destruct (split_on c s); discriminate.
Qed.

Lemma strchr_none_split c s :
  strchr s c = None -> split_on c s = [s].
Proof.
  induction s as [|a s IH]; simpl; [reflexivity|].
  destruct (Ascii.eqb a c); [discriminate|].
  intros H. rewrite (IH H). reflexivity.
Qed.

Lemma strchr_some_split c s suf :
  strchr s c = Some suf ->
  exists pre rest,
    suf = String c rest /\ s = pre ++ suf /\
    strchr pre c = None /\
    split_on c s = pre :: split_on c rest.
Proof.
  induction s as [|a s IH]; simpl; [discriminate|].
  destruct (Ascii.eqb a c) eqn:E.
  - intros H. injection H as <-. apply Ascii.eqb_eq in E. subst a.
    exists EmptyString, s. repeat split.
  - intros H. destruct (IH H) as (pre & rest & -> & -> & Hpre & Hs).
    exists (String a pre), rest. repeat split.
    + simpl. rewrite E. exact Hpre.
    + rewrite Hs. reflexivity.
Qed.

Lemma split_on_singleton c s :
  (exists x, split_on c s = [x]) -> strchr s c = None.
Proof.
  intros [x Hx]. destruct (strchr s c) as [suf|] eqn:E; [|reflexivity].
  destruct (strchr_some_split _ _ _ E) as (pre & rest & _ & _ & _ & Hs).
  rewrite Hs in Hx. injection Hx as _ Hx.
  exfalso. exact (split_on_not_nil _ _ Hx).
Qed.

Lemma is_nul_at_1 c rest : is_nul_at (String c rest) 1 = negb (nonempty rest).
Proof. destruct rest; reflexivity. Qed.

Lemma check_timezone_is_zoneinfo_accepted (s : string) :
  check_timezone_is_zoneinfo (Some s) = if accepted_form s then 1 else 0.
Proof.
  unfold check_timezone_is_zoneinfo, accepted_form.
  destruct (strchr s "/") as [slash1|] eqn:E1.
  2:{ rewrite (strchr_none_split _ _ E1). reflexivity. }
  destruct (strchr_some_split _ _ _ E1) as (a & rest & -> & _ & _ & ->).
  rewrite is_nul_at_1. simpl advance.
  destruct rest as [|r0 rest']; [reflexivity|].
  simpl nonempty. simpl negb. cbv iota.
  destruct (strchr (String r0 rest') "/") as [slash2|] eqn:E2.
  2:{ rewrite (strchr_none_split _ _ E2). reflexivity. }
  destruct (strchr_some_split _ _ _ E2) as (m & rest2 & -> & _ & _ & ->).
  rewrite is_nul_at_1. simpl advance.
  destruct (strchr rest2 "/") as [slash3|] eqn:E3.
  - destruct (strchr_some_split _ _ _ E3) as (x & rest3 & _ & _ & _ & ->).
    rewrite orb_true_r.
    destruct (split_on "/" rest3) eqn:E4; [|reflexivity].
    exfalso. exact (split_on_not_nil _ _ E4).
  - rewrite (strchr_none_split _ _ E3). rewrite orb_false_r.
    destruct rest2; reflexivity.
Qed.

Lemma check_timezone_is_zoneinfo_bool (tz : cstr) :
  check_timezone_is_zoneinfo tz = 0 \/ check_timezone_is_zoneinfo tz = 1.
Proof.
  destruct tz as [s|]; [|left; reflexivity].
  rewrite check_timezone_is_zoneinfo_accepted.
  destruct (accepted_form s); auto.
Qed.

Lemma is_zoneinfo_form_accepted (s : string) :
  is_zoneinfo_form s = true -> check_timezone_is_zoneinfo (Some s) = 1.
Proof.
  rewrite check_timezone_is_zoneinfo_accepted.
  unfold is_zoneinfo_form, accepted_form.
  destruct (split_on "/" s) as [|a [|b [|c [|d l']]]]; try discriminate.
  - intros H. apply andb_prop in H as [_ ->]. reflexivity.
  - intros H. apply andb_prop in H as [_ ->]. reflexivity.
Qed.

(** ** The calendar *)

Example gmtime_2024_07_01 :
  gmtime 1719792000 = mk_tm 0 0 0 1 6 124 1 182 0.
Proof. reflexivity. Qed.

Example gmtime_1969_12_31 :
  gmtime (-1) = mk_tm 59 59 23 31 11 69 3 364 0.
Proof. reflexivity. Qed.

Example timegm_gmtime_samples :
  map (fun t => timegm (gmtime t))
      [0; 951782400; 1704067199; 1704067200; 1709164800; 4107542400; -86401]
  = [0; 951782400; 1704067199; 1704067200; 1709164800; 4107542400; -86401].
Proof. reflexivity. Qed.

(** ** [utcCompare] is the lexicographic order of the calendar fields *)

Lemma utcCompare_lex (a b : tm) :
  utcCompare a b =
  match lex_compare (civil_key a) (civil_key b) with
  | Lt => -1
  | Eq => 0
  | Gt => 1
  end.
Proof.
  unfold utcCompare, civil_key, lex_compare.
  repeat match goal with
  | |- context [?x >? ?y] =>
      rewrite (Z.gtb_ltb x y); rewrite (Z.ltb_compare y x);
      rewrite (Z.ltb_compare x y); rewrite (Z.compare_antisym x y);
      destruct (x ?= y); simpl; try reflexivity
  end.
Qed.

Lemma utcCompare_lt (a b : tm) : utcCompare a b < 0 <-> civil_lt a b.
Proof.
  rewrite utcCompare_lex. unfold civil_lt.
  destruct (lex_compare (civil_key a) (civil_key b)); split;
    intros H; try reflexivity; try lia; discriminate.
Qed.

Lemma utcCompare_ge (a b : tm) : utcCompare a b >= 0 <-> civil_le b a.
Proof.
  rewrite utcCompare_lex. unfold civil_le.
  assert (Hanti : forall x y, lex_compare x y = CompOpp (lex_compare y x)).
  { induction x as [|x xs IH]; destruct y as [|y ys]; simpl; try reflexivity.
    rewrite (Z.compare_antisym y x).
    destruct (y ?= x); simpl; auto. }
  rewrite (Hanti (civil_key b) (civil_key a)).
  destruct (lex_compare (civil_key a) (civil_key b)); simpl; split;
    intros H; try lia; try discriminate; try congruence.
Qed.

(** ** Calendar facts used for [diffTime] *)

Lemma days_before_year_succ (y : Z) :
  days_before_year (y + 1) = days_before_year y + days_in_year y.
Proof.
  unfold days_before_year, days_in_year, is_leap, leaps_through.
  replace (y + 1 - 1) with y by lia.
  generalize (1969 / 4 - 1969 / 100 + 1969 / 400). intros c.
  destruct (y mod 4 =? 0) eqn:E4; destruct (y mod 100 =? 0) eqn:E100;
    destruct (y mod 400 =? 0) eqn:E400; cbv [andb orb negb];
    rewrite ?Z.eqb_eq, ?Z.eqb_neq in *;
    Z.div_mod_to_equations; lia.
Qed.

Lemma days_in_year_bounds (y : Z) : 365 <= days_in_year y <= 366.
Proof. unfold days_in_year. destruct (is_leap y); lia. Qed.

Lemma days_before_year_mono (y1 y2 : Z) :
  y1 <= y2 -> days_before_year y1 + 365 * (y2 - y1) <= days_before_year y2.
Proof.
  intros H. replace y2 with (y1 + Z.of_nat (Z.to_nat (y2 - y1))) by lia.
  generalize (Z.to_nat (y2 - y1)) as n. clear H y2.
  induction n as [|n IH]; [replace (y1 + Z.of_nat 0) with y1 by lia; lia|].
  replace (y1 + Z.of_nat (S n)) with (y1 + Z.of_nat n + 1) by lia.
  rewrite days_before_year_succ.
  pose proof (days_in_year_bounds (y1 + Z.of_nat n)). lia.
Qed.

Lemma month_cases (m : Z) :
  0 <= m <= 11 ->
  m = 0 \/ m = 1 \/ m = 2 \/ m = 3 \/ m = 4 \/ m = 5 \/ m = 6 \/ m = 7
  \/ m = 8 \/ m = 9 \/ m = 10 \/ m = 11.
Proof. lia. Qed.

(** The months of a year follow each other without gap. *)
Lemma days_before_month_next (y m : Z) :
  0 <= m <= 10 ->
  days_before_month y (m + 1) = days_before_month y m + days_in_month y m.
Proof.
  intros H. assert (H' : 0 <= m <= 11) by lia.
  apply month_cases in H'.
  unfold days_before_month, days_in_month.
  repeat (destruct H' as [-> | H']; [simpl; destruct (is_leap y); lia|]).
  lia.
Qed.

Lemma days_in_month_pos (y m : Z) : 0 <= m <= 11 -> 28 <= days_in_month y m.
Proof.
  intros H. apply month_cases in H. unfold days_in_month.
  repeat (destruct H as [-> | H]; [simpl; try destruct (is_leap y); lia|]).
  subst m. simpl. lia.
Qed.

Lemma days_before_month_mono (y m1 m2 : Z) :
  0 <= m1 -> m1 < m2 -> m2 <= 11 ->
  days_before_month y m1 + days_in_month y m1 <= days_before_month y m2.
Proof.
  intros H0 Hlt H11.
  replace m2 with (m1 + 1 + Z.of_nat (Z.to_nat (m2 - m1 - 1))) in * by lia.
  revert H11. generalize (Z.to_nat (m2 - m1 - 1)) as n. clear Hlt.
  induction n as [|n IH]; intros H11.
  - replace (m1 + 1 + Z.of_nat 0) with (m1 + 1) by lia.
    rewrite days_before_month_next by lia. lia.
  - replace (m1 + 1 + Z.of_nat (S n)) with (m1 + 1 + Z.of_nat n + 1) by lia.
    rewrite days_before_month_next by lia.
    pose proof (days_in_month_pos y (m1 + 1 + Z.of_nat n)).
    assert (days_before_month y m1 + days_in_month y m1
            <= days_before_month y (m1 + 1 + Z.of_nat n)) by (apply IH; lia).
    lia.
Qed.

Lemma days_before_month_year_end (y m : Z) :
  0 <= m <= 11 ->
  days_before_month y m + days_in_month y m <= days_in_year y.
Proof.
  intros H. apply month_cases in H.
  unfold days_before_month, days_in_month, days_in_year.
  repeat (destruct H as [-> | H]; [simpl; destruct (is_leap y); lia|]).
  subst m. simpl. destruct (is_leap y); lia.
Qed.

Lemma days_before_month_nonneg (y m : Z) : 0 <= days_before_month y m.
Proof.
  unfold days_before_month.
  destruct m as [|p|p]; try lia.
  destruct (is_leap y);
    do 4 (try destruct p as [p|p|]; try lia).
Qed.

Lemma valid_civil_fields (t : tm) :
  valid_civil t = true ->
  0 <= tm_mon t <= 11 /\
  1 <= tm_mday t <= days_in_month (tm_year t + 1900) (tm_mon t) /\
  0 <= tm_hour t <= 23 /\ 0 <= tm_min t <= 59 /\ 0 <= tm_sec t <= 59.
Proof.
  unfold valid_civil. rewrite !andb_true_iff, !Z.leb_le. tauto.
Qed.

Lemma seconds_of_day_range (t : tm) :
  valid_civil t = true -> 0 <= seconds_of_day t < 86400.
Proof.
  intros H. apply valid_civil_fields in H. unfold seconds_of_day. lia.
Qed.

(** A day of a later month, or of a later year, is a later day. *)
Lemma day_number_later_month (a b : tm) :
  valid_civil a = true -> valid_civil b = true ->
  tm_year a < tm_year b \/ (tm_year a = tm_year b /\ tm_mon a < tm_mon b) ->
  day_number a + 1 <= day_number b.
Proof.
  intros Ha Hb Hlt.
  apply valid_civil_fields in Ha, Hb. unfold day_number.
  destruct Hlt as [Hy | [Hy Hm]].
  - pose proof (days_before_year_mono (tm_year a + 1900 + 1)
                  (tm_year b + 1900) ltac:(lia)) as Hmono.
    rewrite days_before_year_succ in Hmono.
    pose proof (days_before_month_year_end (tm_year a + 1900) (tm_mon a)
                  ltac:(lia)).
    pose proof (days_before_month_nonneg (tm_year b + 1900) (tm_mon b)).
    lia.
  - rewrite <- Hy in *.
    pose proof (days_before_month_mono (tm_year a + 1900) (tm_mon a)
                  (tm_mon b) ltac:(lia) ltac:(lia) ltac:(lia)).
    lia.
Qed.

(** ** [int] arithmetic on the fields of a civil instant *)

Lemma int_of_small (z : Z) : - 2 ^ 31 <= z < 2 ^ 31 -> int_of z = z.
Proof. intros H. unfold int_of. rewrite Z.mod_small; lia. Qed.

Lemma days_in_month_le_31 (y m : Z) : days_in_month y m <= 31.
Proof.
  unfold days_in_month.
  destruct m as [|p|p]; try lia.
  destruct (is_leap y);
    do 4 (try destruct p as [p|p|]; try lia).
Qed.

Lemma int_of_seconds_of_day (t : tm) :
  valid_civil t = true -> int_of (seconds_of_day t) = seconds_of_day t.
Proof.
  intros H. apply int_of_small.
  pose proof (seconds_of_day_range t H). lia.
Qed.

Lemma int_of_mday (t : tm) :
  valid_civil t = true ->
  int_of (60 * 60 * 24 * tm_mday t) = 60 * 60 * 24 * tm_mday t.
Proof.
  intros H. apply int_of_small.
  apply valid_civil_fields in H.
  pose proof (days_in_month_le_31 (tm_year t + 1900) (tm_mon t)). lia.
Qed.

(** C8.  For two civil instants that are less than 24 hours apart as UTC
    timestamps, [diffTime end beginning] is their signed difference in
    seconds, also when the two lie on different days, in different months or
    in different years. *)
Theorem diffTime_exact_within_a_day (end_ beginning : tm) :
  valid_civil end_ = true ->
  valid_civil beginning = true ->
  Z.abs (timegm end_ - timegm beginning) < 86400 ->
  diffTime end_ beginning = timegm end_ - timegm beginning.
Proof.
  intros He Hb Habs.
  pose proof (seconds_of_day_range _ He) as Hse.
  pose proof (seconds_of_day_range _ Hb) as Hsb.
  unfold timegm in *. unfold diffTime, kSecondsPerDay.
  fold (seconds_of_day end_). fold (seconds_of_day beginning).
  rewrite !int_of_seconds_of_day, !int_of_mday by assumption.
  destruct (tm_year end_ >? tm_year beginning) eqn:Ey1.
  { apply Z.gtb_lt in Ey1.
    pose proof (day_number_later_month beginning end_ Hb He ltac:(lia)). lia. }
  destruct (tm_year end_ <? tm_year beginning) eqn:Ey2.
  { apply Z.ltb_lt in Ey2.
    pose proof (day_number_later_month end_ beginning He Hb ltac:(lia)). lia. }
  assert (Hy : tm_year end_ = tm_year beginning).
  { rewrite Z.gtb_ltb in Ey1. apply Z.ltb_ge in Ey1, Ey2. lia. }
  destruct (tm_mon end_ >? tm_mon beginning) eqn:Em1.
  { apply Z.gtb_lt in Em1.
    pose proof (day_number_later_month beginning end_ Hb He ltac:(lia)). lia. }
  destruct (tm_mon end_ <? tm_mon beginning) eqn:Em2.
  { apply Z.ltb_lt in Em2.
    pose proof (day_number_later_month end_ beginning He Hb ltac:(lia)). lia. }
  assert (Hm : tm_mon end_ = tm_mon beginning).
  { rewrite Z.gtb_ltb in Em1. apply Z.ltb_ge in Em1, Em2. lia. }
  unfold day_number. rewrite Hy, Hm. lia.
Qed.

(** Half past midnight on 2024-01-01 against half past eleven in the evening
    of 2023-12-31, in both directions, and ten past midnight on 2024-03-01
    against ten to midnight on 2024-02-29. *)
Lemma diffTime_exact_within_a_day_witness :
  diffTime (mk_tm 0 30 0 1 0 124 0 0 0) (mk_tm 0 30 23 31 11 123 0 0 0)
  = 3600 /\
  diffTime (mk_tm 0 30 23 31 11 123 0 0 0) (mk_tm 0 30 0 1 0 124 0 0 0)
  = -3600 /\
  diffTime (mk_tm 0 10 0 1 2 124 0 0 0) (mk_tm 0 50 23 29 1 124 0 0 0)
  = 1200.
Proof.
  split; [|split].
  - apply (diffTime_exact_within_a_day
             (mk_tm 0 30 0 1 0 124 0 0 0) (mk_tm 0 30 23 31 11 123 0 0 0)).
    + reflexivity.
    + reflexivity.
    + vm_compute. reflexivity.
  - apply (diffTime_exact_within_a_day
             (mk_tm 0 30 23 31 11 123 0 0 0) (mk_tm 0 30 0 1 0 124 0 0 0)).
    + reflexivity.
    + reflexivity.
    + vm_compute. reflexivity.
  - apply (diffTime_exact_within_a_day
             (mk_tm 0 10 0 1 2 124 0 0 0) (mk_tm 0 50 23 29 1 124 0 0 0)).
    + reflexivity.
    + reflexivity.
    + vm_compute. reflexivity.
Defined.

(** ** The text facilities on samples *)

Example tokenize_zdump_line :
  tokenize "America/New_York  Sun Nov  6 06:00:00 2016 UT = Sun Nov  6 01:00:00 2016 EST isdst=0"
  = ["America/New_York"; "Sun"; "Nov"; "6"; "06:00:00"; "2016"; "UT"; "=";
     "Sun"; "Nov"; "6"; "01:00:00"; "2016"; "EST"; "isdst=0"].
Proof. reflexivity. Qed.

Example getlines_samples :
  getlines "" = [] /\
  getlines ("a" ++ String newline "b") = ["a"; "b"] /\
  getlines ("a" ++ String newline (String newline "")) = ["a"; ""].
Proof. repeat split. Qed.

Example stoi_samples :
  stoi "06" = Ok 6 /\ stoi "2016" = Ok 2016 /\ stoi "-4x" = Ok (-4) /\
  stoi ":0" = Abort Exception /\ stoi "" = Abort Exception /\
  stoi "99999999999" = Abort Exception.
Proof. repeat split. Qed.

(** ** Frame rules *)

Section Frames.

Context {S : Type} (I : S -> S -> Prop) (Q : Event -> Prop).
Hypothesis I_refl : forall s, I s s.
Hypothesis I_trans : forall s1 s2 s3, I s1 s2 -> I s2 s3 -> I s1 s3.

Lemma keeps_ret A (a : A) : keeps I Q (ret a).
Proof. intros s. split; [apply I_refl | constructor]. Qed.

Lemma keeps_get : keeps I Q (@get S).
Proof. intros s. split; [apply I_refl | constructor]. Qed.

Lemma keeps_abort A f : keeps I Q (@abort S A f).
Proof. intros s. split; [apply I_refl | constructor]. Qed.

Lemma keeps_lift A (r : result A) : keeps I Q (lift r).
Proof. intros s. split; [apply I_refl | constructor]. Qed.

Lemma keeps_deref A (p : option A) : keeps I Q (deref p).
Proof. destruct p; [apply keeps_ret | apply keeps_abort]. Qed.

Lemma keeps_emit e : Q e -> keeps I Q (emit e).
Proof. intros H s. split; [apply I_refl | repeat constructor; exact H]. Qed.

Lemma keeps_modify (f : S -> S) :
  (forall s, I s (f s)) -> keeps I Q (modify f).
Proof. intros H s. split; [apply H | constructor]. Qed.

Lemma keeps_bind A B (m : M S A) (k : A -> M S B) :
  keeps I Q m -> (forall a, keeps I Q (k a)) -> keeps I Q (bind m k).
Proof.
  intros Hm Hk s. unfold bind. destruct (Hm s) as [Hi Hq].
  destruct (outcome (m s)) as [a|f]; simpl.
  - destruct (Hk a (final (m s))) as [Hi' Hq']. split.
    + eapply I_trans; eassumption.
    + apply Forall_app. split; assumption.
  - split; assumption.
Qed.

Lemma keeps_zoom T A (J : T -> T -> Prop) (proj : S -> T)
    (upd : T -> S -> S) (m : M T A) :
  keeps J Q m ->
  (forall s t', J (proj s) t' -> I s (upd t' s)) ->
  keeps I Q (zoom proj upd m).
Proof.
  intros Hm Hupd s. unfold zoom. simpl.
  destruct (Hm (proj s)) as [Hj Hq]. split; [apply Hupd, Hj | exact Hq].
Qed.

Lemma keeps_with_local T A (init : T) (m : M T A) :
  keeps (fun _ _ => True) Q m -> keeps I Q (@with_local S T A init m).
Proof.
  intros Hm s. unfold with_local. simpl.
  destruct (Hm init) as [_ Hq]. split; [apply I_refl | exact Hq].
Qed.

End Frames.

(** The generic steps of a frame proof. *)
Ltac frame_side := intros; cbv beta; eauto.

Ltac keeps_step :=
  first
    [ apply keeps_ret; solve [frame_side]
    | apply keeps_get; solve [frame_side]
    | apply keeps_abort; solve [frame_side]
    | apply keeps_lift; solve [frame_side]
    | apply keeps_deref; solve [frame_side]
    | apply keeps_bind; [solve [frame_side] .. | | intros ?]
    | match goal with
      | |- keeps _ _ (if ?b then _ else _) => destruct b
      | |- keeps _ _ (match ?x with _ => _ end) => destruct x
      | |- keeps _ _ (let '(_, _) := ?p in _) => destruct p
      end ].

(** *** Frames of the resolvers *)

Lemma silent_keeps {S A} (Q : Event -> Prop) (m : M S A) :
  silent m -> keeps (fun _ _ => True) Q m.
Proof.
  intros H s. destruct (H s) as [_ Hq]. split; [exact Logic.I|].
  eapply Forall_impl; [|exact Hq]. intros e [].
Qed.

Lemma parseZdumpDate_silent tokens : silent (parseZdumpDate tokens).
Proof.
  unfold silent, parseZdumpDate.
  repeat (keeps_step || (apply keeps_modify; solve [frame_side])).
Qed.

Lemma parseSystemTime_silent winTime : silent (parseSystemTime winTime).
Proof.
  unfold silent, parseSystemTime.
  repeat (keeps_step || (apply keeps_modify; solve [frame_side])).
Qed.

Lemma same_subject_refl s : same_subject s s.
Proof. split; reflexivity. Qed.

Lemma same_subject_trans s1 s2 s3 :
  same_subject s1 s2 -> same_subject s2 s3 -> same_subject s1 s3.
Proof. intros [H1 H2] [H3 H4]. split; congruence. Qed.

#[local] Hint Resolve same_subject_refl same_subject_trans : core.

Ltac subject_step :=
  first
    [ keeps_step
    | apply keeps_modify; [intros ?; split; reflexivity]
    | apply keeps_emit; [solve [frame_side] .. | exact Logic.I]
    | apply keeps_with_local; [solve [frame_side] .. | apply silent_keeps]
    | eapply keeps_zoom;
        [apply silent_keeps | intros ? ? _; split; reflexivity] ].

Lemma zdump_rule_subject i rule :
  keeps same_subject not_resolve (zdump_rule i rule).
Proof.
  unfold zdump_rule.
  repeat (apply parseZdumpDate_silent || subject_step).
Qed.

Lemma setAndroidTimeZoneUsingZdump_subject host :
  keeps same_subject not_resolve (setAndroidTimeZoneUsingZdump host).
Proof.
  unfold setAndroidTimeZoneUsingZdump.
  repeat (apply zdump_rule_subject || subject_step).
Qed.

Lemma setAndroidTimeZoneUsingDate_subject host :
  keeps same_subject not_resolve (setAndroidTimeZoneUsingDate host).
Proof.
  unfold setAndroidTimeZoneUsingDate.
  repeat subject_step.
Qed.

Lemma parseTimeZoneInformationFromRegistry_quiet host winName :
  keeps (fun _ _ => True) not_resolve
        (parseTimeZoneInformationFromRegistry host winName).
Proof.
  unfold parseTimeZoneInformationFromRegistry.
  repeat first
    [ keeps_step
    | apply keeps_modify; solve [frame_side]
    | apply keeps_emit; [solve [frame_side] .. | exact Logic.I] ].
Qed.

Lemma resolve_on_platform_subject host tzname :
  keeps same_subject not_resolve (resolve_on_platform host tzname).
Proof.
  unfold resolve_on_platform.
  destruct (platform host).
  1,2: repeat first
         [ apply setAndroidTimeZoneUsingZdump_subject
         | apply setAndroidTimeZoneUsingDate_subject
         | subject_step ].
  destruct (find_win_name _win32_timezones tzname).
  2: apply keeps_ret; auto.
  apply keeps_bind; [solve [frame_side] .. | | ].
  { intros s0. unfold with_local. simpl. split; [auto|].
    apply parseTimeZoneInformationFromRegistry_quiet. }
  intros [failed win_tzi].
  repeat (apply parseSystemTime_silent || subject_step).
Qed.

(** ** The runs of the engine's methods *)

Arguments gmtime : simpl never.
Arguments diffTime : simpl never.
Arguments getTimeZoneDiff : simpl never.
Arguments getIsDaylightSavingTime : simpl never.
Arguments resolve_on_platform : simpl never.
Arguments androidTimeZoneSet : simpl never.
Arguments setAndroidTimeZoneUsingZdump : simpl never.
Arguments setAndroidTimeZoneUsingDate : simpl never.

Lemma resolver_calls_app (l1 l2 : list Event) :
  resolver_calls (l1 ++ l2) = (resolver_calls l1 + resolver_calls l2)%nat.
Proof.
  unfold resolver_calls. rewrite filter_app, length_app. reflexivity.
Qed.

Lemma resolver_calls_none (evs : list Event) :
  Forall not_resolve evs -> resolver_calls evs = 0%nat.
Proof.
  unfold resolver_calls. induction 1 as [|e evs He _ IH]; [reflexivity|].
  simpl. destruct e; simpl in *; try exact IH. contradiction.
Qed.

(** [androidTimeZoneSet] in terms of its platform part. *)
Lemma androidTimeZoneSet_run host tzname this :
  let start := set_mAndroidTimeZoneInit 0 (set_mTimeZoneName tzname this) in
  let body := resolve_on_platform host tzname start in
  let r := androidTimeZoneSet host tzname this in
  final r = final body /\
  emitted r = EvResolve tzname (mCurrentYear this) :: emitted body /\
  outcome r =
    match outcome body with
    | Ok _ => Ok (if negb (mAndroidTimeZoneInit (final body) =? 0)
                  then 0 else -1)
    | Abort f => Abort f
    end.
Proof.
  unfold androidTimeZoneSet, bind; cbn.
  destruct (outcome (resolve_on_platform host tzname _)); cbn;
    rewrite ?app_nil_r; auto.
Qed.

(** The resolver is entered once, and keeps the year it was asked for. *)
Lemma androidTimeZoneSet_subject host tzname this :
  let r := androidTimeZoneSet host tzname this in
  mCurrentYear (final r) = mCurrentYear this /\
  mTimeZoneName (final r) = tzname /\
  resolver_calls (emitted r) = 1%nat.
Proof.
  pose proof (androidTimeZoneSet_run host tzname this) as H.
  cbv zeta in *. destruct H as (Hf & He & _).
  destruct (resolve_on_platform_subject host tzname
              (set_mAndroidTimeZoneInit 0 (set_mTimeZoneName tzname this)))
    as [[Hy Hn] Hq].
  rewrite Hf, He. repeat split.
  - exact Hy.
  - exact Hn.
  - change (EvResolve tzname (mCurrentYear this) :: ?l)
      with ([EvResolve tzname (mCurrentYear this)] ++ l)%list.
    rewrite resolver_calls_app, (resolver_calls_none _ Hq). reflexivity.
Qed.

(** The resolver reports failure exactly when it leaves the engine
    unresolved. *)
Lemma androidTimeZoneSet_result host tzname this v :
  let r := androidTimeZoneSet host tzname this in
  outcome r = Ok v ->
  (v = 0 /\ mAndroidTimeZoneInit (final r) <> 0) \/
  (v = -1 /\ mAndroidTimeZoneInit (final r) = 0).
Proof.
  pose proof (androidTimeZoneSet_run host tzname this) as H.
  cbv zeta in *. destruct H as (Hf & _ & Ho).
  rewrite Hf, Ho.
  destruct (outcome (resolve_on_platform host tzname _)); [|discriminate].
  intros H. injection H as <-.
  destruct (mAndroidTimeZoneInit _ =? 0) eqn:E; simpl.
  - right. apply Z.eqb_eq in E. auto.
  - left. apply Z.eqb_neq in E. auto.
Qed.

(** A query in the resolved year. *)
Lemma androidTimeZoneOffset_same_year host this timeNow :
  mAndroidTimeZoneInit this <> 0 ->
  tm_year (gmtime timeNow) + 1900 = mCurrentYear this ->
  androidTimeZoneOffset host timeNow this
  = mkRun (Ok (getTimeZoneDiff this timeNow)) this [].
Proof.
  intros Hinit Hyear. apply Z.eqb_neq in Hinit.
  unfold androidTimeZoneOffset, bind.
  remember (gmtime timeNow) as utc. cbn. rewrite Hinit. cbn.
  rewrite Hyear, Z.eqb_refl. reflexivity.
Qed.

(** A query on an unresolved engine. *)
Lemma androidTimeZoneOffset_fallback host this timeNow :
  mAndroidTimeZoneInit this = 0 ->
  androidTimeZoneOffset host timeNow this
  = match host_localtime host timeNow with
    | Some local => mkRun (Ok (diffTime local (gmtime timeNow))) this []
    | None => mkRun (Abort Undefined) this []
    end.
Proof.
  intros Hinit. unfold androidTimeZoneOffset, bind.
  remember (gmtime timeNow) as utc. cbn. rewrite Hinit.
  cbn. destruct (host_localtime host timeNow); reflexivity.
Qed.

(** A query in another year, in terms of the resolver's run. *)
Lemma androidTimeZoneOffset_rollover host this timeNow :
  mAndroidTimeZoneInit this <> 0 ->
  tm_year (gmtime timeNow) + 1900 <> mCurrentYear this ->
  let year := tm_year (gmtime timeNow) + 1900 in
  let rs := androidTimeZoneSet host (mTimeZoneName this)
              (set_mCurrentYear year this) in
  let r := androidTimeZoneOffset host timeNow this in
  final r = final rs /\
  emitted r = emitted rs /\
  outcome r =
    match outcome rs with
    | Ok _ => Ok (getTimeZoneDiff (final rs) timeNow)
    | Abort f => Abort f
    end.
Proof.
  intros Hinit Hyear. apply Z.eqb_neq in Hinit, Hyear.
  unfold androidTimeZoneOffset, bind.
  remember (gmtime timeNow) as utc. cbn. rewrite Hinit. cbn.
  rewrite Hyear. cbn.
  destruct (outcome (androidTimeZoneSet host (mTimeZoneName this) _)); cbn;
    rewrite ?app_nil_r; auto.
Qed.

(** ** Daylight status and offset of a resolved rule *)



Lemma getIsDaylightSavingTime_window (this : TimeZone) (timeNow : Z) :
  mDaylightOffset this <> 0 ->
  (in_daylight_window this (gmtime timeNow) ->
   getIsDaylightSavingTime this timeNow = 1) /\
  (~ in_daylight_window this (gmtime timeNow) ->
   getIsDaylightSavingTime this timeNow = 0).
Proof.
  intros Hdl. apply Z.eqb_neq in Hdl.
  unfold getIsDaylightSavingTime, in_daylight_window. rewrite Hdl.
  remember (gmtime timeNow) as utc.
  destruct (utcCompare utc (mStandardDateUtc this) <? 0) eqn:E1;
    destruct (utcCompare utc (mDaylightDateUtc this) >=? 0) eqn:E2; simpl;
    rewrite ?Z.ltb_lt, ?Z.ltb_ge, ?Z.geb_le in *;
    try (apply Z.geb_le in E2); try (apply Z.ltb_lt in E1);
    try (apply Z.ltb_ge in E1).
  - split; [|reflexivity]. intros [_ Hlt].
    apply utcCompare_lt in Hlt. lia.
  - split; [|reflexivity]. intros [Hle _].
    apply utcCompare_ge in Hle. lia.
  - split; [|reflexivity]. intros [_ Hlt].
    apply utcCompare_lt in Hlt. lia.
  - split; [reflexivity|]. intros Hnot. exfalso. apply Hnot. split.
    + apply utcCompare_ge. lia.
    + apply utcCompare_lt.
      destruct (Z.geb_spec (utcCompare utc (mDaylightDateUtc this)) 0);
        [discriminate | lia].
Qed.

Lemma getTimeZoneDiff_window (this : TimeZone) (timeNow : Z) :
  mDaylightOffset this <> 0 ->
  (in_daylight_window this (gmtime timeNow) ->
   getTimeZoneDiff this timeNow = mStandardOffset this + mDaylightOffset this)
  /\
  (~ in_daylight_window this (gmtime timeNow) ->
   getTimeZoneDiff this timeNow = mStandardOffset this).
Proof.
  intros Hdl. destruct (getIsDaylightSavingTime_window this timeNow Hdl)
    as [Hin Hout].
  unfold getTimeZoneDiff. split; intros H.
  - rewrite (Hin H). reflexivity.
  - rewrite (Hout H). reflexivity.
Qed.

Lemma getTimeZoneDiff_no_daylight (this : TimeZone) (timeNow : Z) :
  mDaylightOffset this = 0 ->
  getTimeZoneDiff this timeNow = mStandardOffset this.
Proof.
  intros Hdl. unfold getTimeZoneDiff, getIsDaylightSavingTime.
  rewrite Hdl. reflexivity.
Qed.






(** ** Year rollover *)

(** A query that finds the engine unresolved, or resolved for the year of
    the instant, does not enter the resolver. *)
Lemma androidTimeZoneOffset_quiet host this timeNow :
  mAndroidTimeZoneInit this = 0
  \/ tm_year (gmtime timeNow) + 1900 = mCurrentYear this ->
  emitted (androidTimeZoneOffset host timeNow this) = [] /\
  final (androidTimeZoneOffset host timeNow this) = this.
Proof.
  intros H.
  destruct (Z.eq_dec (mAndroidTimeZoneInit this) 0) as [Hinit | Hinit].
  - rewrite (androidTimeZoneOffset_fallback host this timeNow Hinit).
    destruct (host_localtime host timeNow); auto.
  - destruct H as [H | H]; [contradiction|].
    rewrite (androidTimeZoneOffset_same_year host this timeNow Hinit H).
    auto.
Qed.

(** C6.  On a resolved engine, a query for an instant of the resolved year
    leaves the engine as it is and does not enter the resolver, so that
    asking again gives the same answer, again without the resolver.  A query
    for an instant of another year enters the resolver exactly once, stores
    the new year, answers (when the resolver returns) from the state the
    resolver left, and asking again does not enter the resolver. *)
Theorem offset_queries_and_resolver (host : Host) (this : TimeZone)
    (timeNow : Z) :
  mAndroidTimeZoneInit this <> 0 ->
  let year := tm_year (gmtime timeNow) + 1900 in
  let r := androidTimeZoneOffset host timeNow this in
  (year = mCurrentYear this ->
   resolver_calls (emitted r) = 0%nat /\
   exists v, outcome r = Ok v /\
   forall host',
     let r' := androidTimeZoneOffset host' timeNow (final r) in
     outcome r' = Ok v /\ resolver_calls (emitted r') = 0%nat)
  /\
  (year <> mCurrentYear this ->
   resolver_calls (emitted r) = 1%nat /\
   mCurrentYear (final r) = year /\
   (forall v, outcome r = Ok v -> v = getTimeZoneDiff (final r) timeNow) /\
   (forall w,
      outcome (androidTimeZoneSet host (mTimeZoneName this)
                 (set_mCurrentYear year this)) = Ok w ->
      exists v, outcome r = Ok v) /\
   forall host',
     resolver_calls
       (emitted (androidTimeZoneOffset host' timeNow (final r))) = 0%nat).
Proof.
  intros Hinit. cbv zeta. split.
  - intros Hyear.
    rewrite (androidTimeZoneOffset_same_year host this timeNow Hinit Hyear).
    cbn [emitted outcome final]. split; [reflexivity|].
    exists (getTimeZoneDiff this timeNow). split; [reflexivity|].
    intros host'.
    rewrite (androidTimeZoneOffset_same_year host' this timeNow Hinit Hyear).
    split; reflexivity.
  - intros Hyear.
    pose proof (androidTimeZoneOffset_rollover host this timeNow Hinit Hyear)
      as H.
    cbv zeta in H. destruct H as (Hf & He & Ho).
    pose proof (androidTimeZoneSet_subject host (mTimeZoneName this)
                  (set_mCurrentYear (tm_year (gmtime timeNow) + 1900) this))
      as H.
    cbv zeta in H. destruct H as (Hy & _ & Hc).
    pose proof (fun host' =>
                  androidTimeZoneOffset_quiet host'
                    (final (androidTimeZoneOffset host timeNow this)) timeNow)
      as Hquiet.
    revert Hf He Ho Hy Hc Hquiet.
    generalize (androidTimeZoneSet host (mTimeZoneName this)
                  (set_mCurrentYear (tm_year (gmtime timeNow) + 1900) this)).
    generalize (androidTimeZoneOffset host timeNow this).
    generalize (tm_year (gmtime timeNow) + 1900).
    intros year r rs Hf He Ho Hy Hc Hquiet. cbn in Hy.
    rewrite He, Ho. split; [exact Hc|]. split; [congruence|].
    split; [|split].
    + intros v Hv. rewrite Hf.
      destruct (outcome rs); [|discriminate]. congruence.
    + intros w Hw. rewrite Hw. eexists. reflexivity.
    + intros host'.
      destruct (Hquiet host') as [Hq _]; [right; congruence|].
      rewrite Hq. reflexivity.
Qed.

(** The engine resolved for 2023 is asked for an instant of 2024 on a host
    whose zdump knows 2024; the engine resolved for 2024 is asked the same. *)
Lemma offset_queries_and_resolver_witness :
  (let r := androidTimeZoneOffset Samples.host_with_zdump Samples.july_2024
              Samples.new_york_2023 in
   resolver_calls (emitted r) = 1%nat /\
   mCurrentYear (final r) = 2024 /\
   (exists v, outcome r = Ok v) /\
   resolver_calls
     (emitted (androidTimeZoneOffset Samples.host_with_zdump
                 Samples.july_2024 (final r))) = 0%nat)
  /\
  (let r := androidTimeZoneOffset Samples.host_with_zdump Samples.july_2024
              Samples.new_york_2024 in
   resolver_calls (emitted r) = 0%nat /\
   exists v, outcome r = Ok v /\
   outcome (androidTimeZoneOffset Samples.host_without_tools
              Samples.july_2024 (final r)) = Ok v).
Proof.
  split.
  - assert (Hinit : mAndroidTimeZoneInit Samples.new_york_2023 <> 0)
      by (vm_compute; discriminate).
    assert (Hyear : tm_year (gmtime Samples.july_2024) + 1900
                    <> mCurrentYear Samples.new_york_2023)
      by (vm_compute; discriminate).
    destruct (proj2 (offset_queries_and_resolver Samples.host_with_zdump
                       Samples.new_york_2023 Samples.july_2024 Hinit) Hyear)
      as (Hc & Hy & _ & Hret & Hagain).
    cbv zeta. split; [exact Hc|]. split; [exact Hy|]. split.
    + apply (Hret 0). vm_compute. reflexivity.
    + apply Hagain.
  - assert (Hinit : mAndroidTimeZoneInit Samples.new_york_2024 <> 0)
      by (vm_compute; discriminate).
    destruct (proj1 (offset_queries_and_resolver Samples.host_with_zdump
                       Samples.new_york_2024 Samples.july_2024 Hinit)
                eq_refl)
      as (Hc & v & Hv & Hagain).
    cbv zeta. split; [exact Hc|]. exists v. split; [exact Hv|].
    apply (Hagain Samples.host_without_tools).
Defined.

(** ** A failed resolution leaves the offsets alone *)

Section Unless.

Context {S : Type} (I : S -> S -> Prop).
Hypothesis I_refl : forall s, I s s.
Hypothesis I_trans : forall s1 s2 s3, I s1 s2 -> I s2 s3 -> I s1 s3.

Lemma unless_of_keeps A Q (done : result A -> S -> Prop) (m : M S A) :
  keeps I Q m -> keeps_unless I done m.
Proof. intros H s. left. apply H. Qed.

Lemma unless_done A (done : result A -> S -> Prop) (m : M S A) :
  (forall s, done (outcome (m s)) (final (m s))) -> keeps_unless I done m.
Proof. intros H s. right. apply H. Qed.

Lemma unless_bind A B (d1 : result A -> S -> Prop)
    (done : result B -> S -> Prop) (m : M S A) (k : A -> M S B) :
  keeps_unless I d1 m ->
  (forall a, keeps_unless I done (k a)) ->
  (forall a s1, d1 (Ok a) s1 -> done (outcome (k a s1)) (final (k a s1))) ->
  (forall f s1, d1 (Abort f) s1 -> done (Abort f) s1) ->
  keeps_unless I done (bind m k).
Proof.
  intros Hm Hk Hok Hab s. unfold bind.
  destruct (Hm s) as [Hi | Hd]; destruct (outcome (m s)) as [a|f] eqn:E;
    cbn [outcome final].
  - destruct (Hk a (final (m s))) as [Hi' | Hd'].
    + left. eapply I_trans; eassumption.
    + right. exact Hd'.
  - left. exact Hi.
  - right. apply Hok. exact Hd.
  - right. apply Hab. exact Hd.
Qed.

Lemma unless_bind_keeps A B Q (done : result B -> S -> Prop) (m : M S A)
    (k : A -> M S B) :
  keeps I Q m ->
  (forall a, keeps_unless I done (k a)) ->
  keeps_unless I done (bind m k).
Proof.
  intros Hm Hk.
  apply unless_bind with (d1 := fun _ _ => False); auto; try contradiction.
  apply unless_of_keeps with (Q := Q). exact Hm.
Qed.

End Unless.

Lemma same_offsets_refl s : same_offsets s s.
Proof. split; reflexivity. Qed.

Lemma same_offsets_trans s1 s2 s3 :
  same_offsets s1 s2 -> same_offsets s2 s3 -> same_offsets s1 s3.
Proof. intros [H1 H2] [H3 H4]. split; congruence. Qed.

#[local] Hint Resolve same_offsets_refl same_offsets_trans : core.

Lemma zdump_rule_offsets i rule :
  keeps same_offsets any_event (zdump_rule i rule).
Proof.
  unfold zdump_rule.
  repeat (apply parseZdumpDate_silent || subject_step).
Qed.

Ltac unless_step :=
  first
    [ apply unless_done; solve [frame_side]; intros ?; reflexivity
    | apply unless_done; [solve [frame_side] ..|]; intros ?; reflexivity
    | eapply unless_bind_keeps with (Q := any_event);
        [solve [frame_side] .. | | intros ?]
    | match goal with
      | |- keeps_unless _ _ (if ?b then _ else _) => destruct b
      | |- keeps_unless _ _ (match ?x with _ => _ end) => destruct x
      end
    | eapply unless_of_keeps with (Q := any_event) ].

(** [setAndroidTimeZoneUsingZdump] touches the offsets only when it
    returns 0. *)
Lemma setAndroidTimeZoneUsingZdump_offsets host :
  keeps_unless same_offsets (fun o _ => o = Ok 0)
               (setAndroidTimeZoneUsingZdump host).
Proof.
  unfold setAndroidTimeZoneUsingZdump.
  repeat first
    [ apply zdump_rule_offsets
    | unless_step
    | subject_step
    | apply keeps_emit; [solve [frame_side] .. | exact Logic.I] ].
Qed.

(** [setAndroidTimeZoneUsingDate] touches the offsets only when it
    returns 0, and then the daylight offset is 0. *)
Lemma setAndroidTimeZoneUsingDate_offsets host :
  keeps_unless same_offsets
               (fun o s' => o = Ok 0 /\ mDaylightOffset s' = 0)
               (setAndroidTimeZoneUsingDate host).
Proof.
  unfold setAndroidTimeZoneUsingDate.
  repeat first
    [ apply unless_done; [solve [frame_side] ..|]; intros ?;
      split; reflexivity
    | unless_step
    | subject_step
    | apply keeps_emit; [solve [frame_side] .. | exact Logic.I] ].
Qed.

(** The platform part of the resolver either marks the engine resolved or
    leaves the offsets as they were. *)
Lemma resolve_on_platform_offsets host tzname :
  keeps_unless same_offsets (fun _ s' => mAndroidTimeZoneInit s' = 1)
               (resolve_on_platform host tzname).
Proof.
  assert (Hunix :
    keeps_unless same_offsets (fun _ s' => mAndroidTimeZoneInit s' = 1)
      (r1 <- setAndroidTimeZoneUsingZdump host ;;
       if negb (r1 =? 0) then
         r2 <- setAndroidTimeZoneUsingDate host ;;
         if negb (r2 =? 0) then ret tt
         else modify (set_mAndroidTimeZoneInit 1)
       else modify (set_mAndroidTimeZoneInit 1))).
  { eapply unless_bind;
      [solve [frame_side] | apply setAndroidTimeZoneUsingZdump_offsets | | |].
    - intros r1. destruct (negb (r1 =? 0)).
      + eapply unless_bind;
          [solve [frame_side] | apply setAndroidTimeZoneUsingDate_offsets
          | | |].
        * intros r2. destruct (negb (r2 =? 0)).
          -- eapply unless_of_keeps with (Q := any_event).
             apply keeps_ret; frame_side.
          -- apply unless_done. intros ?. reflexivity.
        * intros a s1 [Ha _]. injection Ha as ->. reflexivity.
        * intros f s1 [Hf _]. discriminate Hf.
      + apply unless_done. intros ?. reflexivity.
    - intros a s1 Ha. injection Ha as ->. reflexivity.
    - intros f s1 Hf. discriminate Hf. }
  unfold resolve_on_platform. destruct (platform host); try exact Hunix.
  destruct (find_win_name _win32_timezones tzname) as [winName|].
  2:{ eapply unless_of_keeps with (Q := any_event).
      apply keeps_ret; frame_side. }
  eapply unless_bind_keeps with (Q := any_event); [solve [frame_side]| |].
  { apply keeps_with_local; [solve [frame_side]|].
    intros s0. split; [exact Logic.I|].
    eapply Forall_impl;
      [|apply (parseTimeZoneInformationFromRegistry_quiet host winName s0)].
    intros e _. exact Logic.I. }
  intros [failed win_tzi]. destruct (negb (failed =? 0)).
  { eapply unless_of_keeps with (Q := any_event).
    apply keeps_ret; frame_side. }
  apply unless_done. intros s0. unfold bind. cbn.
  destruct (negb (- DaylightBias win_tzi * 60 =? 0)); reflexivity.
Qed.

(** A resolution that fails leaves the offsets as they were. *)
Lemma androidTimeZoneSet_failure_offsets host tzname this :
  let r := androidTimeZoneSet host tzname this in
  outcome r = Ok (-1) ->
  mAndroidTimeZoneInit (final r) = 0 /\ same_offsets this (final r).
Proof.
  cbv zeta. intros Hfail.
  destruct (androidTimeZoneSet_result host tzname this (-1) Hfail)
    as [[H _] | [_ Hinit]]; [discriminate H|].
  split; [exact Hinit|].
  pose proof (androidTimeZoneSet_run host tzname this) as H.
  cbv zeta in H. destruct H as (Hf & _ & _).
  rewrite Hf in *.
  destruct (resolve_on_platform_offsets host tzname
              (set_mAndroidTimeZoneInit 0 (set_mTimeZoneName tzname this)))
    as [Hsame | Hdone].
  - exact Hsame.
  - rewrite Hdone in Hinit. discriminate Hinit.
Qed.

(** C1.  When a resolved engine is asked for an instant of another year and
    the re-resolution fails, the call answers with the offset computed from
    the rule still stored in the engine, and only leaves the engine
    unresolved for the calls that follow. *)
Theorem failed_rollover_answers_from_stored_rule (host : Host)
    (this : TimeZone) (timeNow : Z) :
  mAndroidTimeZoneInit this <> 0 ->
  tm_year (gmtime timeNow) + 1900 <> mCurrentYear this ->
  outcome (androidTimeZoneSet host (mTimeZoneName this)
             (set_mCurrentYear (tm_year (gmtime timeNow) + 1900) this))
  = Ok (-1) ->
  let r := androidTimeZoneOffset host timeNow this in
  outcome r = Ok (getTimeZoneDiff (final r) timeNow) /\
  mAndroidTimeZoneInit (final r) = 0 /\
  mStandardOffset (final r) = mStandardOffset this /\
  mDaylightOffset (final r) = mDaylightOffset this.
Proof.
  intros Hinit Hyear Hfail. cbv zeta.
  pose proof (androidTimeZoneOffset_rollover host this timeNow Hinit Hyear)
    as H.
  cbv zeta in H. destruct H as (Hf & _ & Ho).
  pose proof (androidTimeZoneSet_failure_offsets host (mTimeZoneName this)
                (set_mCurrentYear (tm_year (gmtime timeNow) + 1900) this))
    as H.
  cbv zeta in H. destruct (H Hfail) as (Hunres & Hstd & Hdl).
  rewrite Hf, Ho, Hfail. repeat split; assumption.
Qed.

(** The engine resolved for 2023 with the New York rule is asked for
    2024-01-01T00:00:00Z on a host, one hour east of Greenwich, on which no
    command runs: the answer is the standard offset of the stored New York
    rule, not the host's own offset. *)
Lemma failed_rollover_answers_from_stored_rule_witness :
  let r := androidTimeZoneOffset Samples.host_without_tools
             Samples.january_2024 Samples.new_york_2023 in
  (outcome r = Ok (getTimeZoneDiff (final r) Samples.january_2024) /\
   mAndroidTimeZoneInit (final r) = 0 /\
   mStandardOffset (final r) = mStandardOffset Samples.new_york_2023 /\
   mDaylightOffset (final r) = mDaylightOffset Samples.new_york_2023) /\
  outcome r = Ok (-18000) /\
  host_offset Samples.host_without_tools Samples.january_2024 = Some 3600.
Proof.
  cbv zeta. split; [|split].
  - apply (failed_rollover_answers_from_stored_rule
             Samples.host_without_tools Samples.new_york_2023
             Samples.january_2024).
    + vm_compute. discriminate.
    + vm_compute. discriminate.
    + vm_compute. reflexivity.
  - vm_compute. reflexivity.
  - vm_compute. reflexivity.
Defined.

(** ** [timezone_set] *)

Arguments check_timezone_is_zoneinfo : simpl never.
Arguments strlen : simpl never.
Arguments engine_of : simpl never.

Lemma check_some_of_valid (tzname : cstr) :
  check_timezone_is_zoneinfo tzname <> 0 -> exists name, tzname = Some name.
Proof.
  destruct tzname as [name|]; [eauto|]. intros H. exfalso. apply H.
  reflexivity.
Qed.

(** A name that the validator rejects, or that does not fit the buffer, is
    refused before the engine is touched. *)
Lemma timezone_set_refused host tzname g :
  check_timezone_is_zoneinfo tzname = 0
  \/ (exists name, tzname = Some name /\ strlen name > TIMEZONE0_SIZE - 1) ->
  timezone_set host tzname g
  = mkRun (Ok (-1)) (set_android_timezone_init 0 g) [].
Proof.
  intros [H | (name & -> & Hlen)]; unfold timezone_set, bind; cbn.
  - rewrite H. reflexivity.
  - destruct (check_timezone_is_zoneinfo (Some name) =? 0); [reflexivity|].
    cbn. unfold TIMEZONE0_SIZE in *.
    assert (Hgt : (strlen name >? 256 - 1) = true)
      by (rewrite Z.gtb_ltb; apply Z.ltb_lt; lia).
    cbn in Hgt. rewrite Hgt. reflexivity.
Qed.

(** A valid name that fits is handed to the resolver of the engine. *)
Lemma timezone_set_resolves host name g :
  check_timezone_is_zoneinfo (Some name) <> 0 ->
  strlen name <= TIMEZONE0_SIZE - 1 ->
  let rs := androidTimeZoneSet host name (engine_of host g) in
  let r := timezone_set host (Some name) g in
  sAndroidTimeZone (final r) = Some (final rs) /\
  android_timezone0 (final r) = name /\
  android_timezone (final r) = Timezone0 /\
  emitted r = emitted rs /\
  outcome r =
    match outcome rs with
    | Ok failed => if negb (failed =? 0) then Ok (-1) else Ok 0
    | Abort f => Abort f
    end /\
  android_timezone_init (final r) =
    match outcome rs with
    | Ok failed => if negb (failed =? 0) then 0 else 1
    | Abort f => 0
    end.
Proof.
  intros Hvalid Hlen. apply Z.eqb_neq in Hvalid.
  assert (Hfit : (strlen name >? 255) = false).
  { unfold TIMEZONE0_SIZE in Hlen. rewrite Z.gtb_ltb. apply Z.ltb_ge. lia. }
  unfold timezone_set, bind, on_engine, zoom; cbn.
  rewrite Hvalid. cbn. rewrite Hfit. cbn.
  change (engine_of host
            (set_android_timezone Timezone0
               (set_android_timezone0 name (set_android_timezone_init 0 g))))
    with (engine_of host g).
  destruct (outcome (androidTimeZoneSet host name (engine_of host g)))
    as [failed|f]; cbn.
  - destruct (negb (failed =? 0)); cbn; rewrite ?app_nil_r; auto 10.
  - auto 10.
Qed.

(** C5, as the code has it.  A name that the validator rejects makes
    [timezone_set] report failure without entering the resolver and leaves
    the engine exactly as it was, so that a rule resolved earlier stays the
    active one.  A valid name (of at most 255 bytes) is handed to the
    resolver; when the resolution fails, [timezone_set] reports failure and
    the engine is left unresolved, so that no earlier rule is kept as the
    active resolved state. *)
Theorem timezone_set_failure (host : Host) (tzname : cstr) (g : Globals) :
  let r := timezone_set host tzname g in
  (check_timezone_is_zoneinfo tzname = 0 ->
   outcome r = Ok (-1) /\
   emitted r = [] /\
   sAndroidTimeZone (final r) = sAndroidTimeZone g)
  /\
  (forall name,
     tzname = Some name ->
     check_timezone_is_zoneinfo tzname <> 0 ->
     strlen name <= TIMEZONE0_SIZE - 1 ->
     let rs := androidTimeZoneSet host name (engine_of host g) in
     (outcome rs = Ok (-1) -> outcome r = Ok (-1)) /\
     (outcome r = Ok (-1) -> ~ resolved (final r))).
Proof.
  cbv zeta. split.
  - intros H. rewrite (timezone_set_refused host tzname g (or_introl H)).
    cbn. auto.
  - intros name -> Hvalid Hlen.
    pose proof (timezone_set_resolves host name g Hvalid Hlen) as H.
    cbv zeta in H. destruct H as (Heng & _ & _ & _ & Ho & _).
    split.
    + intros Hrs. rewrite Ho, Hrs. reflexivity.
    + intros Hr [z [Hz Hinit]]. rewrite Heng in Hz. injection Hz as <-.
      rewrite Ho in Hr.
      destruct (outcome (androidTimeZoneSet host name (engine_of host g)))
        as [failed|f] eqn:E; [|discriminate].
      destruct (androidTimeZoneSet_result host name (engine_of host g)
                  failed E) as [[-> _] | [_ H0]].
      * discriminate Hr.
      * contradiction.
Qed.

(** On a process that holds the New York rule: an invalid name is refused
    and the rule stays; a valid name that no tool resolves is reported as a
    failure and leaves the engine unresolved. *)
Lemma timezone_set_failure_witness :
  (let r := timezone_set Samples.host_without_tools (Some "Not_A_Zone")
              Samples.resolved_process in
   outcome r = Ok (-1) /\ emitted r = [] /\
   sAndroidTimeZone (final r) = sAndroidTimeZone Samples.resolved_process)
  /\
  (let r := timezone_set Samples.host_without_tools (Some "Europe/Paris")
              Samples.resolved_process in
   outcome r = Ok (-1) /\ ~ resolved (final r)).
Proof.
  split.
  - apply (proj1 (timezone_set_failure Samples.host_without_tools
                    (Some "Not_A_Zone") Samples.resolved_process)).
    vm_compute. reflexivity.
  - destruct (proj2 (timezone_set_failure Samples.host_without_tools
                       (Some "Europe/Paris") Samples.resolved_process)
                "Europe/Paris" eq_refl) as [Hrep Hdrop].
    + vm_compute. discriminate.
    + vm_compute. discriminate.
    + cbv zeta.
      assert (Hr : outcome (timezone_set Samples.host_without_tools
                              (Some "Europe/Paris")
                              Samples.resolved_process) = Ok (-1)).
      { apply Hrep. vm_compute. reflexivity. }
      split; [exact Hr | exact (Hdrop Hr)].
Defined.

(** C5, as the claim states it, fails: on a process whose engine holds the
    New York rule, [timezone_set "Not_A_Zone"] is rejected by the validator
    and reports failure, and the New York rule is still the active resolved
    state: the next query answers from it. *)
Lemma timezone_set_invalid_name_keeps_rule :
  check_timezone_is_zoneinfo (Some "Not_A_Zone") = 0 /\
  resolved Samples.resolved_process /\
  ~ failure_drops_rule Samples.host_without_tools (Some "Not_A_Zone")
      Samples.resolved_process /\
  (let r := timezone_set Samples.host_without_tools (Some "Not_A_Zone")
              Samples.resolved_process in
   outcome (android_tzoffset_in_seconds Samples.host_without_tools
              Samples.july_2024 (final r)) = Ok (-14400)).
Proof.
  assert (Hres : resolved Samples.resolved_process).
  { exists Samples.new_york_2024. split; [reflexivity|].
    vm_compute. discriminate. }
  split; [reflexivity|]. split; [exact Hres|]. split.
  - unfold failure_drops_rule. cbv zeta. intros H. apply H.
    + vm_compute. reflexivity.
    + exact Hres.
  - vm_compute. reflexivity.
Qed.

(** ** The validator and empty segments *)

(** C2.  The validator accepts names whose first ['/'] is at position 0, and
    names with an empty middle segment, although they are not of the form
    Area/Location or Area/Location/SubLocation with non-empty segments; it
    accepts exactly the names of two or three segments whose last segment is
    not empty. *)
Theorem validator_accepts_empty_area :
  check_timezone_is_zoneinfo (Some "/UTC") = 1 /\
  is_zoneinfo_form "/UTC" = false /\
  check_timezone_is_zoneinfo (Some "America//Knox") = 1 /\
  is_zoneinfo_form "America//Knox" = false /\
  (forall s, check_timezone_is_zoneinfo (Some s) = 1 <-> accepted_form s = true)
  /\
  (forall s, is_zoneinfo_form s = true ->
             check_timezone_is_zoneinfo (Some s) = 1).
Proof.
  repeat split; try reflexivity.
  - rewrite check_timezone_is_zoneinfo_accepted.
    destruct (accepted_form s); [reflexivity | discriminate].
  - intros H. rewrite check_timezone_is_zoneinfo_accepted, H. reflexivity.
  - apply is_zoneinfo_form_accepted.
Qed.

(** ** The registry strategy *)

(** What [parseSystemTime] stores for a system time. *)
Lemma parseSystemTime_key (winTime : SYSTEMTIME) (t : tm) :
  civil_key (final (parseSystemTime winTime t))
  = [wYear winTime - 1900; wMonth winTime - 1; wDay winTime;
     wHour winTime; wMinute winTime; wSecond winTime].
Proof. reflexivity. Qed.

(** C3.  When the registry strategy succeeds for a zone whose daylight bias
    is not zero, the standard-transition field of the engine ends up with
    the daylight date of the registry record, and the daylight-transition
    field is left as it was before the call: the standard date of the record
    is overwritten, and the second boundary is never recorded. *)
Theorem registry_dates_share_one_field (host : Host) (tzname winName : string)
    (this : TimeZone) :
  platform host = Win32 ->
  find_win_name _win32_timezones tzname = Some winName ->
  let path :=
    "SOFTWARE\Microsoft\Windows NT\CurrentVersion\Time Zones\" ++ winName in
  let q := host_RegQueryValueEx host path "TZI" in
  host_RegOpenKeyEx host path = ERROR_SUCCESS ->
  query_result q = ERROR_SUCCESS ->
  query_dataType q = REG_BINARY ->
  DaylightBias (query_data q) <> 0 ->
  let r := androidTimeZoneSet host tzname this in
  outcome r = Ok 0 /\
  mDaylightOffset (final r) = - DaylightBias (query_data q) * 60 /\
  mDaylightDateUtc (final r) = mDaylightDateUtc this /\
  mStandardDateUtc (final r)
  = final (parseSystemTime (DaylightDate (query_data q))
             (final (parseSystemTime (StandardDate (query_data q))
                       (mStandardDateUtc this)))).
Proof.
  cbv zeta. intros Hplat Hname Hopen Hres Htype Hbias.
  pose proof (androidTimeZoneSet_run host tzname this) as H.
  cbv zeta in H. destruct H as (Hf & _ & Ho).
  rewrite Hf, Ho. clear Hf Ho.
  unfold resolve_on_platform. rewrite Hplat, Hname.
  unfold bind, with_local, parseTimeZoneInformationFromRegistry, bind.
  cbn in *. rewrite Hopen. cbn. rewrite Hres, Htype. cbn.
  match goal with
  | |- context [negb (?b =? 0)] =>
      replace (b =? 0) with false by (symmetry; apply Z.eqb_neq; lia)
  end.
  cbn. auto.
Qed.

(** "America/Los_Angeles" on a Windows host whose registry holds, for
    "Pacific Standard Time", a standard date in November and a daylight
    date in March: the standard field receives the March date and the
    daylight field keeps what it held. *)
Lemma registry_dates_share_one_field_witness :
  let r := androidTimeZoneSet Samples.windows_host "America/Los_Angeles"
             Samples.new_york_2024 in
  outcome r = Ok 0 /\
  mDaylightOffset (final r) = 3600 /\
  mDaylightDateUtc (final r) = mDaylightDateUtc Samples.new_york_2024 /\
  civil_key (mStandardDateUtc (final r)) = [-1900; 2; 2; 2; 0; 0] /\
  StandardDate Samples.pacific_tzi <> DaylightDate Samples.pacific_tzi.
Proof.
  cbv zeta.
  destruct (registry_dates_share_one_field Samples.windows_host
              "America/Los_Angeles" "Pacific Standard Time"
              Samples.new_york_2024)
    as (Ho & Hdl & Hd & Hs).
  - reflexivity.
  - vm_compute. reflexivity.
  - vm_compute. reflexivity.
  - reflexivity.
  - reflexivity.
  - vm_compute. discriminate.
  - split; [exact Ho|]. split; [exact Hdl|]. split; [exact Hd|]. split.
    + rewrite Hs. reflexivity.
    + discriminate.
Defined.

(** ** The byte-compare step of the discoverer *)

Lemma compare_bytes_same_length {S} (localtime path : string)
    (reference candidate : list ascii) (nn : Z) (s : S) :
  List.length reference = List.length candidate ->
  let r := compare_bytes localtime path (List.length reference) nn
             (map Got reference) (map Got candidate) s in
  final r = s /\
  exists k,
    outcome r = Ok k /\
    nn <= k <= nn + Z.of_nat (List.length reference) /\
    (k = nn + Z.of_nat (List.length reference) <-> reference = candidate).
Proof.
  revert candidate nn.
  induction reference as [|b1 reference IH]; intros [|b2 candidate] nn Hlen;
    try discriminate Hlen.
  - cbn. split; [reflexivity|]. exists nn. split; [reflexivity|].
    split; [lia|]. split; [reflexivity | lia].
  - injection Hlen as Hlen. specialize (IH candidate (nn + 1) Hlen).
    cbv zeta in IH. destruct IH as (Hfin & k & Hk & Hrange & Hiff).
    cbn [List.length map compare_bytes]. unfold bind at 1 2. cbn.
    destruct (Ascii.eqb b1 b2) eqn:E; cbn.
    + apply Ascii.eqb_eq in E. subst b2.
      rewrite Hfin, Hk. split; [reflexivity|]. exists k.
      split; [reflexivity|]. split; [lia|]. split.
      * intros Hkk. f_equal. apply Hiff. lia.
      * intros Heq. injection Heq as Heq. apply Hiff in Heq. lia.
    + apply Ascii.eqb_neq in E.
      split; [reflexivity|]. exists nn. split; [reflexivity|].
      split; [lia|]. split.
      * lia.
      * intros Heq. injection Heq as Heq _. contradiction.
Qed.

(** C7.  For a candidate file and a reference file that can both be read,
    the compare step reports a match exactly when the candidate has the size
    of the reference and the same bytes; when the sizes differ it answers
    without opening or reading either file. *)
Theorem compare_matches_identical_files {S} (fs : FileSystem)
    (scan : ScanDataRec) (path : string) (reference candidate : list ascii)
    (st : stat_t) (s : S) :
  fs_stat fs path = Some st ->
  st_size st = Z.of_nat (List.length candidate) ->
  st_size (scan_localtime_st scan) = Z.of_nat (List.length reference) ->
  fs_open fs (scan_localtime scan) = Some (map Got reference) ->
  fs_open fs path = Some (map Got candidate) ->
  let r := compare_timezone_to_localtime fs scan path s in
  (outcome r = Ok 1 \/ outcome r = Ok 0) /\
  (outcome r = Ok 1 <->
   List.length candidate = List.length reference /\ candidate = reference) /\
  (List.length candidate <> List.length reference ->
   outcome r = Ok 0 /\ emitted r = []).
Proof.
  intros Hstat Hsize Hrefsize Hopen1 Hopen2. cbv zeta.
  unfold compare_timezone_to_localtime. rewrite Hstat, Hsize, Hrefsize.
  destruct (Z.of_nat (List.length candidate)
            =? Z.of_nat (List.length reference)) eqn:E; cbn [negb].
  - apply Z.eqb_eq in E. apply Nat2Z.inj in E.
    unfold bind at 1. cbn. rewrite Hopen1. unfold bind at 1. cbn.
    rewrite Hopen2. rewrite Nat2Z.id. rewrite E.
    pose proof (compare_bytes_same_length (scan_localtime scan) path
                  reference candidate 0 s (eq_sym E)) as H.
    cbv zeta in H. destruct H as (_ & k & Hk & Hrange & Hiff).
    unfold bind. rewrite Hk. cbn.
    destruct (k =? Z.of_nat (List.length reference)) eqn:Ek.
    + apply Z.eqb_eq in Ek. split; [left; reflexivity|]. split.
      * split; [intros _ | reflexivity]. split; [reflexivity|].
        symmetry. apply Hiff. lia.
      * intros Hne. contradiction.
    + apply Z.eqb_neq in Ek. split; [right; reflexivity|]. split.
      * split; [discriminate|]. intros [_ Heq]. exfalso. apply Ek.
        symmetry in Heq. apply Hiff in Heq. lia.
      * intros Hne. contradiction.
  - apply Z.eqb_neq in E. cbn. split; [right; reflexivity|]. split.
    + split; [discriminate|]. intros [Hlen _]. lia.
    + intros _. split; reflexivity.
Qed.

(** In the sample tree the London file matches the reference, the Paris
    file has its size but other bytes, and the UTC file has another size. *)
Lemma compare_matches_identical_files_witness :
  outcome (compare_timezone_to_localtime Samples.zoneinfo_tree
             Samples.tree_scan "/usr/share/zoneinfo/Europe/London" tt)
  = Ok 1 /\
  outcome (compare_timezone_to_localtime Samples.zoneinfo_tree
             Samples.tree_scan "/usr/share/zoneinfo/Europe/Paris" tt)
  <> Ok 1 /\
  (let r := compare_timezone_to_localtime Samples.zoneinfo_tree
              Samples.tree_scan "/usr/share/zoneinfo/UTC" tt in
   outcome r = Ok 0 /\ emitted r = []).
Proof.
  split; [|split].
  - apply (proj1 (proj2 (compare_matches_identical_files
             Samples.zoneinfo_tree Samples.tree_scan
             "/usr/share/zoneinfo/Europe/London"
             Samples.london_bytes Samples.london_bytes
             (mk_stat RegularFile 12) tt
             eq_refl eq_refl eq_refl eq_refl eq_refl))).
    split; reflexivity.
  - intros H.
    apply (proj1 (proj2 (compare_matches_identical_files
             Samples.zoneinfo_tree Samples.tree_scan
             "/usr/share/zoneinfo/Europe/Paris"
             Samples.london_bytes Samples.paris_bytes
             (mk_stat RegularFile 12) tt
             eq_refl eq_refl eq_refl eq_refl eq_refl))) in H.
    destruct H as [_ H]. vm_compute in H. discriminate H.
  - apply (proj2 (proj2 (compare_matches_identical_files
             Samples.zoneinfo_tree Samples.tree_scan
             "/usr/share/zoneinfo/UTC"
             Samples.london_bytes Samples.utc_bytes
             (mk_stat RegularFile 9) tt
             eq_refl eq_refl eq_refl eq_refl eq_refl))).
    vm_compute. discriminate.
Defined.

(** The discoverer on the sample tree: the scan passes the UTC file (its
    name has no ['/']), enters Europe, rejects Paris and finds London. *)
Example discover_sample_tree :
  outcome (get_zoneinfo_timezone Samples.host_with_tree Globals_start)
  = Ok (Some "Europe/London").
Proof. vm_compute. reflexivity. Qed.

(** ** The text printed for the guest *)

Lemma bufprint_fits (room : Z) (text stored : string) (p : Z) :
  bufprint room text = (stored, p) -> p < room ->
  stored = text /\ p = strlen text.
Proof.
  unfold bufprint. destruct (strlen text <? room) eqn:E; intros H Hp.
  - injection H as <- <-. auto.
  - injection H as _ <-. lia.
Qed.

(** C10, the claim as worded.  On a host where nothing is discovered and
    with a buffer of 8 bytes, the text stored is "Unknown", which the
    validator rejects; and on a Linux host with [TZ=/UTC] the text stored in
    a large buffer is "/UTC", which the validator accepts although it is not
    an identifier of the form Area/Location. *)
Lemma bufprint_zoneinfo_timezone_cut_or_malformed :
  outcome (bufprint_zoneinfo_timezone Samples.host_without_tools 8
             Globals_start) = Ok ("Unknown", 8) /\
  check_timezone_is_zoneinfo (Some "Unknown") = 0 /\
  outcome (bufprint_zoneinfo_timezone
             (MoreSamples.host_with_TZ Linux "/UTC") 64 Globals_start)
  = Ok ("/UTC", 4) /\
  check_timezone_is_zoneinfo (Some "/UTC") = 1 /\
  is_zoneinfo_form "/UTC" = false.
Proof. repeat split; vm_compute; reflexivity. Qed.

(** C10, as the code has it.  Whatever the host and the state of the
    process, when [bufprint_zoneinfo_timezone] returns and the text fits the
    room given to it, the text stored satisfies the validator: it is the
    name found by the discoverer when that name validates, and the literal
    "Unknown/Unknown", which validates and has the form Area/Location, when
    nothing was found or the name found does not validate.  The text has the
    form the validator accepts (two or three segments, the last one not
    empty); it has the form Area/Location with no empty segment whenever the
    name found has it.  The call returns whenever the discoverer does. *)
Theorem bufprint_zoneinfo_timezone_valid (host : Host) (room : Z)
    (g : Globals) :
  let r := bufprint_zoneinfo_timezone host room g in
  (forall text p,
     outcome r = Ok (text, p) -> p < room ->
     check_timezone_is_zoneinfo (Some text) = 1 /\
     accepted_form text = true)
  /\
  (forall tz,
     outcome (get_zoneinfo_timezone host g) = Ok tz ->
     exists text p,
       outcome r = Ok (text, p) /\
       (tz = None \/ check_timezone_is_zoneinfo tz = 0 ->
        strlen "Unknown/Unknown" < room ->
        text = "Unknown/Unknown") /\
       (forall name,
          tz = Some name -> check_timezone_is_zoneinfo tz <> 0 ->
          strlen name < room ->
          text = name /\
          (is_zoneinfo_form name = true -> is_zoneinfo_form text = true)))
  /\
  check_timezone_is_zoneinfo (Some "Unknown/Unknown") = 1 /\
  is_zoneinfo_form "Unknown/Unknown" = true.
Proof.
  cbv zeta. unfold bufprint_zoneinfo_timezone, bind.
  generalize (get_zoneinfo_timezone host g). intros d.
  assert (Hform : forall text,
            check_timezone_is_zoneinfo (Some text) = 1 ->
            accepted_form text = true).
  { intros text H. rewrite check_timezone_is_zoneinfo_accepted in H.
    destruct (accepted_form text); [reflexivity | discriminate H]. }
  split; [|split; [|split; reflexivity]].
  - intros text p. destruct (outcome d) as [[name|]|f]; cbn.
    + destruct (check_timezone_is_zoneinfo (Some name) =? 0) eqn:E; cbn;
        intros H Hp; injection H as H;
        destruct (bufprint_fits _ _ _ _ H Hp) as [-> _].
      * split; reflexivity.
      * apply Z.eqb_neq in E.
        assert (Hc : check_timezone_is_zoneinfo (Some name) = 1)
          by (destruct (check_timezone_is_zoneinfo_bool (Some name));
              congruence).
        split; [exact Hc | apply Hform; exact Hc].
    + intros H Hp. injection H as H.
      destruct (bufprint_fits _ _ _ _ H Hp) as [-> _]. split; reflexivity.
    + discriminate.
  - intros tz Htz. rewrite Htz. destruct tz as [name|]; cbn.
    + destruct (check_timezone_is_zoneinfo (Some name) =? 0) eqn:E; cbn.
      * exists (fst (bufprint room "Unknown/Unknown")),
               (snd (bufprint room "Unknown/Unknown")).
        split; [destruct (bufprint room "Unknown/Unknown"); reflexivity|].
        split.
        -- intros _ Hroom. unfold bufprint.
           apply Z.ltb_lt in Hroom. rewrite Hroom. reflexivity.
        -- intros name' _ Hc. apply Z.eqb_eq in E. contradiction.
      * exists (fst (bufprint room name)), (snd (bufprint room name)).
        split; [destruct (bufprint room name); reflexivity|].
        apply Z.eqb_neq in E. split.
        -- intros [H | H]; [discriminate H | contradiction].
        -- intros name' Hname _ Hroom. injection Hname as <-.
           unfold bufprint. apply Z.ltb_lt in Hroom. rewrite Hroom.
           cbn [fst]. split; [reflexivity | auto].
    + exists (fst (bufprint room "Unknown/Unknown")),
             (snd (bufprint room "Unknown/Unknown")).
      split; [destruct (bufprint room "Unknown/Unknown"); reflexivity|].
      split.
      * intros _ Hroom. unfold bufprint.
        apply Z.ltb_lt in Hroom. rewrite Hroom. reflexivity.
      * intros name' H. discriminate H.
Qed.

(** A host on which nothing is found, a host whose tree holds the London
    file, and a process whose buffer holds a name that does not validate. *)
Lemma bufprint_zoneinfo_timezone_valid_witness :
  outcome (bufprint_zoneinfo_timezone Samples.host_without_tools 64
             Globals_start) = Ok ("Unknown/Unknown", 15) /\
  check_timezone_is_zoneinfo (Some "Unknown/Unknown") = 1 /\
  outcome (bufprint_zoneinfo_timezone Samples.host_with_tree 64
             Globals_start) = Ok ("Europe/London", 13) /\
  check_timezone_is_zoneinfo (Some "Europe/London") = 1 /\
  outcome (bufprint_zoneinfo_timezone Samples.host_with_tree 64
             (mkGlobals "Nowhere" Timezone0 1 None))
  = Ok ("Unknown/Unknown", 15).
Proof.
  assert (H1 : outcome (bufprint_zoneinfo_timezone Samples.host_without_tools
                          64 Globals_start) = Ok ("Unknown/Unknown", 15))
    by (vm_compute; reflexivity).
  assert (H2 : outcome (bufprint_zoneinfo_timezone Samples.host_with_tree 64
                          Globals_start) = Ok ("Europe/London", 13))
    by (vm_compute; reflexivity).
  split; [exact H1|]. split.
  - apply (proj1 (bufprint_zoneinfo_timezone_valid
                    Samples.host_without_tools 64 Globals_start)
             "Unknown/Unknown" 15 H1).
    reflexivity.
  - split; [exact H2|]. split.
    + apply (proj1 (bufprint_zoneinfo_timezone_valid
                      Samples.host_with_tree 64 Globals_start)
               "Europe/London" 13 H2).
      reflexivity.
    + vm_compute. reflexivity.
Defined.

(** ** The two external-utility strategies *)

Section Ensures.

Context {S : Type}.

Lemma ensures_bind A B (P : result B -> S -> Prop) (m : M S A)
    (k : A -> M S B) :
  (forall f s, P (Abort f) s) ->
  (forall a, ensures P (k a)) ->
  ensures P (bind m k).
Proof.
  intros Hab Hk s. unfold bind.
  destruct (outcome (m s)) as [a|f]; cbn; [apply Hk | apply Hab].
Qed.

End Ensures.

(** The zdump command of an engine state. *)
Lemma setAndroidTimeZoneUsingZdump_no_tempfile host this :
  host_tempfile host ZdumpOutput = None ->
  setAndroidTimeZoneUsingZdump host this = mkRun (Ok (-1)) this [].
Proof.
  intros H. unfold setAndroidTimeZoneUsingZdump, bind. cbn. rewrite H.
  reflexivity.
Qed.

(** The zdump strategy returns failure, and leaves the engine as it was,
    when the command did not run, exited with a code other than 0, or did
    not print exactly four lines. *)
Lemma setAndroidTimeZoneUsingZdump_no_output host this outputFilepath :
  host_tempfile host ZdumpOutput = Some outputFilepath ->
  let shellCmd :=
    ["/bin/bash"; "-c";
     "zdump -v " ++ mTimeZoneName this ++ " | grep "
       ++ format_d (mCurrentYear this)] in
  let run := host_runCommand host shellCmd 5000 outputFilepath in
  commandRan run = false \/ exitCode run <> 0
  \/ List.length (getlines (captured run)) <> 4%nat ->
  setAndroidTimeZoneUsingZdump host this
  = mkRun (Ok (-1)) this [EvRunCommand shellCmd 5000].
Proof.
  cbv zeta. intros Htmp Hbad.
  unfold setAndroidTimeZoneUsingZdump, bind. cbn in *. rewrite Htmp. cbn.
  destruct Hbad as [H | [H | H]].
  - rewrite H. reflexivity.
  - apply Z.eqb_neq in H. rewrite H, andb_false_r. reflexivity.
  - apply Nat.eqb_neq in H. rewrite H.
    match goal with
    | |- context [if ?b then _ else _] => destruct b; reflexivity
    end.
Qed.

(** The zdump strategy returns 0 only if the command ran, exited with 0 and
    printed exactly four lines; it then has stored both offsets. *)
Lemma setAndroidTimeZoneUsingZdump_success host this :
  outcome (setAndroidTimeZoneUsingZdump host this) = Ok 0 ->
  exists outputFilepath,
    host_tempfile host ZdumpOutput = Some outputFilepath /\
    let run :=
      host_runCommand host
        ["/bin/bash"; "-c";
         "zdump -v " ++ mTimeZoneName this ++ " | grep "
           ++ format_d (mCurrentYear this)] 5000 outputFilepath in
    commandRan run = true /\ exitCode run = 0 /\
    List.length (getlines (captured run)) = 4%nat.
Proof.
  destruct (host_tempfile host ZdumpOutput) as [outputFilepath|] eqn:Htmp.
  2:{ rewrite (setAndroidTimeZoneUsingZdump_no_tempfile host this Htmp).
      discriminate. }
  intros Hok. exists outputFilepath. split; [reflexivity|]. cbv zeta.
  pose proof (setAndroidTimeZoneUsingZdump_no_output host this outputFilepath
                Htmp) as Hbad.
  cbv zeta in Hbad.
  match type of Hbad with
  | commandRan ?run = false \/ _ -> _ =>
      destruct (commandRan run) eqn:Eran;
      [ destruct (Z.eq_dec (exitCode run) 0) as [Eexit | Eexit];
        [ destruct (Nat.eq_dec (List.length (getlines (captured run))) 4)
            as [Elines | Elines]; [auto|] |] |]
  end.
  all: exfalso.
  - rewrite (Hbad (or_intror (or_intror Elines))) in Hok. discriminate Hok.
  - rewrite (Hbad (or_intror (or_introl Eexit))) in Hok. discriminate Hok.
  - rewrite (Hbad (or_introl eq_refl)) in Hok. discriminate Hok.
Qed.

(** The date strategy returns only after the command, and when it returns 0
    the daylight offset is 0. *)
Lemma setAndroidTimeZoneUsingDate_no_daylight host :
  ensures (fun o s' => o = Ok 0 -> mDaylightOffset s' = 0)
          (setAndroidTimeZoneUsingDate host).
Proof.
  unfold setAndroidTimeZoneUsingDate.
  repeat match goal with
  | |- ensures _ (ret _) => intros s0 H; discriminate H
  | |- ensures _ (bind (modify _) _) => intros s0 H; reflexivity
  | |- ensures _ (bind _ _) =>
      apply ensures_bind; [intros ? ? H; discriminate H | intros ?]
  | |- ensures _ (if ?b then _ else _) => destruct b
  | |- ensures _ (match ?x with _ => _ end) => destruct x
  end.
Qed.

(** On a Unix host the resolver runs the zdump strategy first, and the date
    strategy after it only when the zdump strategy has returned failure. *)
Lemma resolve_on_platform_order host tzname this :
  platform host <> Win32 ->
  let rz := setAndroidTimeZoneUsingZdump host this in
  let rd := setAndroidTimeZoneUsingDate host (final rz) in
  let r := resolve_on_platform host tzname this in
  match outcome rz with
  | Ok r1 =>
      if r1 =? 0
      then emitted r = emitted rz /\
           final r = set_mAndroidTimeZoneInit 1 (final rz)
      else emitted r = (emitted rz ++ emitted rd)%list /\
           match outcome rd with
           | Ok r2 =>
               final r = if r2 =? 0
                         then set_mAndroidTimeZoneInit 1 (final rd)
                         else final rd
           | Abort _ => final r = final rd
           end
  | Abort f => emitted r = emitted rz /\ final r = final rz /\
               outcome r = Abort f
  end.
Proof.
  intros Hplat. cbv zeta.
  assert (Hunix :
    resolve_on_platform host tzname
    = (r1 <- setAndroidTimeZoneUsingZdump host ;;
       if negb (r1 =? 0) then
         r2 <- setAndroidTimeZoneUsingDate host ;;
         if negb (r2 =? 0) then ret tt
         else modify (set_mAndroidTimeZoneInit 1)
       else modify (set_mAndroidTimeZoneInit 1))).
  { unfold resolve_on_platform. destruct (platform host); try reflexivity.
    contradiction. }
  rewrite Hunix. unfold bind.
  destruct (outcome (setAndroidTimeZoneUsingZdump host this)) as [r1|f];
    cbn [outcome final emitted]; [|auto].
  destruct (r1 =? 0); cbn [negb outcome final emitted].
  - rewrite app_nil_r. auto.
  - split.
    + destruct (outcome (setAndroidTimeZoneUsingDate host _)) as [r2|f];
        cbn [outcome final emitted]; [|reflexivity].
      destruct (r2 =? 0); cbn; rewrite app_nil_r; reflexivity.
    + destruct (outcome (setAndroidTimeZoneUsingDate host _)) as [r2|f];
        cbn [outcome final emitted]; [|reflexivity].
      destruct (r2 =? 0); reflexivity.
Qed.

Lemma bind_lift_run {S A B} (r : result A) (k : A -> M S B) (s : S) :
  bind (lift r) k s
  = match r with
    | Ok a => k a s
    | Abort f => mkRun (Abort f) s []
    end.
Proof.
  destruct r as [a|f]; unfold bind, lift; cbn; [|reflexivity].
  destruct (k a s); reflexivity.
Qed.

(** The events of the date strategy: at most the one command. *)
Lemma setAndroidTimeZoneUsingDate_events host this :
  let shellCmd :=
    ["/bin/bash"; "-c"; "TZ=" ++ mTimeZoneName this ++ " date +%z"] in
  emitted (setAndroidTimeZoneUsingDate host this)
  = match host_tempfile host DateOutput with
    | Some _ => [EvRunCommand shellCmd 1000]
    | None => []
    end.
Proof.
  cbv zeta. unfold setAndroidTimeZoneUsingDate.
  unfold bind at 1. cbn [get outcome final emitted app].
  destruct (host_tempfile host DateOutput) as [outputFilepath|]; [|reflexivity].
  unfold bind at 1. cbn [emit outcome final emitted app].
  match goal with
  | |- context [if ?b then _ else _] => destruct b; [|reflexivity]
  end.
  do 4 (rewrite bind_lift_run;
        match goal with
        | |- context [match ?x with Ok _ => _ | Abort _ => _ end] =>
            destruct x; [|reflexivity]
        end).
  reflexivity.
Qed.

(** When the zdump strategy returns failure and the date strategy returns
    0, the resolver succeeds and the rule it leaves has no daylight
    offset. *)
Lemma fixed_offset_fallback host tzname this :
  platform host <> Win32 ->
  let start := set_mAndroidTimeZoneInit 0 (set_mTimeZoneName tzname this) in
  let rz := setAndroidTimeZoneUsingZdump host start in
  outcome rz = Ok (-1) ->
  outcome (setAndroidTimeZoneUsingDate host (final rz)) = Ok 0 ->
  let r := androidTimeZoneSet host tzname this in
  outcome r = Ok 0 /\ mDaylightOffset (final r) = 0.
Proof.
  intros Hplat start rz Hz Hd r.
  pose proof (androidTimeZoneSet_run host tzname this) as H.
  cbv zeta in H. destruct H as (Hf & _ & Ho).
  pose proof (resolve_on_platform_order host tzname start Hplat) as H.
  cbv zeta in H. fold rz in H. rewrite Hz in H. cbn in H. rewrite Hd in H.
  cbn in H. destruct H as [_ Hfin].
  pose proof (setAndroidTimeZoneUsingDate_no_daylight host (final rz) Hd)
    as Hdl.
  assert (Hunix :
    outcome (resolve_on_platform host tzname start) = Ok tt).
  { unfold resolve_on_platform.
    assert (Hb : forall m : M TimeZone unit,
      match platform host with Win32 => m | _ =>
        (r1 <- setAndroidTimeZoneUsingZdump host ;;
         if negb (r1 =? 0) then
           r2 <- setAndroidTimeZoneUsingDate host ;;
           if negb (r2 =? 0) then ret tt
           else modify (set_mAndroidTimeZoneInit 1)
         else modify (set_mAndroidTimeZoneInit 1)) end
      = (r1 <- setAndroidTimeZoneUsingZdump host ;;
         if negb (r1 =? 0) then
           r2 <- setAndroidTimeZoneUsingDate host ;;
           if negb (r2 =? 0) then ret tt
           else modify (set_mAndroidTimeZoneInit 1)
         else modify (set_mAndroidTimeZoneInit 1))).
    { intros m. destruct (platform host); try reflexivity. contradiction. }
    rewrite Hb. unfold bind. fold rz. rewrite Hz. cbn. rewrite Hd. cbn.
    reflexivity. }
  subst r. rewrite Ho, Hf. fold start. rewrite Hunix, Hfin. cbn.
  split; [reflexivity | exact Hdl].
Qed.

(** C9.  The zdump strategy does not return failure on every output of an
    unexpected token shape: on four lines the second of which has "xx"
    where the day of the month is expected, [std::stoi] throws, nothing
    catches the exception, the date strategy never runs, and the month of
    the first boundary has already been overwritten. *)
Theorem zdump_unreadable_day_throws :
  let host := Samples.host_with_bad_zdump in
  let r := androidTimeZoneSet host "America/New_York" Samples.new_york_2024 in
  List.length (getlines Samples.zdump_bad_day) = 4%nat /\
  nth 3 (tokenize (nth 1 (getlines Samples.zdump_bad_day) "")) "" = "xx" /\
  outcome r = Abort Exception /\
  emitted r
  = [EvResolve "America/New_York" 2024;
     EvRunCommand
       ["/bin/bash"; "-c"; "zdump -v America/New_York | grep 2024"] 5000] /\
  mAndroidTimeZoneInit (final r) = 0.
Proof. vm_compute. repeat split. Qed.

(** The resolver on sample hosts: zdump alone when it succeeds, zdump then
    date when zdump fails, and a rule without daylight offset from date. *)
Example resolver_order_samples :
  emitted (androidTimeZoneSet Samples.host_with_zdump "America/New_York"
             Samples.new_york_2023)
  = [EvResolve "America/New_York" 2023;
     EvRunCommand
       ["/bin/bash"; "-c"; "zdump -v America/New_York | grep 2023"] 5000;
     EvRunCommand
       ["/bin/bash"; "-c"; "TZ=America/New_York date +%z"] 1000]
  /\
  emitted (androidTimeZoneSet Samples.host_with_zdump "America/New_York"
             Samples.new_york_2024)
  = [EvResolve "America/New_York" 2024;
     EvRunCommand
       ["/bin/bash"; "-c"; "zdump -v America/New_York | grep 2024"] 5000]
  /\
  (let r := androidTimeZoneSet Samples.host_with_date "America/New_York"
              Samples.new_york_2024 in
   outcome r = Ok 0 /\ mStandardOffset (final r) = -18000 /\
   mDaylightOffset (final r) = 0).
Proof. vm_compute. repeat split. Qed.

(** End-to-end scenario of the specification: New York resolved for 2024
    through [timezone_set], then asked in July and in January. *)
Example new_york_end_to_end :
  let r := timezone_set Samples.host_with_zdump (Some "America/New_York")
             Globals_start in
  outcome r = Ok 0 /\
  sAndroidTimeZone (final r) = Some Samples.new_york_2024 /\
  outcome (android_tzoffset_in_seconds Samples.host_with_zdump
             Samples.july_2024 (final r)) = Ok (-14400) /\
  outcome (android_tzoffset_in_seconds Samples.host_with_zdump
             Samples.january_2024 (final r)) = Ok (-18000).
Proof. vm_compute. repeat split. Qed.

(** The static table: the host name "Pacific Standard Time" gives
    "America/Los_Angeles", and back. *)
Example pacific_standard_time :
  find_zoneinfo_name _win32_timezones "Pacific Standard Time"
  = Some "America/Los_Angeles" /\
  find_win_name _win32_timezones "America/Los_Angeles"
  = Some "Pacific Standard Time" /\
  outcome (get_zoneinfo_timezone Samples.windows_host Globals_start)
  = Ok (Some "America/Los_Angeles").
Proof. vm_compute. repeat split. Qed.

(** * Further properties of the code *)

(** ** The C library's calendar: [gmtime] and [timegm] are inverse *)

Lemma is_leap_true (y : Z) :
  is_leap y = true <-> y mod 4 = 0 /\ (y mod 100 <> 0 \/ y mod 400 = 0).
Proof.
  unfold is_leap. rewrite andb_true_iff, orb_true_iff, negb_true_iff.
  rewrite !Z.eqb_eq, Z.eqb_neq. tauto.
Qed.

Lemma is_leap_false (y : Z) :
  is_leap y = false <-> y mod 4 <> 0 \/ (y mod 100 = 0 /\ y mod 400 <> 0).
Proof.
  unfold is_leap. rewrite andb_false_iff, orb_false_iff, negb_false_iff.
  rewrite !Z.eqb_eq, !Z.eqb_neq. tauto.
Qed.

(** One month of the year that starts in March: the month and the day that
    [civil_from_days] computes, when [mp] is known. *)
Ltac month_case Hm mp doy yoe :=
  rewrite Hm;
  match goal with
  | |- context [if ?a <? 10 then ?b else ?c] =>
      let v := eval compute in (if a <? 10 then b else c) in
      change (if a <? 10 then b else c) with v
  end;
  match goal with
  | |- context [?v <=? 2] =>
      let w := eval compute in (v <=? 2) in change (v <=? 2) with w
  end;
  match goal with
  | |- context [days_in_month _ (?v - 1)] =>
      let w := eval compute in (v - 1) in change (v - 1) with w
  end;
  unfold days_in_month, days_before_month; cbv beta iota zeta;
  match goal with
  | |- context [is_leap ?Y] =>
      let E := fresh "E" in
      destruct (is_leap Y) eqn:E;
      [ apply is_leap_true in E | apply is_leap_false in E ]
  | _ => idtac
  end;
  subst mp doy yoe; Z.div_mod_to_equations; lia.

(** The date that [civil_from_days] gives is a date of the calendar, and it
    is the date of the given day. *)
Lemma civil_from_days_correct (z : Z) :
  let '(y, m, d) := civil_from_days z in
  1 <= m <= 12 /\ 1 <= d <= days_in_month y (m - 1) /\
  days_before_year y + days_before_month y (m - 1) + (d - 1) = z.
Proof.
  unfold civil_from_days. cbv zeta.
  set (era := (z + 719468) / 146097).
  set (doe := z + 719468 - era * 146097).
  assert (Hdoe : 0 <= doe < 146097).
  { subst doe era. Z.div_mod_to_equations. lia. }
  set (yoe := (doe - doe / 1460 + doe / 36524 - doe / 146096) / 365).
  assert (Hyoe : 0 <= yoe <= 399 /\ 365 * yoe + yoe / 4 - yoe / 100 <= doe
                 /\ (doe < 365 * (yoe + 1) + (yoe + 1) / 4 - (yoe + 1) / 100
                     \/ yoe = 399)).
  { subst yoe. Z.div_mod_to_equations. lia. }
  set (doy := doe - (365 * yoe + yoe / 4 - yoe / 100)).
  assert (Hdoy : 0 <= doy <= 365).
  { subst doy. Z.div_mod_to_equations. lia. }
  set (mp := (5 * doy + 2) / 153).
  assert (Hmp : 0 <= mp <= 11).
  { subst mp. Z.div_mod_to_equations. lia. }
  assert (Hz : z = doe - 719468 + 146097 * era) by (subst doe; lia).
  assert (Hcases : mp = 0 \/ mp = 1 \/ mp = 2 \/ mp = 3 \/ mp = 4 \/ mp = 5
                   \/ mp = 6 \/ mp = 7 \/ mp = 8 \/ mp = 9 \/ mp = 10
                   \/ mp = 11)
    by lia.
  unfold days_before_year, leaps_through.
  change (1969 / 4 - 1969 / 100 + 1969 / 400) with 477.
  clearbody era doe.
  repeat (destruct Hcases as [Hm | Hcases]; [month_case Hm mp doy yoe |]).
  month_case Hcases mp doy yoe.
Qed.

Lemma gmtime_valid (t : Z) : valid_civil (gmtime t) = true.
Proof.
  unfold gmtime.
  pose proof (civil_from_days_correct (t / 86400)) as H.
  destruct (civil_from_days (t / 86400)) as [[y m] d].
  destruct H as (Hm & Hd & _).
  unfold valid_civil. cbn [tm_mon tm_mday tm_hour tm_min tm_sec tm_year].
  replace (y - 1900 + 1900) with y by lia.
  rewrite !andb_true_iff, !Z.leb_le.
  assert (0 <= t mod 86400 < 86400) by (apply Z.mod_pos_bound; lia).
  repeat split; try lia; Z.div_mod_to_equations; lia.
Qed.

Lemma timegm_gmtime (t : Z) : timegm (gmtime t) = t.
Proof.
  unfold gmtime.
  pose proof (civil_from_days_correct (t / 86400)) as H.
  destruct (civil_from_days (t / 86400)) as [[y m] d].
  destruct H as (_ & _ & Hday).
  unfold timegm, day_number, seconds_of_day.
  cbn [tm_mon tm_mday tm_hour tm_min tm_sec tm_year].
  replace (y - 1900 + 1900) with y by lia. rewrite Hday.
  Z.div_mod_to_equations. lia.
Qed.

(** ** Order and difference of civil instants *)

Lemma lex_compare_antisym (a b : list Z) :
  lex_compare a b = CompOpp (lex_compare b a).
Proof.
  revert b. induction a as [|x a IH]; intros [|y b]; cbn; try reflexivity.
  rewrite (Z.compare_antisym y x).
  destruct (y ?= x); cbn; auto.
Qed.

Lemma lex_compare_eq (a b : list Z) :
  lex_compare a b = Eq <-> a = b.
Proof.
  revert b. induction a as [|x a IH]; intros [|y b]; cbn;
    try (split; [discriminate | discriminate]); try tauto.
  destruct (x ?= y) eqn:E.
  - apply Z.compare_eq in E. subst y. rewrite IH. split.
    + intros ->. reflexivity.
    + intros H. injection H as H. exact H.
  - split; [discriminate|]. intros H. injection H as H _. subst y.
    rewrite Z.compare_refl in E. discriminate.
  - split; [discriminate|]. intros H. injection H as H _. subst y.
    rewrite Z.compare_refl in E. discriminate.
Qed.

(** Not after, then before: before. *)
Lemma lex_compare_le_lt (a b c : list Z) :
  lex_compare a b <> Gt -> lex_compare b c = Lt -> lex_compare a c = Lt.
Proof.
  revert b c. induction a as [|x a IH]; intros [|y b] [|z c]; cbn;
    intros Hab Hbc; try congruence; try discriminate.
  destruct (x ?= y) eqn:Exy; destruct (y ?= z) eqn:Eyz;
    try congruence; try discriminate.
  - apply Z.compare_eq in Exy, Eyz. subst. rewrite Z.compare_refl.
    eapply IH; eassumption.
  - apply Z.compare_eq in Exy. subst. rewrite Eyz. reflexivity.
  - apply Z.compare_eq in Eyz. subst. rewrite Exy. reflexivity.
  - assert (Hxz : (x ?= z) = Lt).
    { rewrite Z.compare_lt_iff in *. lia. }
    rewrite Hxz. reflexivity.
Qed.

(** X1.  [utcCompare] is antisymmetric, and it returns 0 exactly when the
    two instants have the same year, month, day, hour, minute and second;
    the other fields of [struct tm] play no part. *)
Theorem utcCompare_antisymmetric (a b : tm) :
  utcCompare a b = - utcCompare b a /\
  (utcCompare a b = 0 <-> civil_key a = civil_key b) /\
  (utcCompare a b = -1 \/ utcCompare a b = 0 \/ utcCompare a b = 1).
Proof.
  rewrite !utcCompare_lex.
  rewrite (lex_compare_antisym (civil_key b) (civil_key a)).
  pose proof (lex_compare_eq (civil_key a) (civil_key b)) as Heq.
  destruct (lex_compare (civil_key a) (civil_key b)); cbn.
  - split; [reflexivity|]. split; [|auto]. split; intros _;
      [apply Heq; reflexivity | reflexivity].
  - split; [reflexivity|]. split; [|auto]. split; [discriminate|].
    intros H. apply Heq in H. discriminate H.
  - split; [reflexivity|]. split; [|auto]. split; [discriminate|].
    intros H. apply Heq in H. discriminate H.
Qed.

(** On civil instants that exist, [utcCompare] is the sign of the
    difference of the two UTC timestamps. *)
Lemma utcCompare_timegm (a b : tm) :
  valid_civil a = true -> valid_civil b = true ->
  utcCompare a b = Z.sgn (timegm a - timegm b).
Proof.
  intros Ha Hb.
  pose proof (seconds_of_day_range _ Ha) as Hsa.
  pose proof (seconds_of_day_range _ Hb) as Hsb.
  pose proof (valid_civil_fields _ Ha) as Hfa.
  pose proof (valid_civil_fields _ Hb) as Hfb.
  assert (Hneg : forall x, x < 0 -> Z.sgn x = -1)
    by (intros x Hx; apply Z.sgn_neg; exact Hx).
  assert (Hpos : forall x, 0 < x -> Z.sgn x = 1)
    by (intros x Hx; apply Z.sgn_pos; exact Hx).
  unfold utcCompare, timegm.
  destruct (tm_year a >? tm_year b) eqn:E1.
  { apply Z.gtb_lt in E1. symmetry. apply Hpos.
    pose proof (day_number_later_month b a Hb Ha ltac:(lia)). lia. }
  destruct (tm_year a <? tm_year b) eqn:E2.
  { apply Z.ltb_lt in E2. symmetry. apply Hneg.
    pose proof (day_number_later_month a b Ha Hb ltac:(lia)). lia. }
  assert (Hy : tm_year a = tm_year b).
  { rewrite Z.gtb_ltb in E1. apply Z.ltb_ge in E1, E2. lia. }
  destruct (tm_mon a >? tm_mon b) eqn:E3.
  { apply Z.gtb_lt in E3. symmetry. apply Hpos.
    pose proof (day_number_later_month b a Hb Ha ltac:(lia)). lia. }
  destruct (tm_mon a <? tm_mon b) eqn:E4.
  { apply Z.ltb_lt in E4. symmetry. apply Hneg.
    pose proof (day_number_later_month a b Ha Hb ltac:(lia)). lia. }
  assert (Hm : tm_mon a = tm_mon b).
  { rewrite Z.gtb_ltb in E3. apply Z.ltb_ge in E3, E4. lia. }
  unfold day_number, seconds_of_day in *. rewrite Hy, Hm.
  repeat match goal with
  | |- context [?x >? ?y] =>
      let E := fresh "E" in
      destruct (x >? y) eqn:E;
      [ apply Z.gtb_lt in E; symmetry; apply Hpos; lia
      | rewrite Z.gtb_ltb in E; apply Z.ltb_ge in E ]
  | |- context [?x <? ?y] =>
      let E := fresh "E" in
      destruct (x <? y) eqn:E;
      [ apply Z.ltb_lt in E; symmetry; apply Hneg; lia
      | apply Z.ltb_ge in E ]
  end.
  replace (tm_mday a) with (tm_mday b) by lia.
  replace (tm_hour a) with (tm_hour b) by lia.
  replace (tm_min a) with (tm_min b) by lia.
  replace (tm_sec a) with (tm_sec b) by lia.
  rewrite Z.sub_diag. reflexivity.
Qed.

(** X2.  On civil instants that exist, [utcCompare] is the order of time:
    its result is the sign of the difference of the two UTC timestamps.  In
    particular, on the civil forms of two timestamps it is the sign of
    their difference. *)
Theorem utcCompare_chronological (a b : tm) :
  valid_civil a = true -> valid_civil b = true ->
  utcCompare a b = Z.sgn (timegm a - timegm b) /\
  utcCompare (gmtime (timegm a)) (gmtime (timegm b)) = utcCompare a b.
Proof.
  intros Ha Hb. split; [apply utcCompare_timegm; assumption|].
  rewrite !utcCompare_timegm by (try apply gmtime_valid; assumption).
  rewrite !timegm_gmtime. reflexivity.
Qed.

Lemma utcCompare_chronological_witness :
  utcCompare (gmtime Samples.july_2024) (gmtime Samples.dst_start_2024)
  = Z.sgn (timegm (gmtime Samples.july_2024)
           - timegm (gmtime Samples.dst_start_2024)).
Proof.
  destruct (utcCompare_chronological (gmtime Samples.july_2024)
              (gmtime Samples.dst_start_2024)) as [H _];
    [reflexivity | reflexivity | exact H].
Defined.


(** [diffTime] on two instants of the calendar: the true difference unless
    the instants are in different months and not on adjacent days. *)
Lemma diffTime_days (end_ beginning : tm) :
  valid_civil end_ = true ->
  valid_civil beginning = true ->
  diffTime end_ beginning - (timegm end_ - timegm beginning)
  = if (tm_year end_ =? tm_year beginning)
       && (tm_mon end_ =? tm_mon beginning)
    then 0
    else 86400 * (Z.sgn (day_number end_ - day_number beginning)
                  - (day_number end_ - day_number beginning)).
Proof.
  intros He Hb.
  unfold timegm, diffTime, kSecondsPerDay.
  fold (seconds_of_day end_). fold (seconds_of_day beginning).
  rewrite !int_of_seconds_of_day, !int_of_mday by assumption.
  destruct (tm_year end_ >? tm_year beginning) eqn:Ey1.
  { apply Z.gtb_lt in Ey1.
    pose proof (day_number_later_month beginning end_ Hb He ltac:(lia)).
    replace (tm_year end_ =? tm_year beginning) with false
      by (symmetry; apply Z.eqb_neq; lia).
    cbn [andb]. rewrite Z.sgn_pos by lia. lia. }
  destruct (tm_year end_ <? tm_year beginning) eqn:Ey2.
  { apply Z.ltb_lt in Ey2.
    pose proof (day_number_later_month end_ beginning He Hb ltac:(lia)).
    replace (tm_year end_ =? tm_year beginning) with false
      by (symmetry; apply Z.eqb_neq; lia).
    cbn [andb]. rewrite Z.sgn_neg by lia. lia. }
  assert (Hy : tm_year end_ = tm_year beginning).
  { rewrite Z.gtb_ltb in Ey1. apply Z.ltb_ge in Ey1, Ey2. lia. }
  rewrite Hy, Z.eqb_refl. cbn [andb].
  destruct (tm_mon end_ >? tm_mon beginning) eqn:Em1.
  { apply Z.gtb_lt in Em1.
    pose proof (day_number_later_month beginning end_ Hb He ltac:(lia)).
    replace (tm_mon end_ =? tm_mon beginning) with false
      by (symmetry; apply Z.eqb_neq; lia).
    rewrite Z.sgn_pos by lia. lia. }
  destruct (tm_mon end_ <? tm_mon beginning) eqn:Em2.
  { apply Z.ltb_lt in Em2.
    pose proof (day_number_later_month end_ beginning He Hb ltac:(lia)).
    replace (tm_mon end_ =? tm_mon beginning) with false
      by (symmetry; apply Z.eqb_neq; lia).
    rewrite Z.sgn_neg by lia. lia. }
  assert (Hm : tm_mon end_ = tm_mon beginning).
  { rewrite Z.gtb_ltb in Em1. apply Z.ltb_ge in Em1, Em2. lia. }
  rewrite Hm, Z.eqb_refl. unfold day_number. rewrite Hy, Hm. lia.
Qed.

(** X4.  For two instants of the calendar, [diffTime] is their true
    difference in seconds exactly when they are in the same month of the
    same year or on the same or adjacent days; across a month boundary it is
    off by whole days as soon as the days are two or more apart. *)
Theorem diffTime_exact_iff (end_ beginning : tm) :
  valid_civil end_ = true ->
  valid_civil beginning = true ->
  (diffTime end_ beginning = timegm end_ - timegm beginning <->
   (tm_year end_ = tm_year beginning /\ tm_mon end_ = tm_mon beginning)
   \/ Z.abs (day_number end_ - day_number beginning) <= 1).
Proof.
  intros He Hb. pose proof (diffTime_days end_ beginning He Hb) as H.
  destruct ((tm_year end_ =? tm_year beginning)
            && (tm_mon end_ =? tm_mon beginning)) eqn:E.
  - apply andb_prop in E as [Ey Em]. apply Z.eqb_eq in Ey.
    apply Z.eqb_eq in Em. split; [auto | lia].
  - assert (Hne : ~ (tm_year end_ = tm_year beginning
                     /\ tm_mon end_ = tm_mon beginning)).
    { intros [Hy Hm]. rewrite Hy, Hm, !Z.eqb_refl in E. discriminate E. }
    destruct (Z.sgn_spec (day_number end_ - day_number beginning))
      as [[Hs Hsgn] | [[Hs Hsgn] | [Hs Hsgn]]]; rewrite Hsgn in H;
      split; intros; try lia; try (right; lia).
Qed.

Lemma diffTime_exact_iff_witness :
  diffTime (mk_tm 0 0 12 2 0 124 0 0 0) (mk_tm 0 0 0 1 0 124 0 0 0)
  = timegm (mk_tm 0 0 12 2 0 124 0 0 0) - timegm (mk_tm 0 0 0 1 0 124 0 0 0)
  /\
  diffTime (mk_tm 0 0 0 2 1 124 0 0 0) (mk_tm 0 0 0 30 0 124 0 0 0)
  <> timegm (mk_tm 0 0 0 2 1 124 0 0 0) - timegm (mk_tm 0 0 0 30 0 124 0 0 0).
Proof.
  split.
  - apply (proj2 (diffTime_exact_iff (mk_tm 0 0 12 2 0 124 0 0 0)
                    (mk_tm 0 0 0 1 0 124 0 0 0) eq_refl eq_refl)).
    left. split; reflexivity.
  - intros H.
    apply (proj1 (diffTime_exact_iff (mk_tm 0 0 0 2 1 124 0 0 0)
                    (mk_tm 0 0 0 30 0 124 0 0 0) eq_refl eq_refl)) in H.
    destruct H as [[_ H] | H]; [discriminate H|].
    vm_compute in H. apply H. reflexivity.
Defined.

(** X5.  When the second boundary of the rule is not after the first, the
    window is empty: the engine never reports daylight time and every
    answer is the standard offset. *)
Theorem inverted_window_never_daylight (this : TimeZone) (timeNow : Z) :
  civil_le (mDaylightDateUtc this) (mStandardDateUtc this) ->
  getIsDaylightSavingTime this timeNow <= 0 /\
  getTimeZoneDiff this timeNow = mStandardOffset this.
Proof.
  intros Hinv.
  assert (Hno : ~ in_daylight_window this (gmtime timeNow)).
  { intros [Hle Hlt]. unfold civil_le, civil_lt in *.
    pose proof (lex_compare_le_lt _ _ _ Hle Hlt) as H.
    rewrite (lex_compare_antisym (civil_key (mDaylightDateUtc this))) in Hinv.
    rewrite H in Hinv. apply Hinv. reflexivity. }
  destruct (Z.eq_dec (mDaylightOffset this) 0) as [Hdl | Hdl].
  - split; [|apply getTimeZoneDiff_no_daylight; exact Hdl].
    unfold getIsDaylightSavingTime. rewrite Hdl. cbn. lia.
  - destruct (getIsDaylightSavingTime_window this timeNow Hdl) as [_ H0].
    destruct (getTimeZoneDiff_window this timeNow Hdl) as [_ H1].
    rewrite (H0 Hno), (H1 Hno). split; [lia | reflexivity].
Qed.

Lemma inverted_window_never_daylight_witness :
  getIsDaylightSavingTime
    (set_mStandardDateUtc (mDaylightDateUtc Samples.new_york_2024)
       (set_mDaylightDateUtc (mStandardDateUtc Samples.new_york_2024)
          Samples.new_york_2024)) Samples.july_2024 <= 0 /\
  getTimeZoneDiff
    (set_mStandardDateUtc (mDaylightDateUtc Samples.new_york_2024)
       (set_mDaylightDateUtc (mStandardDateUtc Samples.new_york_2024)
          Samples.new_york_2024)) Samples.july_2024 = -18000.
Proof.
  apply (inverted_window_never_daylight
           (set_mStandardDateUtc (mDaylightDateUtc Samples.new_york_2024)
              (set_mDaylightDateUtc (mStandardDateUtc Samples.new_york_2024)
                 Samples.new_york_2024)) Samples.july_2024).
  vm_compute. discriminate.
Defined.

(** ** Local time and offset agree *)

Lemma diffTime_key (a a' b b' : tm) :
  civil_key a = civil_key a' -> civil_key b = civil_key b' ->
  diffTime a b = diffTime a' b'.
Proof.
  unfold civil_key, diffTime. intros Ha Hb.
  injection Ha as -> -> -> -> -> ->. injection Hb as -> -> -> -> -> ->.
  reflexivity.
Qed.

Lemma day_number_gmtime (t : Z) : day_number (gmtime t) = t / 86400.
Proof.
  pose proof (timegm_gmtime t) as H. unfold timegm in H.
  pose proof (seconds_of_day_range _ (gmtime_valid t)).
  Z.div_mod_to_equations. lia.
Qed.

(** [diffTime] on the civil forms of two timestamps less than a day
    apart. *)
Lemma diffTime_gmtime (x y : Z) :
  Z.abs (x - y) < 86400 -> diffTime (gmtime x) (gmtime y) = x - y.
Proof.
  intros Habs.
  pose proof (diffTime_days (gmtime x) (gmtime y) (gmtime_valid x)
                (gmtime_valid y)) as H.
  rewrite !timegm_gmtime, !day_number_gmtime in H.
  assert (Hd : -1 <= x / 86400 - y / 86400 <= 1)
    by (Z.div_mod_to_equations; lia).
  destruct ((tm_year (gmtime x) =? tm_year (gmtime y))
            && (tm_mon (gmtime x) =? tm_mon (gmtime y))); [lia|].
  destruct (Z.sgn_spec (x / 86400 - y / 86400))
    as [[Hs Hsgn] | [[Hs Hsgn] | [Hs Hsgn]]]; rewrite Hsgn in H; lia.
Qed.

(** X6.  On an unresolved engine the query answers with the host's own
    offset: when the host's [localtime] shows the civil time of UTC plus
    [off] seconds, with [off] less than a day in magnitude, the answer is
    exactly [off]; the engine is left as it was and nothing is run. *)
Theorem fallback_recovers_host_offset (host : Host) (this : TimeZone)
    (timeNow off : Z) (local : tm) :
  mAndroidTimeZoneInit this = 0 ->
  host_localtime host timeNow = Some local ->
  civil_key local = civil_key (gmtime (timeNow + off)) ->
  Z.abs off < 86400 ->
  androidTimeZoneOffset host timeNow this = mkRun (Ok off) this [].
Proof.
  intros Hinit Hlocal Hkey Hoff.
  rewrite (androidTimeZoneOffset_fallback host this timeNow Hinit), Hlocal.
  rewrite (diffTime_key local (gmtime (timeNow + off)) (gmtime timeNow)
             (gmtime timeNow) Hkey eq_refl).
  rewrite diffTime_gmtime by (replace (timeNow + off - timeNow) with off
                                by lia; exact Hoff).
  f_equal. f_equal. lia.
Qed.

Lemma fallback_recovers_host_offset_witness :
  androidTimeZoneOffset Samples.host_without_tools Samples.january_2024
    (TimeZone_new Samples.host_without_tools)
  = mkRun (Ok 3600) (TimeZone_new Samples.host_without_tools) [].
Proof.
  apply (fallback_recovers_host_offset Samples.host_without_tools
           (TimeZone_new Samples.host_without_tools) Samples.january_2024
           3600 (gmtime (Samples.january_2024 + 3600))).
  - reflexivity.
  - reflexivity.
  - reflexivity.
  - reflexivity.
Defined.

Lemma timegm_set_tm_isdst (v : Z) (t : tm) :
  timegm (set_tm_isdst v t) = timegm t /\
  valid_civil (set_tm_isdst v t) = valid_civil t.
Proof. split; reflexivity. Qed.

Lemma androidLocaltime_same_year host this timeNow :
  mAndroidTimeZoneInit this <> 0 ->
  tm_year (gmtime timeNow) + 1900 = mCurrentYear this ->
  androidLocaltime host timeNow this
  = mkRun (Ok (Some (set_tm_isdst (getIsDaylightSavingTime this timeNow)
                       (gmtime (timeNow + getTimeZoneDiff this timeNow)))))
          this [].
Proof.
  intros Hinit Hyear. apply Z.eqb_neq in Hinit.
  unfold androidLocaltime, bind.
  remember (gmtime timeNow) as utc. cbn. rewrite Hinit. cbn.
  rewrite Hyear, Z.eqb_refl. reflexivity.
Qed.

(** On an unresolved engine the pointer of the host's [localtime] is
    returned as it is, null included. *)
Lemma androidLocaltime_fallback host this timeNow :
  mAndroidTimeZoneInit this = 0 ->
  androidLocaltime host timeNow this
  = mkRun (Ok (host_localtime host timeNow)) this [].
Proof.
  intros Hinit. unfold androidLocaltime, bind.
  remember (gmtime timeNow) as utc. cbn. rewrite Hinit.
  reflexivity.
Qed.

Lemma androidLocaltime_rollover host this timeNow :
  mAndroidTimeZoneInit this <> 0 ->
  tm_year (gmtime timeNow) + 1900 <> mCurrentYear this ->
  let year := tm_year (gmtime timeNow) + 1900 in
  let rs := androidTimeZoneSet host (mTimeZoneName this)
              (set_mCurrentYear year this) in
  let r := androidLocaltime host timeNow this in
  final r = final rs /\
  emitted r = emitted rs /\
  outcome r =
    match outcome rs with
    | Ok _ =>
        Ok (Some (set_tm_isdst (getIsDaylightSavingTime (final rs) timeNow)
                    (gmtime (timeNow + getTimeZoneDiff (final rs) timeNow))))
    | Abort f => Abort f
    end.
Proof.
  intros Hinit Hyear. apply Z.eqb_neq in Hinit, Hyear.
  unfold androidLocaltime, bind.
  remember (gmtime timeNow) as utc. cbn. rewrite Hinit. cbn.
  rewrite Hyear. cbn.
  destruct (outcome (androidTimeZoneSet host (mTimeZoneName this) _)); cbn;
    rewrite ?app_nil_r; auto.
Qed.

(** X7.  [androidLocaltime] and [androidTimeZoneOffset] go together: for the
    same instant they leave the engine in the same state after the same
    events, and on a resolved engine the civil time that the first returns
    is the UTC civil time of the instant plus the offset that the second
    returns, flagged with the daylight status of the rule.  On an unresolved
    engine [androidLocaltime] returns the pointer of the host's [localtime]
    as it is, null included. *)
Theorem localtime_matches_offset (host : Host) (this : TimeZone)
    (timeNow : Z) :
  let rl := androidLocaltime host timeNow this in
  let ro := androidTimeZoneOffset host timeNow this in
  final rl = final ro /\
  emitted rl = emitted ro /\
  (mAndroidTimeZoneInit this <> 0 ->
   forall off, outcome ro = Ok off ->
     exists local,
       outcome rl = Ok (Some local) /\
       valid_civil local = true /\
       timegm local = timeNow + off /\
       tm_isdst local = getIsDaylightSavingTime (final ro) timeNow) /\
  (mAndroidTimeZoneInit this = 0 ->
   outcome rl = Ok (host_localtime host timeNow)).
Proof.
  cbv zeta.
  assert (Hlocal : forall z : TimeZone,
    exists local,
      Ok (Some (set_tm_isdst (getIsDaylightSavingTime z timeNow)
                  (gmtime (timeNow + getTimeZoneDiff z timeNow))))
      = @Ok (option tm) (Some local) /\
      valid_civil local = true /\
      timegm local = timeNow + getTimeZoneDiff z timeNow /\
      tm_isdst local = getIsDaylightSavingTime z timeNow).
  { intros z. eexists. split; [reflexivity|].
    rewrite (proj1 (timegm_set_tm_isdst _ _)).
    rewrite (proj2 (timegm_set_tm_isdst _ _)).
    rewrite gmtime_valid, timegm_gmtime. auto. }
  destruct (Z.eq_dec (mAndroidTimeZoneInit this) 0) as [Hinit | Hinit].
  - rewrite (androidLocaltime_fallback host this timeNow Hinit).
    rewrite (androidTimeZoneOffset_fallback host this timeNow Hinit).
    destruct (host_localtime host timeNow);
      (split; [reflexivity|]; split; [reflexivity|]);
      (split; [intros H; contradiction | intros _; reflexivity]).
  - destruct (Z.eq_dec (tm_year (gmtime timeNow) + 1900) (mCurrentYear this))
      as [Hyear | Hyear].
    + rewrite (androidLocaltime_same_year host this timeNow Hinit Hyear).
      rewrite (androidTimeZoneOffset_same_year host this timeNow Hinit Hyear).
      cbn [outcome final emitted].
      split; [reflexivity|]. split; [reflexivity|].
      split; [|intros H; contradiction].
      intros _ off Hoff. injection Hoff as <-. apply Hlocal.
    + pose proof (androidLocaltime_rollover host this timeNow Hinit Hyear)
        as Hl.
      pose proof (androidTimeZoneOffset_rollover host this timeNow Hinit
                    Hyear) as Ho.
      cbv zeta in Hl, Ho.
      destruct Hl as (Hlf & Hle & Hlo). destruct Ho as (Hof & Hoe & Hoo).
      revert Hlf Hle Hlo Hof Hoe Hoo.
      generalize (androidTimeZoneSet host (mTimeZoneName this)
                    (set_mCurrentYear (tm_year (gmtime timeNow) + 1900)
                       this)).
      generalize (androidLocaltime host timeNow this).
      generalize (androidTimeZoneOffset host timeNow this).
      intros ro rl rs Hlf Hle Hlo Hof Hoe Hoo.
      split; [congruence|]. split; [congruence|].
      split; [|intros H; contradiction].
      intros _ off Hoff. rewrite Hoo in Hoff. rewrite Hlo, Hof.
      destruct (outcome rs); [|discriminate Hoff].
      injection Hoff as <-. apply Hlocal.
Qed.

Lemma localtime_matches_offset_witness :
  outcome (androidLocaltime Samples.host_without_tools Samples.july_2024
             Samples.new_york_2024)
  = Ok (Some (mk_tm 0 0 20 30 5 124 0 181 1)) /\
  timegm (mk_tm 0 0 20 30 5 124 0 181 1) = Samples.july_2024 + -14400.
Proof.
  destruct (proj1 (proj2 (proj2 (localtime_matches_offset
                                   Samples.host_without_tools
                                   Samples.new_york_2024
                                   Samples.july_2024))))
    with (off := -14400) as (local & Hl & _ & Ht & _).
  - vm_compute. discriminate.
  - vm_compute. reflexivity.
  - assert (Hv : outcome (androidLocaltime Samples.host_without_tools
                            Samples.july_2024 Samples.new_york_2024)
                 = Ok (Some (mk_tm 0 0 20 30 5 124 0 181 1)))
      by (vm_compute; reflexivity).
    split; [exact Hv|].
    rewrite Hv in Hl. injection Hl as <-. exact Ht.
Defined.

(** ** The resolver's contract *)

(** X8.  Whatever the host answers, [androidTimeZoneSet] stores the name it
    was given and keeps the engine's year; when it returns, the result is 0
    and the engine is resolved, or the result is -1, the engine is
    unresolved and the two offsets of the rule are the ones it held
    before. *)
Theorem androidTimeZoneSet_contract (host : Host) (tzname : string)
    (this : TimeZone) :
  let r := androidTimeZoneSet host tzname this in
  mTimeZoneName (final r) = tzname /\
  mCurrentYear (final r) = mCurrentYear this /\
  forall v, outcome r = Ok v ->
    (v = 0 /\ mAndroidTimeZoneInit (final r) <> 0) \/
    (v = -1 /\ mAndroidTimeZoneInit (final r) = 0 /\
     mStandardOffset (final r) = mStandardOffset this /\
     mDaylightOffset (final r) = mDaylightOffset this).
Proof.
  cbv zeta.
  pose proof (androidTimeZoneSet_subject host tzname this) as H.
  cbv zeta in H. destruct H as (Hy & Hn & _).
  split; [exact Hn|]. split; [exact Hy|].
  intros v Hv.
  destruct (androidTimeZoneSet_result host tzname this v Hv)
    as [[-> H1] | [-> H0]]; [left; auto|].
  right.
  destruct (androidTimeZoneSet_failure_offsets host tzname this Hv)
    as (_ & Hstd & Hdl).
  auto.
Qed.

(** X9.  The zdump strategy returns failure and leaves the engine exactly
    as it was when no temporary file can be made, when the command did not
    run or exited with a code other than 0, and when it did not print
    exactly four lines. *)
Theorem zdump_fails_cleanly (host : Host) (this : TimeZone) :
  (host_tempfile host ZdumpOutput = None \/
   exists outputFilepath,
     host_tempfile host ZdumpOutput = Some outputFilepath /\
     let run :=
       host_runCommand host
         ["/bin/bash"; "-c";
          "zdump -v " ++ mTimeZoneName this ++ " | grep "
            ++ format_d (mCurrentYear this)] 5000 outputFilepath in
     commandRan run = false \/ exitCode run <> 0
     \/ List.length (getlines (captured run)) <> 4%nat) ->
  let r := setAndroidTimeZoneUsingZdump host this in
  outcome r = Ok (-1) /\ final r = this.
Proof.
  intros [Htmp | (outputFilepath & Htmp & Hbad)]; cbv zeta.
  - rewrite (setAndroidTimeZoneUsingZdump_no_tempfile host this Htmp).
    auto.
  - rewrite (setAndroidTimeZoneUsingZdump_no_output host this outputFilepath
               Htmp Hbad).
    auto.
Qed.

Lemma zdump_fails_cleanly_witness :
  let r := setAndroidTimeZoneUsingZdump Samples.host_with_date
             Samples.new_york_2024 in
  outcome r = Ok (-1) /\ final r = Samples.new_york_2024.
Proof.
  apply (zdump_fails_cleanly Samples.host_with_date Samples.new_york_2024).
  right. exists "/tmp/android-tz". split; [reflexivity|].
  left. reflexivity.
Defined.

Lemma silent_no_events {S A} (m : M S A) (s : S) :
  silent m -> emitted (m s) = [].
Proof.
  intros H. destruct (H s) as [_ Hq].
  destruct (emitted (m s)) as [|e evs]; [reflexivity|].
  inversion Hq as [|? ? He _]. contradiction.
Qed.

Ltac silent_step :=
  first
    [ apply parseZdumpDate_silent
    | keeps_step
    | apply keeps_modify; solve [frame_side]
    | apply keeps_with_local; [solve [frame_side] .. |]
    | eapply keeps_zoom; [| intros ? ? _; exact Logic.I] ].

Lemma zdump_rule_silent i rule : silent (zdump_rule i rule).
Proof.
  unfold silent, zdump_rule. repeat silent_step.
Qed.

(** The events of the zdump strategy: at most the one command. *)
Lemma setAndroidTimeZoneUsingZdump_events host this :
  emitted (setAndroidTimeZoneUsingZdump host this)
  = match host_tempfile host ZdumpOutput with
    | Some _ =>
        [EvRunCommand
           ["/bin/bash"; "-c";
            "zdump -v " ++ mTimeZoneName this ++ " | grep "
              ++ format_d (mCurrentYear this)] 5000]
    | None => []
    end.
Proof.
  unfold setAndroidTimeZoneUsingZdump.
  unfold bind at 1. cbn [get outcome final emitted app].
  destruct (host_tempfile host ZdumpOutput) as [outputFilepath|]; [|reflexivity].
  unfold bind at 1. cbn [emit outcome final emitted app].
  f_equal.
  match goal with
  | |- emitted (?m this) = [] => apply (silent_no_events m this)
  end.
  unfold silent.
  repeat first [ apply zdump_rule_silent | silent_step ].
Qed.

(** X10.  On a Unix host the resolver asks for a temporary file and runs
    the zdump command first; it asks for a second file and runs the date
    command only after the zdump strategy has returned failure.  Each
    command is run exactly when its own file could be made, at most once,
    and no other command is run; the two requests for a file are answered
    separately, so the date command can run although no file could be made
    for zdump. *)
Theorem resolver_runs_zdump_then_date (host : Host) (tzname : string)
    (this : TimeZone) :
  platform host <> Win32 ->
  let zdumpCmd :=
    EvRunCommand
      ["/bin/bash"; "-c";
       "zdump -v " ++ tzname ++ " | grep " ++ format_d (mCurrentYear this)]
      5000 in
  let dateCmd :=
    EvRunCommand ["/bin/bash"; "-c"; "TZ=" ++ tzname ++ " date +%z"] 1000 in
  let zdumpEvents :=
    match host_tempfile host ZdumpOutput with
    | Some _ => [zdumpCmd]
    | None => []
    end in
  let dateEvents :=
    match host_tempfile host DateOutput with
    | Some _ => [dateCmd]
    | None => []
    end in
  let start := set_mAndroidTimeZoneInit 0 (set_mTimeZoneName tzname this) in
  let rz := setAndroidTimeZoneUsingZdump host start in
  let r := androidTimeZoneSet host tzname this in
  emitted r
  = (EvResolve tzname (mCurrentYear this) :: zdumpEvents
     ++ match outcome rz with
        | Ok v => if v =? 0 then [] else dateEvents
        | Abort _ => []
        end)%list.
Proof.
  intros Hplat. cbv zeta.
  pose proof (androidTimeZoneSet_run host tzname this) as H.
  cbv zeta in H. destruct H as (_ & He & _). rewrite He. clear He.
  pose proof (resolve_on_platform_order host tzname
                (set_mAndroidTimeZoneInit 0 (set_mTimeZoneName tzname this))
                Hplat) as H.
  cbv zeta in H.
  pose proof (setAndroidTimeZoneUsingZdump_events host
                (set_mAndroidTimeZoneInit 0 (set_mTimeZoneName tzname this)))
    as Hz.
  pose proof (setAndroidTimeZoneUsingDate_events host
                (final (setAndroidTimeZoneUsingZdump host
                   (set_mAndroidTimeZoneInit 0
                      (set_mTimeZoneName tzname this))))) as Hd.
  cbv zeta in Hd.
  destruct (setAndroidTimeZoneUsingZdump_subject host
              (set_mAndroidTimeZoneInit 0 (set_mTimeZoneName tzname this)))
    as [[_ Hname] _].
  rewrite Hname in Hd. cbn [mTimeZoneName set_mAndroidTimeZoneInit
                             set_mTimeZoneName mCurrentYear] in Hz, Hd.
  revert H Hz Hd.
  generalize (setAndroidTimeZoneUsingZdump host
                (set_mAndroidTimeZoneInit 0 (set_mTimeZoneName tzname this))).
  intros rz.
  generalize (setAndroidTimeZoneUsingDate host (final rz)). intros rd.
  generalize (resolve_on_platform host tzname
                (set_mAndroidTimeZoneInit 0 (set_mTimeZoneName tzname this))).
  intros rb H Hz Hd.
  f_equal. rewrite <- Hz.
  destruct (outcome rz) as [v|f].
  - destruct (v =? 0).
    + destruct H as [H _]. rewrite H, app_nil_r. reflexivity.
    + destruct H as [H _]. rewrite H, Hd. reflexivity.
  - destruct H as (H & _ & _). rewrite H, app_nil_r. reflexivity.
Qed.

(** A host on which no file can be made for zdump while one can be made for
    date: the date command is the only one that runs. *)
Lemma resolver_runs_zdump_then_date_witness :
  emitted (androidTimeZoneSet MoreSamples.host_with_date_file_only
             "America/New_York" Samples.new_york_2024)
  = [EvResolve "America/New_York" 2024;
     EvRunCommand
       ["/bin/bash"; "-c"; "TZ=America/New_York date +%z"] 1000] /\
  emitted (androidTimeZoneSet Samples.host_with_date "America/New_York"
             Samples.new_york_2024)
  = [EvResolve "America/New_York" 2024;
     EvRunCommand
       ["/bin/bash"; "-c"; "zdump -v America/New_York | grep 2024"] 5000;
     EvRunCommand
       ["/bin/bash"; "-c"; "TZ=America/New_York date +%z"] 1000].
Proof.
  split.
  - pose proof (resolver_runs_zdump_then_date
                  MoreSamples.host_with_date_file_only
                  "America/New_York" Samples.new_york_2024) as H.
    cbv zeta in H.
    assert (Hplat : platform MoreSamples.host_with_date_file_only <> Win32)
      by (vm_compute; discriminate).
    specialize (H Hplat).
    exact H.
  - pose proof (resolver_runs_zdump_then_date Samples.host_with_date
                  "America/New_York" Samples.new_york_2024) as H.
    cbv zeta in H.
    assert (Hplat : platform Samples.host_with_date <> Win32)
      by (vm_compute; discriminate).
    specialize (H Hplat).
    exact H.
Defined.

Lemma androidTimeZoneSet_contract_witness :
  let r := androidTimeZoneSet Samples.host_without_tools "Europe/Paris"
             Samples.new_york_2024 in
  outcome r = Ok (-1) /\ mTimeZoneName (final r) = "Europe/Paris" /\
  mStandardOffset (final r) = -18000 /\ mDaylightOffset (final r) = 3600.
Proof.
  cbv zeta.
  assert (Hv : outcome (androidTimeZoneSet Samples.host_without_tools
                          "Europe/Paris" Samples.new_york_2024) = Ok (-1))
    by (vm_compute; reflexivity).
  destruct (androidTimeZoneSet_contract Samples.host_without_tools
              "Europe/Paris" Samples.new_york_2024) as (Hn & _ & Hres).
  destruct (Hres (-1) Hv) as [[H _] | (_ & _ & Hstd & Hdl)];
    [discriminate H|].
  auto.
Defined.

(** ** The date strategy *)

Lemma stoi_two_digits (a b : nat) :
  (a < 10)%nat -> (b < 10)%nat ->
  stoi (two_digits a b) = Ok (Z.of_nat (10 * a + b)).
Proof.
  intros Ha Hb.
  do 10 (destruct a as [|a]; [
    do 10 (destruct b as [|b]; [reflexivity|]); exfalso; lia |]).
  exfalso. lia.
Qed.

Lemma run_eta {S A} (r : Run S A) :
  mkRun (outcome r) (final r) (emitted r) = r.
Proof. destruct r; reflexivity. Qed.

Lemma bind_get_run {S B} (k : S -> M S B) (s : S) : bind get k s = k s s.
Proof. unfold bind, get. cbn. apply run_eta. Qed.

Lemma bind_ret_run {S A B} (a : A) (k : A -> M S B) (s : S) :
  bind (ret a) k s = k a s.
Proof. unfold bind, ret. cbn. apply run_eta. Qed.

Lemma bind_modify_run {S B} (f : S -> S) (k : unit -> M S B) (s : S) :
  bind (modify f) k s = k tt (f s).
Proof. unfold bind, modify. cbn. apply run_eta. Qed.

Lemma bind_emit_run {S B} (e : Event) (k : unit -> M S B) (s : S) :
  bind (emit e) k s
  = mkRun (outcome (k tt s)) (final (k tt s)) (e :: emitted (k tt s)).
Proof. reflexivity. Qed.

Lemma split_on_app (c : ascii) (s rest : string) :
  strchr s c = None ->
  split_on c (s ++ String c rest) = s :: split_on c rest.
Proof.
  induction s as [|a s IH]; cbn.
  - intros _. rewrite Ascii.eqb_refl. reflexivity.
  - destruct (Ascii.eqb a c); [discriminate|]. intros H.
    rewrite (IH H). reflexivity.
Qed.

Lemma digit_char_not_newline (n : nat) :
  (n < 10)%nat -> Ascii.eqb (digit_char n) newline = false.
Proof.
  intros H. do 10 (destruct n as [|n]; [reflexivity|]). exfalso. lia.
Qed.

(** X11.  When the date command runs, exits with 0 and prints a line made
    of a sign character, two digits of hours and two digits of minutes, the
    date strategy returns 0, sets the daylight offset to 0 and the standard
    offset to the printed hours and minutes in seconds, positive when the
    sign character is ['+'] and negative for every other character. *)
Theorem date_strategy_reads_offset (host : Host) (this : TimeZone)
    (outputFilepath : string) (sign : ascii) (h1 h2 m1 m2 : nat)
    (rest : string) :
  host_tempfile host DateOutput = Some outputFilepath ->
  let shellCmd :=
    ["/bin/bash"; "-c"; "TZ=" ++ mTimeZoneName this ++ " date +%z"] in
  let run := host_runCommand host shellCmd 1000 outputFilepath in
  commandRan run = true -> exitCode run = 0 ->
  captured run
  = String sign (two_digits h1 h2 ++ two_digits m1 m2)
      ++ String newline rest ->
  sign <> newline ->
  (h1 < 10)%nat -> (h2 < 10)%nat -> (m1 < 10)%nat -> (m2 < 10)%nat ->
  let seconds :=
    Z.of_nat (10 * h1 + h2) * 3600 + Z.of_nat (10 * m1 + m2) * 60 in
  setAndroidTimeZoneUsingDate host this
  = mkRun (Ok 0)
      (set_mDaylightOffset 0
         (set_mStandardOffset
            (if Ascii.eqb sign "+" then seconds else - seconds) this))
      [EvRunCommand shellCmd 1000].
Proof.
  cbv zeta. intros Htmp Hran Hexit Hcap Hsign Hh1 Hh2 Hm1 Hm2.
  unfold setAndroidTimeZoneUsingDate.
  rewrite bind_get_run, Htmp, bind_emit_run.
  rewrite Hran, Hexit. cbn [andb Z.eqb].
  assert (Hline : getline_first
                    (String sign (two_digits h1 h2 ++ two_digits m1 m2)
                     ++ String newline rest)
                  = String sign (two_digits h1 h2 ++ two_digits m1 m2)).
  { unfold getline_first. rewrite split_on_app; [reflexivity|].
    unfold two_digits. cbn [append strchr].
    apply Ascii.eqb_neq in Hsign. rewrite Hsign.
    rewrite !digit_char_not_newline by assumption. reflexivity. }
  rewrite Hcap, Hline.
  assert (Hhh : substr 1 2 (String sign (two_digits h1 h2 ++ two_digits m1 m2))
                = Ok (two_digits h1 h2)) by reflexivity.
  assert (Hmm : substr 3 2 (String sign (two_digits h1 h2 ++ two_digits m1 m2))
                = Ok (two_digits m1 m2)) by reflexivity.
  rewrite bind_lift_run, Hhh. rewrite bind_lift_run, (stoi_two_digits h1 h2)
    by assumption.
  rewrite bind_lift_run, Hmm. rewrite bind_lift_run, (stoi_two_digits m1 m2)
    by assumption.
  rewrite !bind_modify_run. cbn [ret outcome final emitted front_char].
  f_equal. f_equal. unfold set_mStandardOffset. f_equal.
  destruct (Ascii.eqb sign "+"); lia.
Qed.

Lemma date_strategy_reads_offset_witness :
  setAndroidTimeZoneUsingDate Samples.host_with_date Samples.new_york_2024
  = mkRun (Ok 0)
      (set_mDaylightOffset 0
         (set_mStandardOffset (-18000) Samples.new_york_2024))
      [EvRunCommand
         ["/bin/bash"; "-c"; "TZ=America/New_York date +%z"] 1000].
Proof.
  apply (date_strategy_reads_offset Samples.host_with_date
           Samples.new_york_2024 "/tmp/android-tz" "-"%char 0 5 0 0 "").
  - reflexivity.
  - reflexivity.
  - reflexivity.
  - reflexivity.
  - discriminate.
  - lia.
  - lia.
  - lia.
  - lia.
Defined.

(** X12.  When the zdump strategy returns failure and the date strategy
    then succeeds, the resolver succeeds with a rule that has no daylight
    offset: from then on, every query for an instant of the resolved year
    is answered with the standard offset, whatever the instant. *)
Theorem fixed_offset_rule_is_constant (host : Host) (tzname : string)
    (this : TimeZone) :
  platform host <> Win32 ->
  let start := set_mAndroidTimeZoneInit 0 (set_mTimeZoneName tzname this) in
  let rz := setAndroidTimeZoneUsingZdump host start in
  outcome rz = Ok (-1) ->
  outcome (setAndroidTimeZoneUsingDate host (final rz)) = Ok 0 ->
  let r := androidTimeZoneSet host tzname this in
  outcome r = Ok 0 /\
  mDaylightOffset (final r) = 0 /\
  forall host' timeNow,
    tm_year (gmtime timeNow) + 1900 = mCurrentYear this ->
    androidTimeZoneOffset host' timeNow (final r)
    = mkRun (Ok (mStandardOffset (final r))) (final r) [].
Proof.
  intros Hplat start rz Hz Hd r.
  destruct (fixed_offset_fallback host tzname this Hplat Hz Hd) as [Ho Hdl].
  fold r in Ho, Hdl. split; [exact Ho|]. split; [exact Hdl|].
  intros host' timeNow Hyear.
  pose proof (androidTimeZoneSet_subject host tzname this) as H.
  cbv zeta in H. fold r in H. destruct H as (Hy & _ & _).
  destruct (androidTimeZoneSet_result host tzname this 0 Ho)
    as [[_ Hinit] | [H _]]; [|discriminate H].
  fold r in Hinit.
  rewrite androidTimeZoneOffset_same_year by congruence.
  rewrite getTimeZoneDiff_no_daylight by exact Hdl. reflexivity.
Qed.

Lemma fixed_offset_rule_is_constant_witness :
  let r := androidTimeZoneSet Samples.host_with_date "America/New_York"
             Samples.new_york_2024 in
  outcome r = Ok 0 /\ mDaylightOffset (final r) = 0 /\
  androidTimeZoneOffset Samples.host_without_tools Samples.july_2024 (final r)
  = mkRun (Ok (mStandardOffset (final r))) (final r) [].
Proof.
  cbv zeta.
  destruct (fixed_offset_rule_is_constant Samples.host_with_date
              "America/New_York" Samples.new_york_2024)
    as (Ho & Hdl & Hq).
  - vm_compute. discriminate.
  - vm_compute. reflexivity.
  - vm_compute. reflexivity.
  - split; [exact Ho|]. split; [exact Hdl|].
    apply Hq. reflexivity.
Defined.

(** ** The registry strategy: failure, and success without daylight *)

Lemma registry_parse_run (host : Host) (winName : string)
    (tzi : TIME_ZONE_INFORMATION) :
  let path := registry_path winName in
  let q := host_RegQueryValueEx host path "TZI" in
  parseTimeZoneInformationFromRegistry host winName tzi
  = if negb (host_RegOpenKeyEx host path =? ERROR_SUCCESS)
       || negb (query_result q =? ERROR_SUCCESS)
       || negb (query_dataType q =? REG_BINARY)
    then mkRun (Ok (-1)) tzi [EvRegistry path]
    else mkRun (Ok 0)
           (mkREG_TZI_FORMAT (Bias (query_data q))
              (StandardBias (query_data q)) (DaylightBias (query_data q))
              (StandardDate (query_data q)) (DaylightDate (query_data q)))
           [EvRegistry path].
Proof.
  cbv zeta. unfold parseTimeZoneInformationFromRegistry.
  fold (registry_path winName). rewrite bind_emit_run.
  destruct (negb (host_RegOpenKeyEx host (registry_path winName)
                  =? ERROR_SUCCESS)); [reflexivity|].
  cbn [orb].
  destruct (negb (query_result _ =? ERROR_SUCCESS)
            || negb (query_dataType _ =? REG_BINARY)); reflexivity.
Qed.

(** X13.  On Windows the resolver returns failure, with the rule it held
    untouched, when the zone name has no row in the table (the registry is
    then not read at all), when the key of the Windows name cannot be
    opened, when the value cannot be read, and when the value is not
    binary. *)
Theorem registry_failure_keeps_rule (host : Host) (tzname : string)
    (this : TimeZone) :
  platform host = Win32 ->
  let r := androidTimeZoneSet host tzname this in
  let kept := set_mAndroidTimeZoneInit 0 (set_mTimeZoneName tzname this) in
  match find_win_name _win32_timezones tzname with
  | None =>
      r = mkRun (Ok (-1)) kept [EvResolve tzname (mCurrentYear this)]
  | Some winName =>
      let path := registry_path winName in
      let q := host_RegQueryValueEx host path "TZI" in
      host_RegOpenKeyEx host path <> ERROR_SUCCESS
      \/ query_result q <> ERROR_SUCCESS
      \/ query_dataType q <> REG_BINARY ->
      r = mkRun (Ok (-1)) kept
            [EvResolve tzname (mCurrentYear this); EvRegistry path]
  end.
Proof.
  intros Hplat. cbv zeta.
  unfold androidTimeZoneSet. rewrite !bind_modify_run, bind_get_run.
  rewrite bind_emit_run. unfold resolve_on_platform. rewrite Hplat.
  destruct (find_win_name _win32_timezones tzname) as [winName|].
  - intros Hbad.
    unfold bind at 2. unfold with_local. rewrite registry_parse_run.
    cbv zeta.
    assert (Hcond :
      negb (host_RegOpenKeyEx host (registry_path winName) =? ERROR_SUCCESS)
      || negb (query_result
                 (host_RegQueryValueEx host (registry_path winName) "TZI")
               =? ERROR_SUCCESS)
      || negb (query_dataType
                 (host_RegQueryValueEx host (registry_path winName) "TZI")
               =? REG_BINARY) = true).
    { rewrite !orb_true_iff, !negb_true_iff, !Z.eqb_neq. tauto. }
    rewrite Hcond. reflexivity.
  - reflexivity.
Qed.

Lemma registry_failure_keeps_rule_witness :
  androidTimeZoneSet Samples.windows_host "Europe/Paris"
    Samples.new_york_2024
  = mkRun (Ok (-1))
      (set_mAndroidTimeZoneInit 0
         (set_mTimeZoneName "Europe/Paris" Samples.new_york_2024))
      [EvResolve "Europe/Paris" 2024;
       EvRegistry (registry_path "Romance Standard Time")].
Proof.
  pose proof (registry_failure_keeps_rule Samples.windows_host
                "Europe/Paris" Samples.new_york_2024 eq_refl) as H.
  cbv zeta in H.
  assert (Hrow : find_win_name _win32_timezones "Europe/Paris"
                 = Some "Romance Standard Time") by (vm_compute; reflexivity).
  rewrite Hrow in H. apply H. left. vm_compute. discriminate.
Defined.

(** The run of the platform part on Windows when the registry answers. *)
Lemma resolve_win32_run (host : Host) (tzname winName : string)
    (s : TimeZone) :
  platform host = Win32 ->
  find_win_name _win32_timezones tzname = Some winName ->
  let path := registry_path winName in
  let q := host_RegQueryValueEx host path "TZI" in
  host_RegOpenKeyEx host path = ERROR_SUCCESS ->
  query_result q = ERROR_SUCCESS ->
  query_dataType q = REG_BINARY ->
  let s2 := set_mDaylightOffset (- DaylightBias (query_data q) * 60)
              (set_mStandardOffset (- StandardBias (query_data q) * 60) s) in
  resolve_on_platform host tzname s
  = mkRun (Ok tt)
      (set_mAndroidTimeZoneInit 1
         (if negb (- DaylightBias (query_data q) * 60 =? 0)
          then set_mStandardDateUtc
                 (final (parseSystemTime (DaylightDate (query_data q))
                    (final (parseSystemTime (StandardDate (query_data q))
                              (mStandardDateUtc s2))))) s2
          else s2))
      [EvRegistry path].
Proof.
  cbv zeta. intros Hplat Hname Hopen Hres Htype.
  unfold resolve_on_platform. rewrite Hplat, Hname.
  unfold registry_path in *.
  unfold bind, with_local, parseTimeZoneInformationFromRegistry, bind.
  cbn in *. rewrite Hopen. cbn. rewrite Hres, Htype. cbn.
  destruct (- DaylightBias _ * 60 =? 0); reflexivity.
Qed.

(** X14.  On Windows a successful resolution takes the standard offset from
    [StandardBias] alone, negated and in seconds; the member [Bias] of the
    record is not used.  When the daylight bias is 0 the daylight offset is
    0, neither boundary field is written, and every query for an instant of
    the resolved year is answered with the standard offset. *)
Theorem registry_success_without_daylight (host : Host)
    (tzname winName : string) (this : TimeZone) :
  platform host = Win32 ->
  find_win_name _win32_timezones tzname = Some winName ->
  let path := registry_path winName in
  let q := host_RegQueryValueEx host path "TZI" in
  host_RegOpenKeyEx host path = ERROR_SUCCESS ->
  query_result q = ERROR_SUCCESS ->
  query_dataType q = REG_BINARY ->
  let r := androidTimeZoneSet host tzname this in
  outcome r = Ok 0 /\
  mStandardOffset (final r) = - StandardBias (query_data q) * 60 /\
  (DaylightBias (query_data q) = 0 ->
   mDaylightOffset (final r) = 0 /\
   mStandardDateUtc (final r) = mStandardDateUtc this /\
   mDaylightDateUtc (final r) = mDaylightDateUtc this /\
   forall host' timeNow,
     tm_year (gmtime timeNow) + 1900 = mCurrentYear this ->
     outcome (androidTimeZoneOffset host' timeNow (final r))
     = Ok (- StandardBias (query_data q) * 60)).
Proof.
  cbv zeta. intros Hplat Hname Hopen Hres Htype.
  pose proof (androidTimeZoneSet_run host tzname this) as H.
  cbv zeta in H. destruct H as (Hf & _ & Ho).
  pose proof (resolve_win32_run host tzname winName
                (set_mAndroidTimeZoneInit 0 (set_mTimeZoneName tzname this))
                Hplat Hname Hopen Hres Htype) as Hrun.
  cbv zeta in Hrun. rewrite Hrun in Hf, Ho. clear Hrun.
  cbn [outcome final] in Hf, Ho.
  set (q := query_data _) in *.
  split; [rewrite Ho; reflexivity|].
  split; [rewrite Hf; destruct (negb _); reflexivity|].
  intros Hz. rewrite Hz in Hf. cbn [Z.mul Z.opp Z.eqb negb] in Hf.
  split; [rewrite Hf; reflexivity|].
  split; [rewrite Hf; reflexivity|].
  split; [rewrite Hf; reflexivity|].
  intros host' timeNow Hyear.
  rewrite androidTimeZoneOffset_same_year.
  - rewrite getTimeZoneDiff_no_daylight; rewrite Hf; reflexivity.
  - rewrite Hf. cbn. discriminate.
  - rewrite Hf. exact Hyear.
Qed.

(** "Asia/Tokyo" on a Windows host whose registry record for "Tokyo Standard
    Time" has a bias of -540 minutes and no standard or daylight bias: the
    engine answers 0 for the zone. *)
Lemma registry_success_without_daylight_witness :
  let r := androidTimeZoneSet MoreSamples.windows_tokyo_host "Asia/Tokyo"
             Samples.new_york_2024 in
  outcome r = Ok 0 /\
  mStandardOffset (final r) = 0 /\
  mDaylightOffset (final r) = 0 /\
  mStandardDateUtc (final r) = mStandardDateUtc Samples.new_york_2024 /\
  outcome (androidTimeZoneOffset Samples.host_without_tools
             Samples.july_2024 (final r)) = Ok 0.
Proof.
  cbv zeta.
  destruct (registry_success_without_daylight MoreSamples.windows_tokyo_host
              "Asia/Tokyo" "Tokyo Standard Time" Samples.new_york_2024)
    as (Ho & Hs & Hrest).
  - reflexivity.
  - vm_compute. reflexivity.
  - vm_compute. reflexivity.
  - reflexivity.
  - reflexivity.
  - destruct Hrest as (Hdl & Hsd & _ & Hq); [reflexivity|].
    split; [exact Ho|]. split; [exact Hs|]. split; [exact Hdl|].
    split; [exact Hsd|]. apply Hq. reflexivity.
Defined.

(** ** The static table and the two loops over it *)

Lemma table_rows_ok : forallb table_row_ok _win32_timezones = true.
Proof. vm_compute. reflexivity. Qed.

Lemma find_zoneinfo_name_row (rows : list (string * string))
    (w z : string) :
  find_zoneinfo_name rows w = Some z ->
  exists row, In row rows /\ fst row = w.
Proof.
  induction rows as [|[w' z'] rows IH]; cbn; [discriminate|].
  destruct (String.eqb w' w) eqn:E.
  - intros _. exists (w', z'). split; [left; reflexivity|].
    apply String.eqb_eq. exact E.
  - intros H. destruct (IH H) as (row & Hin & Hw).
    exists row. split; [right; exact Hin | exact Hw].
Qed.

(** What the discoverer's loop selects, the validator accepts, the buffer
    holds, and the resolver's loop maps back. *)
Lemma table_selection_sound (w z : string) :
  find_zoneinfo_name _win32_timezones w = Some z ->
  check_timezone_is_zoneinfo (Some z) = 1 /\
  strlen z <= TIMEZONE0_SIZE - 1 /\
  find_win_name _win32_timezones z = Some w.
Proof.
  intros H.
  destruct (find_zoneinfo_name_row _ _ _ H) as (row & Hin & Hw).
  pose proof table_rows_ok as Hall. rewrite forallb_forall in Hall.
  specialize (Hall row Hin). unfold table_row_ok in Hall.
  rewrite Hw, H in Hall.
  apply andb_prop in Hall. destruct Hall as [Hall Hback].
  apply andb_prop in Hall. destruct Hall as [Hcheck Hlen].
  split; [apply Z.eqb_eq; exact Hcheck|].
  split; [apply Z.leb_le; exact Hlen|].
  destruct (find_win_name _win32_timezones z) as [w'|]; [|discriminate].
  apply String.eqb_eq in Hback. congruence.
Qed.

(** X15.  The table read in both directions.  The zoneinfo name that the
    Windows discoverer selects for a Windows zone name (the first row with
    that Windows name) satisfies the validator, fits the 256-byte buffer,
    and is mapped back to the same Windows name by the resolver's loop (the
    first row with that zoneinfo name). *)
Theorem table_selection_round_trip (w z : string) :
  find_zoneinfo_name _win32_timezones w = Some z ->
  check_timezone_is_zoneinfo (Some z) = 1 /\
  strlen z < TIMEZONE0_SIZE /\
  find_win_name _win32_timezones z = Some w.
Proof.
  intros H. destruct (table_selection_sound w z H) as (Hc & Hl & Hb).
  split; [exact Hc|]. split; [lia | exact Hb].
Qed.

Lemma table_selection_round_trip_witness :
  find_zoneinfo_name _win32_timezones "Pacific Standard Time"
  = Some "America/Los_Angeles" /\
  check_timezone_is_zoneinfo (Some "America/Los_Angeles") = 1 /\
  find_win_name _win32_timezones "America/Los_Angeles"
  = Some "Pacific Standard Time".
Proof.
  assert (H : find_zoneinfo_name _win32_timezones "Pacific Standard Time"
              = Some "America/Los_Angeles") by (vm_compute; reflexivity).
  split; [exact H|].
  destruct (table_selection_round_trip _ _ H) as (Hc & _ & Hb).
  split; [exact Hc | exact Hb].
Defined.

(** The registry is read once on Windows when the name has a row. *)
Lemma resolve_win32_events (host : Host) (tzname winName : string)
    (s : TimeZone) :
  platform host = Win32 ->
  find_win_name _win32_timezones tzname = Some winName ->
  emitted (resolve_on_platform host tzname s)
  = [EvRegistry (registry_path winName)].
Proof.
  intros Hplat Hname.
  unfold resolve_on_platform. rewrite Hplat, Hname.
  unfold registry_path.
  unfold bind, with_local, parseTimeZoneInformationFromRegistry, bind.
  cbn.
  destruct (negb (host_RegOpenKeyEx host _ =? ERROR_SUCCESS));
    [reflexivity|]. cbn.
  destruct (negb (query_result _ =? ERROR_SUCCESS)
            || negb (query_dataType _ =? REG_BINARY)); [reflexivity|]. cbn.
  destruct (- DaylightBias _ * 60 =? 0); reflexivity.
Qed.

(** X16.  Discovery and resolution compose on Windows.  When the first call
    of [get_zoneinfo_timezone] returns a name, that name satisfies the
    validator, and [timezone_set] with it enters the resolver once and reads
    the registry key of the very Windows zone name that the host reported at
    discovery. *)
Theorem windows_discovery_then_set (host : Host) (g : Globals) (now : tm)
    (z : string) :
  platform host = Win32 ->
  android_timezone_init g = 0 ->
  host_localtime host (host_time host) = Some now ->
  let d := get_zoneinfo_timezone host g in
  outcome d = Ok (Some z) ->
  check_timezone_is_zoneinfo (Some z) = 1 /\
  android_timezone (final d) = TableName z /\
  emitted (timezone_set host (Some z) (final d))
  = [EvResolve z (mCurrentYear (engine_of host g));
     EvRegistry (registry_path (host_strftime_Z host now))].
Proof.
  intros Hplat Hinit Hnow. cbv zeta.
  unfold get_zoneinfo_timezone. rewrite Hplat.
  unfold get_zoneinfo_timezone_win32.
  rewrite bind_get_run, Hinit. cbn [Z.eqb].
  rewrite bind_modify_run, Hnow.
  destruct (find_zoneinfo_name _win32_timezones (host_strftime_Z host now))
    as [z'|] eqn:Hrow; [|discriminate].
  rewrite bind_modify_run, bind_get_run. cbn [ret outcome final].
  intros Hz.
  assert (z' = z) as -> by (cbn in Hz; congruence). clear Hz.
  destruct (table_selection_sound _ _ Hrow) as (Hc & Hl & Hb).
  split; [exact Hc|]. split; [reflexivity|].
  assert (Hvalid : check_timezone_is_zoneinfo (Some z) <> 0)
    by (rewrite Hc; discriminate).
  pose proof (timezone_set_resolves host z
                (set_android_timezone (TableName z)
                   (set_android_timezone_init 1 g)) Hvalid Hl) as H.
  cbv zeta in H. destruct H as (_ & _ & _ & He & _).
  rewrite He.
  change (engine_of host
            (set_android_timezone (TableName z)
               (set_android_timezone_init 1 g)))
    with (engine_of host g).
  pose proof (androidTimeZoneSet_run host z (engine_of host g)) as H.
  cbv zeta in H. destruct H as (_ & He' & _).
  rewrite He'.
  rewrite (resolve_win32_events host z _ _ Hplat Hb). reflexivity.
Qed.

Lemma windows_discovery_then_set_witness :
  let d := get_zoneinfo_timezone Samples.windows_host Globals_start in
  outcome d = Ok (Some "America/Los_Angeles") /\
  emitted (timezone_set Samples.windows_host (Some "America/Los_Angeles")
             (final d))
  = [EvResolve "America/Los_Angeles"
       (mCurrentYear (engine_of Samples.windows_host Globals_start));
     EvRegistry (registry_path "Pacific Standard Time")].
Proof.
  cbv zeta.
  assert (Hd : outcome (get_zoneinfo_timezone Samples.windows_host
                          Globals_start)
               = Ok (Some "America/Los_Angeles"))
    by (vm_compute; reflexivity).
  split; [exact Hd|].
  destruct (windows_discovery_then_set Samples.windows_host Globals_start
              (gmtime (1719792000 - 25200)) "America/Los_Angeles"
              eq_refl eq_refl eq_refl Hd) as (_ & _ & He).
  exact He.
Defined.

(** ** The process-level state: caching and the buffer *)

(** Once [android_timezone_init] is set, [get_zoneinfo_timezone] is a read
    of the pointer, on every platform. *)
Lemma get_zoneinfo_timezone_cached (host : Host) (g : Globals) :
  android_timezone_init g <> 0 ->
  get_zoneinfo_timezone host g
  = mkRun (Ok (tz_string g (android_timezone g))) g [].
Proof.
  intros H. apply Z.eqb_neq in H.
  unfold get_zoneinfo_timezone, get_zoneinfo_timezone_apple,
    get_zoneinfo_timezone_linux, get_zoneinfo_timezone_win32.
  destruct (platform host); rewrite bind_get_run, H; reflexivity.
Qed.

(** What a successful [timezone_set] leaves in the globals. *)
Lemma timezone_set_success (host : Host) (tzname : cstr) (g : Globals) :
  outcome (timezone_set host tzname g) = Ok 0 ->
  exists name,
    tzname = Some name /\
    check_timezone_is_zoneinfo (Some name) = 1 /\
    strlen name <= TIMEZONE0_SIZE - 1 /\
    android_timezone0 (final (timezone_set host tzname g)) = name /\
    android_timezone (final (timezone_set host tzname g)) = Timezone0 /\
    android_timezone_init (final (timezone_set host tzname g)) = 1.
Proof.
  intros Hok.
  destruct (Z.eq_dec (check_timezone_is_zoneinfo tzname) 0) as [Hc | Hc].
  { rewrite timezone_set_refused in Hok by (left; exact Hc).
    discriminate Hok. }
  destruct (check_some_of_valid tzname Hc) as (name & ->).
  destruct (Z_le_gt_dec (strlen name) (TIMEZONE0_SIZE - 1)) as [Hl | Hl].
  2:{ rewrite timezone_set_refused in Hok
        by (right; exists name; split; [reflexivity | exact Hl]).
      discriminate Hok. }
  exists name. split; [reflexivity|].
  split.
  { destruct (check_timezone_is_zoneinfo_bool (Some name)) as [H | H];
      [contradiction | exact H]. }
  split; [exact Hl|].
  pose proof (timezone_set_resolves host name g Hc Hl) as H.
  cbv zeta in H. destruct H as (_ & H0 & Hp & _ & Ho & Hi).
  split; [exact H0|]. split; [exact Hp|].
  rewrite Hi. rewrite Ho in Hok.
  destruct (outcome (androidTimeZoneSet host name (engine_of host g)))
    as [failed|f]; [|discriminate Hok].
  destruct (negb (failed =? 0)); [discriminate Hok | reflexivity].
Qed.

(** X17.  After [timezone_set] has returned 0 for a name,
    [bufprint_zoneinfo_timezone] prints that very name, on every platform,
    without consulting the host: it emits no event and changes nothing. *)
Theorem timezone_set_then_print (host : Host) (tzname : cstr) (g : Globals) :
  let r := timezone_set host tzname g in
  outcome r = Ok 0 ->
  exists name,
    tzname = Some name /\
    forall host' room,
      bufprint_zoneinfo_timezone host' room (final r)
      = mkRun (Ok (bufprint room name)) (final r) [].
Proof.
  cbv zeta. intros Hok.
  destruct (timezone_set_success host tzname g Hok)
    as (name & -> & Hc & _ & H0 & Hp & Hi).
  exists name. split; [reflexivity|]. intros host' room.
  unfold bufprint_zoneinfo_timezone, bind.
  rewrite get_zoneinfo_timezone_cached by (rewrite Hi; discriminate).
  rewrite Hp. cbn [tz_string outcome final emitted]. rewrite H0, Hc.
  reflexivity.
Qed.

Lemma timezone_set_then_print_witness :
  let r := timezone_set Samples.host_with_zdump (Some "America/New_York")
             Globals_start in
  outcome r = Ok 0 /\
  bufprint_zoneinfo_timezone Samples.windows_host 64 (final r)
  = mkRun (Ok ("America/New_York", 16)) (final r) [].
Proof.
  cbv zeta.
  assert (Hok : outcome (timezone_set Samples.host_with_zdump
                           (Some "America/New_York") Globals_start) = Ok 0)
    by (vm_compute; reflexivity).
  split; [exact Hok|].
  destruct (timezone_set_then_print Samples.host_with_zdump
              (Some "America/New_York") Globals_start Hok)
    as (name & Hname & Hprint).
  injection Hname as <-. exact (Hprint Samples.windows_host 64).
Defined.

(** The search of the Linux discoverer works on locals only. *)
Lemma discover_linux_final (host : Host) (g : Globals) :
  final (discover_linux host g) = g.
Proof.
  unfold discover_linux. cbv zeta.
  destruct (negb (fs_access_R (host_fs host) _)); [reflexivity|].
  match goal with
  | |- final (match ?p with Some _ => _ | None => _ end g) = g =>
      destruct p as [localtime|]; [|reflexivity]
  end.
  match goal with
  | |- final (match ?q with Some _ => _ | None => _ end g) = g =>
      destruct q as [tz|]; [reflexivity|]
  end.
  destruct (fs_stat (host_fs host) localtime) as [st|]; [|reflexivity].
  destruct (bufprint PATH_MAX_linux _) as [path path_root].
  unfold bind, with_local. cbn.
  match goal with
  | |- context [match outcome ?r with Ok _ => _ | Abort _ => _ end] =>
      destruct (outcome r); reflexivity
  end.
Qed.

Lemma bind_outcome_ok {S A B} (m : M S A) (k : A -> M S B) (s : S) (b : B) :
  outcome (bind m k s) = Ok b ->
  exists a, outcome (m s) = Ok a /\
            outcome (k a (final (m s))) = Ok b /\
            final (bind m k s) = final (k a (final (m s))).
Proof.
  unfold bind. destruct (outcome (m s)) as [a|f]; cbn; [|discriminate].
  intros H. exists a. auto.
Qed.

(** The tail shared by the Linux and the OS X discoverers, lines 128-129
    and 398-399. *)
Lemma store_and_point (tz : cstr) (g : Globals) :
  let tail :=
    match tz with
    | None => ret None
    | Some tz =>
        store_timezone0 tz ;;;
        modify (set_android_timezone Timezone0) ;;;
        g <- get ;;
        ret (tz_string g (android_timezone g))
    end in
  android_timezone_init g <> 0 ->
  forall out, outcome (tail g) = Ok out ->
  android_timezone_init (final (tail g)) <> 0 /\
  tz_string (final (tail g)) (android_timezone (final (tail g)))
  = match out with
    | Some _ => out
    | None => tz_string g (android_timezone g)
    end.
Proof.
  cbv zeta. intros Hinit out.
  destruct tz as [tz|].
  - unfold store_timezone0. rewrite !bind_modify_run, bind_get_run.
    cbn. intros H. injection H as <-. split; [exact Hinit | reflexivity].
  - cbn. intros H. injection H as <-. split; [exact Hinit | reflexivity].
Qed.

(** A returning discovery sets [android_timezone_init] and leaves the
    pointer at the name it returns, or where it was. *)
Lemma get_zoneinfo_timezone_returns (host : Host) (g : Globals) (tz : cstr) :
  let d := get_zoneinfo_timezone host g in
  outcome d = Ok tz ->
  android_timezone_init (final d) <> 0 /\
  tz_string (final d) (android_timezone (final d))
  = match tz with
    | Some _ => tz
    | None => tz_string g (android_timezone g)
    end.
Proof.
  cbv zeta.
  destruct (Z.eq_dec (android_timezone_init g) 0) as [Hinit | Hinit].
  2:{ rewrite get_zoneinfo_timezone_cached by exact Hinit.
      cbn. intros H. injection H as <-. split; [exact Hinit|].
      destruct (tz_string g (android_timezone g)); reflexivity. }
  assert (Hone : android_timezone_init (set_android_timezone_init 1 g) <> 0)
    by (cbn; discriminate).
  unfold get_zoneinfo_timezone.
  destruct (platform host).
  - (* OS X *)
    unfold get_zoneinfo_timezone_apple.
    rewrite bind_get_run, Hinit. cbn [Z.eqb]. rewrite bind_modify_run.
    intros H. apply bind_outcome_ok in H.
    destruct H as (found & Hfound & Hout & ->).
    match type of Hfound with
    | outcome (?m _) = _ =>
        assert (Hm : final (m (set_android_timezone_init 1 g))
                     = set_android_timezone_init 1 g)
    end.
    { destruct (host_getenv host "TZ"); [reflexivity|].
      destruct (fs_readlink (host_fs host) LOCALTIME_FILE); [|reflexivity].
      cbv zeta.
      repeat match goal with
      | |- final ((if ?b then _ else _) _) = _ => destruct b
      end; reflexivity. }
    rewrite Hm in *.
    exact (store_and_point found _ Hone tz Hout).
  - (* Linux *)
    unfold get_zoneinfo_timezone_linux.
    rewrite bind_get_run, Hinit. cbn [Z.eqb]. rewrite bind_modify_run.
    intros H. apply bind_outcome_ok in H.
    destruct H as (found & Hfound & Hout & ->).
    match type of Hfound with
    | outcome (?m _) = _ =>
        assert (Hm : final (m (set_android_timezone_init 1 g))
                     = set_android_timezone_init 1 g)
    end.
    { match goal with
      | |- final (match ?x with Some _ => _ | None => _ end _) = _ =>
          destruct x; [reflexivity | apply discover_linux_final]
      end. }
    rewrite Hm in *.
    exact (store_and_point found _ Hone tz Hout).
  - (* Windows *)
    unfold get_zoneinfo_timezone_win32.
    rewrite bind_get_run, Hinit. cbn [Z.eqb]. rewrite bind_modify_run.
    destruct (host_localtime host (host_time host)) as [now|].
    + destruct (find_zoneinfo_name _win32_timezones _) as [z|].
      * rewrite bind_modify_run, bind_get_run. cbn.
        intros H. injection H as <-. split; [discriminate | reflexivity].
      * cbn. intros H. injection H as <-.
        split; [discriminate | reflexivity].
    + cbn. intros H. injection H as <-.
      split; [discriminate | reflexivity].
Qed.

(** X18.  A call of [get_zoneinfo_timezone] that returns makes every later
    call a read of the pointer, whatever the host has become: later calls
    emit nothing and change nothing.  They return the name that the first
    call returned; when the first call returned null they return what the
    pointer [android_timezone] designated before it, which is null in a
    fresh process but the name of an earlier [timezone_set] otherwise. *)
Theorem discovery_is_cached (host : Host) (g : Globals) (tz : cstr) :
  let d := get_zoneinfo_timezone host g in
  outcome d = Ok tz ->
  forall host',
    get_zoneinfo_timezone host' (final d)
    = mkRun (Ok match tz with
                | Some _ => tz
                | None => tz_string g (android_timezone g)
                end) (final d) [].
Proof.
  cbv zeta. intros Hok host'.
  destruct (get_zoneinfo_timezone_returns host g tz Hok) as [Hinit Hptr].
  rewrite get_zoneinfo_timezone_cached by exact Hinit.
  rewrite Hptr. reflexivity.
Qed.

(** On a host where nothing can be discovered, after a [timezone_set] that
    failed in the resolver: the first discovery returns null, the second the
    name that [timezone_set] had stored. *)
Lemma discovery_is_cached_witness :
  let g := final (timezone_set Samples.host_without_tools
                    (Some "Europe/Paris") Globals_start) in
  let d := get_zoneinfo_timezone Samples.host_without_tools g in
  outcome d = Ok None /\
  get_zoneinfo_timezone Samples.host_with_tree (final d)
  = mkRun (Ok (Some "Europe/Paris")) (final d) [].
Proof.
  cbv zeta.
  assert (Hd : outcome (get_zoneinfo_timezone Samples.host_without_tools
                  (final (timezone_set Samples.host_without_tools
                            (Some "Europe/Paris") Globals_start)))
               = Ok None) by (vm_compute; reflexivity).
  split; [exact Hd|].
  exact (discovery_is_cached _ _ _ Hd Samples.host_with_tree).
Defined.

(** ** Frames of the discoverer and of the queries *)

Lemma discovery_frame_refl g : discovery_frame g g.
Proof. split; auto. Qed.

Lemma discovery_frame_trans g1 g2 g3 :
  discovery_frame g1 g2 -> discovery_frame g2 g3 -> discovery_frame g1 g3.
Proof. intros [H1 H2] [H3 H4]. split; [congruence | auto]. Qed.

#[local] Hint Resolve discovery_frame_refl discovery_frame_trans : core.

Lemma strlen_substring_le (n : nat) (s : string) :
  strlen (substring 0 n s) <= Z.of_nat n.
Proof.
  unfold strlen. apply inj_le.
  revert s. induction n as [|n IH]; intros [|a s]; cbn; try lia.
  specialize (IH s). lia.
Qed.

Lemma store_timezone0_frame (tz : string) :
  keeps discovery_frame file_event (store_timezone0 tz).
Proof.
  apply keeps_modify. intros g. split; [reflexivity|]. intros _.
  unfold buffer_fits. cbn.
  pose proof (strlen_substring_le (Z.to_nat (TIMEZONE0_SIZE - 1)) tz) as H.
  unfold TIMEZONE0_SIZE in *. cbn in *. lia.
Qed.

Lemma compare_bytes_file_events {S} (localtime path : string)
    (remaining : nat) :
  forall nn fd1 fd2,
    keeps (fun _ _ : S => True) file_event
          (compare_bytes localtime path remaining nn fd1 fd2).
Proof.
  induction remaining as [|remaining IH]; intros nn fd1 fd2; cbn.
  - apply keeps_ret; auto.
  - apply keeps_bind; [solve [frame_side] .. | apply keeps_emit; [auto | exact Logic.I] |].
    intros _.
    destruct fd1 as [|[b1|] fd1].
    + apply keeps_bind; [solve [frame_side] .. | apply keeps_emit; [auto | exact Logic.I] |].
      intros _. destruct fd2 as [|[b2|] fd2];
        first [apply keeps_abort; auto | apply keeps_ret; auto].
    + apply keeps_bind; [solve [frame_side] .. | apply keeps_emit; [auto | exact Logic.I] |].
      intros _. destruct fd2 as [|[b2|] fd2].
      * apply keeps_abort; auto.
      * destruct (negb (Ascii.eqb b1 b2)); [apply keeps_ret; auto | apply IH].
      * apply keeps_ret; auto.
    + apply keeps_ret; auto.
Qed.

Lemma compare_timezone_to_localtime_file_events {S} (fs : FileSystem)
    (scan : ScanDataRec) (path : string) :
  keeps (fun _ _ : S => True) file_event
        (compare_timezone_to_localtime fs scan path).
Proof.
  unfold compare_timezone_to_localtime.
  destruct (fs_stat fs path) as [st|]; [|apply keeps_ret; auto].
  destruct (negb _); [apply keeps_ret; auto|].
  apply keeps_bind; [solve [frame_side] .. | apply keeps_emit; [auto | exact Logic.I] |].
  intros _.
  destruct (fs_open fs (scan_localtime scan)) as [fd1|];
    [|apply keeps_ret; auto].
  apply keeps_bind; [solve [frame_side] .. | apply keeps_emit; [auto | exact Logic.I] |].
  intros _.
  destruct (fs_open fs path) as [fd2|]; [|apply keeps_ret; auto].
  apply keeps_bind; [solve [frame_side] .. | apply compare_bytes_file_events |].
  intros nn. apply keeps_ret; auto.
Qed.

Lemma scan_entries_file_events (fs : FileSystem)
    (descend : option (Z -> M ScanDataRec cstr)) (top depth : Z)
    (entries : list string) :
  (forall f p, descend = Some f ->
               keeps (fun _ _ => True) file_event (f p)) ->
  keeps (fun _ _ => True) file_event
        (scan_entries fs descend top depth entries).
Proof.
  intros Hdescend.
  induction entries as [|d_name entries IH]; cbn.
  - apply keeps_ret; auto.
  - destruct (Ascii.eqb (front_char d_name) "."); [exact IH|].
    apply keeps_bind; [solve [frame_side] .. | apply keeps_get; auto |]. intros scan.
    destruct (print_entry scan top d_name) as [path p].
    apply keeps_bind; [solve [frame_side] .. | apply keeps_modify; auto |]. intros _.
    destruct (p >=? PATH_MAX_linux); [exact IH|].
    apply keeps_bind; [solve [frame_side] .. | apply keeps_get; auto |]. intros scan'.
    destruct (fs_lstat fs (scan_path scan')) as [ent_st|]; [|exact IH].
    destruct (st_mode ent_st).
    + destruct ((depth >=? 1) && (depth <=? 2)); [|exact IH].
      destruct (negb _); [|exact IH].
      apply keeps_bind;
        [solve [frame_side] .. | apply compare_timezone_to_localtime_file_events |].
      intros same. destruct (negb _); [apply keeps_ret; auto | exact IH].
    + destruct descend as [f|]; [|exact IH].
      apply keeps_bind; [solve [frame_side] .. | apply (Hdescend f p eq_refl) |].
      intros [z|]; [apply keeps_ret; auto | exact IH].
    + destruct descend; exact IH.
    + destruct descend; exact IH.
Qed.

Lemma scan_timezone_dir_file_events (fs : FileSystem) (levels : nat) :
  forall top,
    keeps (fun _ _ => True) file_event (scan_timezone_dir fs levels top).
Proof.
  induction levels as [|levels IH]; intros top; cbn;
    (apply keeps_bind; [solve [frame_side] .. | apply keeps_get; auto |]; intros scan;
     destruct (fs_readdir fs (scan_path scan)) as [entries|];
     [|apply keeps_ret; auto];
     apply scan_entries_file_events; intros f p Hf).
  - discriminate Hf.
  - injection Hf as <-. apply IH.
Qed.

Lemma discover_linux_frame (host : Host) :
  keeps discovery_frame file_event (discover_linux host).
Proof.
  unfold discover_linux. cbv zeta.
  destruct (negb (fs_access_R (host_fs host) _)); [apply keeps_ret; auto|].
  match goal with
  | |- keeps _ _ (match ?p with Some _ => _ | None => _ end) =>
      destruct p as [localtime|]; [|apply keeps_ret; auto]
  end.
  match goal with
  | |- keeps _ _ (match ?q with Some _ => _ | None => _ end) =>
      destruct q as [tz|]; [apply keeps_ret; auto|]
  end.
  destruct (fs_stat (host_fs host) localtime) as [st|];
    [|apply keeps_ret; auto].
  destruct (bufprint PATH_MAX_linux _) as [path path_root].
  apply keeps_bind; [solve [frame_side] .. | |intros p; apply keeps_ret; auto].
  apply keeps_with_local; [solve [frame_side] .. |].
  apply scan_timezone_dir_file_events.
Qed.

Lemma store_and_point_frame (tz : cstr) :
  keeps discovery_frame file_event
    match tz with
    | None => ret None
    | Some tz =>
        store_timezone0 tz ;;;
        modify (set_android_timezone Timezone0) ;;;
        g <- get ;;
        ret (tz_string g (android_timezone g))
    end.
Proof.
  destruct tz as [tz|]; [|apply keeps_ret; auto].
  apply keeps_bind; [solve [frame_side] .. | apply store_timezone0_frame |]. intros _.
  apply keeps_bind; [solve [frame_side] .. | apply keeps_modify; intros g; split; auto |].
  intros _.
  apply keeps_bind; [solve [frame_side] .. | apply keeps_get; auto |]. intros g.
  apply keeps_ret; auto.
Qed.

Lemma set_init_frame (v : Z) :
  keeps discovery_frame file_event (modify (set_android_timezone_init v)).
Proof. apply keeps_modify. intros g. split; auto. Qed.

Lemma get_zoneinfo_timezone_frame (host : Host) :
  keeps discovery_frame file_event (get_zoneinfo_timezone host).
Proof.
  unfold get_zoneinfo_timezone.
  destruct (platform host).
  - unfold get_zoneinfo_timezone_apple.
    apply keeps_bind; [solve [frame_side] .. | apply keeps_get; auto |]. intros g.
    destruct (android_timezone_init g =? 0); [|apply keeps_ret; auto].
    apply keeps_bind; [solve [frame_side] .. | apply set_init_frame |]. intros _.
    apply keeps_bind; [solve [frame_side] .. | | intros tz; apply store_and_point_frame].
    destruct (host_getenv host "TZ"); [apply keeps_ret; auto|].
    destruct (fs_readlink (host_fs host) LOCALTIME_FILE);
      [|apply keeps_ret; auto].
    cbv zeta.
    repeat match goal with
    | |- keeps _ _ (if ?b then _ else _) => destruct b
    end; first [apply keeps_ret; auto | apply keeps_abort; auto].
  - unfold get_zoneinfo_timezone_linux.
    apply keeps_bind; [solve [frame_side] .. | apply keeps_get; auto |]. intros g.
    destruct (android_timezone_init g =? 0); [|apply keeps_ret; auto].
    apply keeps_bind; [solve [frame_side] .. | apply set_init_frame |]. intros _.
    apply keeps_bind; [solve [frame_side] .. | | intros tz; apply store_and_point_frame].
    match goal with
    | |- keeps _ _ (match ?x with Some _ => _ | None => _ end) =>
        destruct x; [apply keeps_ret; auto | apply discover_linux_frame]
    end.
  - unfold get_zoneinfo_timezone_win32.
    apply keeps_bind; [solve [frame_side] .. | apply keeps_get; auto |]. intros g.
    destruct (android_timezone_init g =? 0); [|apply keeps_ret; auto].
    apply keeps_bind; [solve [frame_side] .. | apply set_init_frame |]. intros _.
    destruct (host_localtime host (host_time host)) as [now|];
      [|apply keeps_ret; auto].
    destruct (find_zoneinfo_name _win32_timezones _) as [z|];
      [|apply keeps_ret; auto].
    apply keeps_bind; [solve [frame_side] .. | apply keeps_modify; intros g'; split; auto |].
    intros _.
    apply keeps_bind; [solve [frame_side] .. | apply keeps_get; auto |]. intros g'.
    apply keeps_ret; auto.
Qed.

Lemma bufprint_zoneinfo_timezone_frame (host : Host) (room : Z) :
  keeps discovery_frame file_event (bufprint_zoneinfo_timezone host room).
Proof.
  unfold bufprint_zoneinfo_timezone.
  apply keeps_bind; [solve [frame_side] .. | apply get_zoneinfo_timezone_frame |].
  intros [name|]; [|apply keeps_ret; auto].
  destruct (_ =? 0); apply keeps_ret; auto.
Qed.

Lemma on_engine_query_frame {A} (host : Host) (m : M TimeZone A)
    (g : Globals) :
  query_frame g (final (on_engine host m g)).
Proof. unfold on_engine, zoom. cbn. repeat split. Qed.

(** X19.  The discoverer is separate from the engine.  Whatever the host
    and however they end, [get_zoneinfo_timezone] and
    [bufprint_zoneinfo_timezone] leave the engine object as it was and do
    nothing but open and read files: they run no command, read no registry
    key and never enter the resolver.  The two queries, in turn, leave the
    buffer, the pointer and the flag of the discoverer as they were. *)
Theorem discoverer_and_engine_are_separate (host : Host) (g : Globals) :
  (let d := get_zoneinfo_timezone host g in
   sAndroidTimeZone (final d) = sAndroidTimeZone g /\
   Forall file_event (emitted d)) /\
  (forall room,
     let p := bufprint_zoneinfo_timezone host room g in
     sAndroidTimeZone (final p) = sAndroidTimeZone g /\
     Forall file_event (emitted p)) /\
  (forall time,
     query_frame g (final (android_tzoffset_in_seconds host time g)) /\
     query_frame g (final (android_localtime host time g))).
Proof.
  split; [|split].
  - destruct (get_zoneinfo_timezone_frame host g) as [[He _] Hq].
    split; assumption.
  - intros room.
    destruct (bufprint_zoneinfo_timezone_frame host room g) as [[He _] Hq].
    split; assumption.
  - intros time. split; apply on_engine_query_frame.
Qed.

(** X20.  The buffer [android_timezone0] never overflows: every entry point
    of the unit, on every host and however it ends, leaves in the buffer a
    text that is shorter than its 256 bytes when it found one. *)
Theorem buffer_bound_is_invariant (host : Host) (g : Globals) :
  buffer_fits g ->
  (forall tzname, buffer_fits (final (timezone_set host tzname g))) /\
  buffer_fits (final (get_zoneinfo_timezone host g)) /\
  (forall room,
     buffer_fits (final (bufprint_zoneinfo_timezone host room g))) /\
  (forall time,
     buffer_fits (final (android_tzoffset_in_seconds host time g)) /\
     buffer_fits (final (android_localtime host time g))).
Proof.
  intros Hfit. split; [|split; [|split]].
  - intros tzname.
    destruct (Z.eq_dec (check_timezone_is_zoneinfo tzname) 0) as [Hc | Hc].
    { rewrite timezone_set_refused by (left; exact Hc). exact Hfit. }
    destruct (check_some_of_valid tzname Hc) as (name & ->).
    destruct (Z_le_gt_dec (strlen name) (TIMEZONE0_SIZE - 1)) as [Hl | Hl].
    + pose proof (timezone_set_resolves host name g Hc Hl) as H.
      cbv zeta in H. destruct H as (_ & H0 & _).
      unfold buffer_fits. rewrite H0. lia.
    + rewrite timezone_set_refused
        by (right; exists name; split; [reflexivity | exact Hl]).
      exact Hfit.
  - destruct (get_zoneinfo_timezone_frame host g) as [[_ Hb] _]. auto.
  - intros room.
    destruct (bufprint_zoneinfo_timezone_frame host room g) as [[_ Hb] _].
    auto.
  - intros time. unfold buffer_fits.
    split;
      [ destruct (on_engine_query_frame host
                    (androidTimeZoneOffset host time) g) as (H0 & _)
      | destruct (on_engine_query_frame host
                    (androidLocaltime host time) g) as (H0 & _) ];
      unfold android_tzoffset_in_seconds, android_localtime;
      rewrite H0; exact Hfit.
Qed.

Lemma buffer_bound_is_invariant_witness :
  buffer_fits (final (timezone_set Samples.host_with_zdump
                        (Some "America/New_York") Globals_start)) /\
  buffer_fits (final (get_zoneinfo_timezone Samples.host_with_tree
                        Globals_start)).
Proof.
  assert (H0 : buffer_fits Globals_start) by (vm_compute; reflexivity).
  split.
  - destruct (buffer_bound_is_invariant Samples.host_with_zdump
                Globals_start H0) as (H & _).
    exact (H (Some "America/New_York")).
  - destruct (buffer_bound_is_invariant Samples.host_with_tree
                Globals_start H0) as (_ & H & _).
    exact H.
Defined.

(** ** What the discoverers return *)

Lemma valid_result_abort {S} f (s : S) : valid_result (Abort f) s.
Proof. intros z H. discriminate H. Qed.

Lemma valid_result_none {S} : ensures (@valid_result S) (ret None).
Proof. intros s z H. discriminate H. Qed.

Lemma valid_result_some {S} (name : string) :
  check_timezone_is_zoneinfo (Some name) <> 0 ->
  ensures (@valid_result S) (ret (Some name)).
Proof.
  intros Hc s z H. cbn in H. injection H as <-.
  destruct (check_timezone_is_zoneinfo_bool (Some name)); [contradiction|].
  assumption.
Qed.

Lemma negb_eqb_nonzero (v : Z) : negb (v =? 0) = true -> v <> 0.
Proof. rewrite negb_true_iff. apply Z.eqb_neq. Qed.

Lemma ensures_bind_with {S A B} (Pa : A -> Prop)
    (P : result B -> S -> Prop) (m : M S A) (k : A -> M S B) :
  (forall s a, outcome (m s) = Ok a -> Pa a) ->
  (forall f s, P (Abort f) s) ->
  (forall a, Pa a -> ensures P (k a)) ->
  ensures P (bind m k).
Proof.
  intros Hm Hab Hk s. unfold bind.
  destruct (outcome (m s)) as [a|f] eqn:E; cbn; [|apply Hab].
  apply Hk. exact (Hm s a E).
Qed.

(** The name that the scan returns has passed the validator. *)
Lemma scan_entries_valid (fs : FileSystem)
    (descend : option (Z -> M ScanDataRec cstr)) (top depth : Z)
    (entries : list string) :
  (forall f p, descend = Some f -> ensures valid_result (f p)) ->
  ensures valid_result (scan_entries fs descend top depth entries).
Proof.
  intros Hdescend.
  induction entries as [|d_name entries IH]; cbn.
  - apply valid_result_none.
  - destruct (Ascii.eqb (front_char d_name) "."); [exact IH|].
    apply ensures_bind; [apply valid_result_abort|]. intros scan.
    destruct (print_entry scan top d_name) as [path p].
    apply ensures_bind; [apply valid_result_abort|]. intros _.
    destruct (p >=? PATH_MAX_linux); [exact IH|].
    apply ensures_bind; [apply valid_result_abort|]. intros scan'.
    destruct (fs_lstat fs (scan_path scan')) as [ent_st|]; [|exact IH].
    destruct (st_mode ent_st).
    + destruct ((depth >=? 1) && (depth <=? 2)); [|exact IH].
      destruct (negb (check_timezone_is_zoneinfo _ =? 0)) eqn:Hc;
        [|exact IH].
      apply ensures_bind; [apply valid_result_abort|]. intros same.
      destruct (negb (same =? 0)); [|exact IH].
      apply valid_result_some. apply negb_eqb_nonzero. exact Hc.
    + destruct descend as [f|]; [|exact IH].
      apply ensures_bind_with
        with (Pa := fun result : cstr =>
                      forall z, result = Some z ->
                                check_timezone_is_zoneinfo (Some z) = 1).
      * intros s result H z ->. exact (Hdescend f p eq_refl s z H).
      * apply valid_result_abort.
      * intros [z|] Hz; [|exact IH].
        intros s z' H. cbn in H. injection H as <-. apply Hz. reflexivity.
    + destruct descend; exact IH.
    + destruct descend; exact IH.
Qed.

Lemma scan_timezone_dir_valid (fs : FileSystem) (levels : nat) :
  forall top, ensures valid_result (scan_timezone_dir fs levels top).
Proof.
  induction levels as [|levels IH]; intros top; cbn;
    (apply ensures_bind; [apply valid_result_abort|]; intros scan;
     destruct (fs_readdir fs (scan_path scan)) as [entries|];
     [|apply valid_result_none];
     apply scan_entries_valid; intros f p Hf).
  - discriminate Hf.
  - injection Hf as <-. apply IH.
Qed.

Lemma discover_linux_valid (host : Host) :
  ensures valid_result (discover_linux host).
Proof.
  unfold discover_linux. cbv zeta.
  destruct (negb (fs_access_R (host_fs host) _)); [apply valid_result_none|].
  match goal with
  | |- ensures _ (match ?p with Some _ => _ | None => _ end) =>
      destruct p as [localtime|]; [|apply valid_result_none]
  end.
  match goal with
  | |- ensures _ (match ?q with Some _ => _ | None => _ end) =>
      destruct q as [tz|] eqn:Hquick
  end.
  - (* the symbolic link *)
    destruct (fs_readlink (host_fs host) localtime) as [target|];
      [|discriminate Hquick].
    cbv zeta in Hquick.
    repeat match type of Hquick with
    | (if negb (?c =? 0) then _ else _) = _ =>
        destruct (negb (c =? 0)) eqn:Hc; [|discriminate Hquick]
    | (if ?b then _ else _) = _ => destruct b; [|discriminate Hquick]
    end.
    injection Hquick as <-.
    apply valid_result_some. apply negb_eqb_nonzero. exact Hc.
  - destruct (fs_stat (host_fs host) localtime) as [st|];
      [|apply valid_result_none].
    destruct (bufprint PATH_MAX_linux _) as [path path_root].
    intros g z. clear Hquick.
    pose proof (scan_timezone_dir_valid (host_fs host) 2 path_root
                  (mkScanDataRec localtime st path_root path)) as Hscan.
    unfold valid_result in Hscan.
    unfold bind, with_local. cbv zeta.
    set (r := scan_timezone_dir (host_fs host) 2 path_root
                (mkScanDataRec localtime st path_root path)) in *.
    clearbody r. cbn [outcome final emitted].
    destruct (outcome r) as [result|f];
      cbn [outcome final emitted ret fst]; [|discriminate].
    intros H. injection H as ->. apply Hscan. reflexivity.
Qed.

Lemma substring_all (n : nat) (s : string) :
  (String.length s <= n)%nat -> substring 0 n s = s.
Proof.
  revert s. induction n as [|n IH]; intros [|a s]; cbn; intros H;
    try reflexivity; try lia.
  rewrite IH by lia. reflexivity.
Qed.

(** X21.  What discovery returns.  On Linux and on Windows, and on OS X
    when [TZ] is not set, a name that the first call of
    [get_zoneinfo_timezone] returns is the first 255 bytes of a name that
    passed the validator; on Windows it is that name itself. *)
Theorem discovered_name_has_passed_validation (host : Host) (g : Globals)
    (z : string) :
  platform host <> Apple \/ host_getenv host "TZ" = None ->
  android_timezone_init g = 0 ->
  outcome (get_zoneinfo_timezone host g) = Ok (Some z) ->
  exists name,
    check_timezone_is_zoneinfo (Some name) = 1 /\
    z = substring 0 (Z.to_nat (TIMEZONE0_SIZE - 1)) name /\
    (platform host = Win32 -> z = name).
Proof.
  intros Hcase Hinit.
  assert (Htail : forall (found : cstr) g1,
    (forall name, found = Some name ->
                  check_timezone_is_zoneinfo (Some name) = 1) ->
    outcome (match found with
             | None => ret None
             | Some tz =>
                 store_timezone0 tz ;;;
                 modify (set_android_timezone Timezone0) ;;;
                 g <- get ;;
                 ret (tz_string g (android_timezone g))
             end g1) = Ok (Some z) ->
    exists name,
      check_timezone_is_zoneinfo (Some name) = 1 /\
      z = substring 0 (Z.to_nat (TIMEZONE0_SIZE - 1)) name).
  { intros [name|] g1 Hvalid; [|discriminate].
    unfold store_timezone0. rewrite !bind_modify_run, bind_get_run. cbn.
    intros H. injection H as <-. exists name.
    split; [apply Hvalid; reflexivity | reflexivity]. }
  unfold get_zoneinfo_timezone.
  destruct (platform host) eqn:Hplat.
  - (* OS X *)
    destruct Hcase as [H | Htz]; [contradiction H; reflexivity|].
    unfold get_zoneinfo_timezone_apple.
    rewrite bind_get_run, Hinit. cbn [Z.eqb]. rewrite bind_modify_run, Htz.
    intros H. apply bind_outcome_ok in H.
    destruct H as (found & Hfound & Hout & _).
    assert (Hv : forall name, found = Some name ->
                 check_timezone_is_zoneinfo (Some name) = 1).
    { intros name ->.
      destruct (fs_readlink (host_fs host) LOCALTIME_FILE) as [target|];
        [|discriminate Hfound].
      cbv zeta in Hfound.
      repeat match type of Hfound with
      | outcome ((if ?c =? 0 then _ else _) _) = _ =>
          destruct (c =? 0) eqn:Hc; [discriminate Hfound|]
      | outcome ((if ?b then _ else _) _) = _ =>
          destruct b; [discriminate Hfound|]
      end.
      cbn in Hfound. injection Hfound as <-.
      apply Z.eqb_neq in Hc.
      destruct (check_timezone_is_zoneinfo_bool
                  (Some (advance (String.length ZONEINFO_DIR)
                     (substring 0 (Z.to_nat (PATH_MAX_apple + 1)) target))));
        [contradiction | assumption]. }
    destruct (Htail found _ Hv Hout) as (name & Hc & Hz).
    exists name. split; [exact Hc|]. split; [exact Hz | discriminate].
  - (* Linux *)
    unfold get_zoneinfo_timezone_linux.
    rewrite bind_get_run, Hinit. cbn [Z.eqb]. rewrite bind_modify_run.
    intros H. apply bind_outcome_ok in H.
    destruct H as (found & Hfound & Hout & _).
    assert (Hv : forall name, found = Some name ->
                 check_timezone_is_zoneinfo (Some name) = 1).
    { intros name ->.
      destruct (host_getenv host "TZ") as [s|].
      * destruct (check_timezone_is_zoneinfo (Some s) =? 0) eqn:Hc.
        -- exact (discover_linux_valid host _ name Hfound).
        -- cbn in Hfound. injection Hfound as ->.
           apply Z.eqb_neq in Hc.
           destruct (check_timezone_is_zoneinfo_bool (Some name));
             [contradiction | assumption].
      * exact (discover_linux_valid host _ name Hfound). }
    destruct (Htail found _ Hv Hout) as (name & Hc & Hz).
    exists name. split; [exact Hc|]. split; [exact Hz | discriminate].
  - (* Windows *)
    unfold get_zoneinfo_timezone_win32.
    rewrite bind_get_run, Hinit. cbn [Z.eqb]. rewrite bind_modify_run.
    destruct (host_localtime host (host_time host)) as [now|];
      [|discriminate].
    destruct (find_zoneinfo_name _win32_timezones _) as [z'|] eqn:Hrow;
      [|discriminate].
    rewrite bind_modify_run, bind_get_run. cbn.
    intros H. injection H as ->.
    destruct (table_selection_sound _ _ Hrow) as (Hc & Hl & _).
    exists z. split; [exact Hc|]. split; [|reflexivity].
    symmetry. apply substring_all. unfold strlen, TIMEZONE0_SIZE in *. lia.
Qed.

(** The sample tree: the scan finds "Europe/London". *)
Lemma discovered_name_has_passed_validation_witness :
  outcome (get_zoneinfo_timezone Samples.host_with_tree Globals_start)
  = Ok (Some "Europe/London") /\
  exists name,
    check_timezone_is_zoneinfo (Some name) = 1 /\
    "Europe/London" = substring 0 (Z.to_nat (TIMEZONE0_SIZE - 1)) name /\
    (platform Samples.host_with_tree = Win32 -> "Europe/London" = name).
Proof.
  assert (Hd : outcome (get_zoneinfo_timezone Samples.host_with_tree
                          Globals_start) = Ok (Some "Europe/London"))
    by (vm_compute; reflexivity).
  split; [exact Hd|].
  apply (discovered_name_has_passed_validation Samples.host_with_tree
           Globals_start "Europe/London").
  - left. discriminate.
  - reflexivity.
  - exact Hd.
Defined.

(** ** The variable [TZ] *)

Lemma discover_linux_same_files (host host' : Host) :
  host_fs host' = host_fs host ->
  host_getenv host' "TZDIR" = host_getenv host "TZDIR" ->
  discover_linux host' = discover_linux host.
Proof.
  intros Hfs Hdir. unfold discover_linux. rewrite Hfs, Hdir. reflexivity.
Qed.

(** X22.  The variable [TZ] on Linux.  A value that passes the validator is
    the answer of the first [get_zoneinfo_timezone], cut to 255 bytes, and
    no file is looked at.  A value that fails the validator is ignored: the
    call runs exactly as on a host with the same files and the same [TZDIR]
    where [TZ] is not set. *)
Theorem linux_TZ_variable (host : Host) (g : Globals) (s : string) :
  platform host = Linux ->
  android_timezone_init g = 0 ->
  host_getenv host "TZ" = Some s ->
  (check_timezone_is_zoneinfo (Some s) <> 0 ->
   let kept := substring 0 (Z.to_nat (TIMEZONE0_SIZE - 1)) s in
   get_zoneinfo_timezone host g
   = mkRun (Ok (Some kept))
       (set_android_timezone Timezone0
          (set_android_timezone0 kept (set_android_timezone_init 1 g)))
       []) /\
  (check_timezone_is_zoneinfo (Some s) = 0 ->
   forall host',
     platform host' = Linux ->
     host_fs host' = host_fs host ->
     host_getenv host' "TZDIR" = host_getenv host "TZDIR" ->
     host_getenv host' "TZ" = None ->
     get_zoneinfo_timezone host g = get_zoneinfo_timezone host' g).
Proof.
  intros Hplat Hinit Htz. split.
  - intros Hc. cbv zeta. apply Z.eqb_neq in Hc.
    unfold get_zoneinfo_timezone. rewrite Hplat.
    unfold get_zoneinfo_timezone_linux.
    rewrite bind_get_run, Hinit. cbn [Z.eqb]. rewrite bind_modify_run.
    rewrite Htz, Hc. rewrite bind_ret_run.
    unfold store_timezone0. rewrite !bind_modify_run, bind_get_run.
    reflexivity.
  - intros Hc host' Hplat' Hfs Hdir Htz'. apply Z.eqb_eq in Hc.
    unfold get_zoneinfo_timezone. rewrite Hplat, Hplat'.
    unfold get_zoneinfo_timezone_linux.
    rewrite !bind_get_run, Hinit. cbn [Z.eqb]. rewrite !bind_modify_run.
    rewrite Htz, Htz', Hc.
    rewrite (discover_linux_same_files host host' Hfs Hdir). reflexivity.
Qed.

(** With [TZ=Asia/Tokyo] the tree is not scanned; with [TZ=JST-9] the scan
    finds "Europe/London" as without [TZ]. *)
Lemma linux_TZ_variable_witness :
  get_zoneinfo_timezone (MoreSamples.host_with_TZ Linux "Asia/Tokyo")
    Globals_start
  = mkRun (Ok (Some "Asia/Tokyo"))
      (set_android_timezone Timezone0
         (set_android_timezone0 "Asia/Tokyo"
            (set_android_timezone_init 1 Globals_start))) [] /\
  get_zoneinfo_timezone (MoreSamples.host_with_TZ Linux "JST-9")
    Globals_start
  = get_zoneinfo_timezone Samples.host_with_tree Globals_start.
Proof.
  split.
  - destruct (linux_TZ_variable (MoreSamples.host_with_TZ Linux "Asia/Tokyo")
                Globals_start "Asia/Tokyo" eq_refl eq_refl eq_refl)
      as [H _].
    apply H. vm_compute. discriminate.
  - destruct (linux_TZ_variable (MoreSamples.host_with_TZ Linux "JST-9")
                Globals_start "JST-9" eq_refl eq_refl eq_refl)
      as [_ H].
    apply H; reflexivity.
Defined.

(** X23.  The variable [TZ] on OS X is not validated.  Whatever its value,
    the first [get_zoneinfo_timezone] returns it, cut to 255 bytes, without
    looking at any file; [bufprint_zoneinfo_timezone], which validates what
    it is given, then prints "Unknown/Unknown" when that text is not a
    zoneinfo name. *)
Theorem apple_TZ_is_not_validated (host : Host) (g : Globals) (s : string) :
  platform host = Apple ->
  android_timezone_init g = 0 ->
  host_getenv host "TZ" = Some s ->
  let kept := substring 0 (Z.to_nat (TIMEZONE0_SIZE - 1)) s in
  let g' := set_android_timezone Timezone0
              (set_android_timezone0 kept (set_android_timezone_init 1 g)) in
  get_zoneinfo_timezone host g = mkRun (Ok (Some kept)) g' [] /\
  forall room,
    bufprint_zoneinfo_timezone host room g
    = mkRun (Ok (bufprint room
                   (if check_timezone_is_zoneinfo (Some kept) =? 0
                    then "Unknown/Unknown" else kept))) g' [].
Proof.
  intros Hplat Hinit Htz. cbv zeta.
  assert (Hget : get_zoneinfo_timezone host g
    = mkRun (Ok (Some (substring 0 (Z.to_nat (TIMEZONE0_SIZE - 1)) s)))
        (set_android_timezone Timezone0
           (set_android_timezone0
              (substring 0 (Z.to_nat (TIMEZONE0_SIZE - 1)) s)
              (set_android_timezone_init 1 g))) []).
  { unfold get_zoneinfo_timezone. rewrite Hplat.
    unfold get_zoneinfo_timezone_apple.
    rewrite bind_get_run, Hinit. cbn [Z.eqb]. rewrite bind_modify_run.
    rewrite Htz. rewrite bind_ret_run.
    unfold store_timezone0. rewrite !bind_modify_run, bind_get_run.
    reflexivity. }
  split; [exact Hget|]. intros room.
  unfold bufprint_zoneinfo_timezone, bind. rewrite Hget.
  cbn [outcome final emitted].
  destruct (check_timezone_is_zoneinfo _ =? 0); reflexivity.
Qed.

Lemma apple_TZ_is_not_validated_witness :
  outcome (get_zoneinfo_timezone (MoreSamples.host_with_TZ Apple "JST-9")
             Globals_start) = Ok (Some "JST-9") /\
  outcome (bufprint_zoneinfo_timezone
             (MoreSamples.host_with_TZ Apple "JST-9") 64 Globals_start)
  = Ok ("Unknown/Unknown", 15).
Proof.
  destruct (apple_TZ_is_not_validated (MoreSamples.host_with_TZ Apple "JST-9")
              Globals_start "JST-9" eq_refl eq_refl eq_refl) as [Hg Hp].
  split.
  - rewrite Hg. reflexivity.
  - rewrite (Hp 64). reflexivity.
Defined.

(** ** The symbolic link [/etc/localtime] *)


Lemma prefix_app (a b : string) : String.prefix a (a ++ b) = true.
Proof.
  induction a as [|c a IH]; cbn.
  - destruct b; reflexivity.
  - destruct (ascii_dec c c) as [_|H]; [exact IH | contradiction H; reflexivity].
Qed.

Lemma advance_app (a b : string) : advance (String.length a) (a ++ b) = b.
Proof. induction a as [|c a IH]; cbn; [destruct b; reflexivity | exact IH]. Qed.







Lemma strlen_substring_full (n : nat) (s : string) :
  (n <= String.length s)%nat -> strlen (substring 0 n s) = Z.of_nat n.
Proof.
  unfold strlen. intros H. f_equal.
  revert s H. induction n as [|n IH]; intros [|a s] H; cbn in *;
    try reflexivity; try lia.
  rewrite IH by lia. reflexivity.
Qed.

(** X25.  The symbolic link on OS X.  When [TZ] is not set and
    [/etc/localtime] is a link: a target of [PATH_MAX + 1] bytes or more
    fills the whole buffer, and the terminator is then stored past its end,
    which is undefined behaviour; a shorter target that names a file of
    [/usr/share/zoneinfo/] whose relative name passes the validator makes
    the first [get_zoneinfo_timezone] return that relative name (cut to 255
    bytes); a shorter target outside [/usr/share/zoneinfo/] makes it return
    null, the pointer being left as it was. *)
Theorem apple_symlink_discovery (host : Host) (g : Globals)
    (target : string) :
  platform host = Apple ->
  android_timezone_init g = 0 ->
  host_getenv host "TZ" = None ->
  fs_readlink (host_fs host) LOCALTIME_FILE = Some target ->
  let d := get_zoneinfo_timezone host g in
  (PATH_MAX_apple + 1 <= strlen target -> outcome d = Abort Undefined) /\
  (strlen target <= PATH_MAX_apple ->
   String.prefix ZONEINFO_DIR target = false ->
   d = mkRun (Ok None) (set_android_timezone_init 1 g) []) /\
  (forall name,
     target = ZONEINFO_DIR ++ name ->
     strlen target <= PATH_MAX_apple ->
     check_timezone_is_zoneinfo (Some name) <> 0 ->
     let kept := substring 0 (Z.to_nat (TIMEZONE0_SIZE - 1)) name in
     d = mkRun (Ok (Some kept))
           (set_android_timezone Timezone0
              (set_android_timezone0 kept (set_android_timezone_init 1 g)))
           []).
Proof.
  intros Hplat Hinit Htz Hlink. cbv zeta.
  unfold get_zoneinfo_timezone. rewrite Hplat.
  unfold get_zoneinfo_timezone_apple.
  rewrite bind_get_run, Hinit. cbn [Z.eqb]. rewrite bind_modify_run.
  rewrite Htz, Hlink. cbv zeta.
  change (Z.to_nat (PATH_MAX_apple + 1)) with 1025%nat.
  unfold PATH_MAX_apple.
  split; [|split].
  - intros Hlong.
    rewrite strlen_substring_full by (unfold strlen in Hlong; lia).
    change (Z.of_nat 1025 >=? 1024 + 1) with true. reflexivity.
  - intros Hshort Hout.
    rewrite substring_all by (unfold strlen in Hshort; lia).
    assert (Hfit : (strlen target >=? 1024 + 1) = false).
    { rewrite Z.geb_leb. apply Z.leb_gt. lia. }
    rewrite Hfit, Hout. reflexivity.
  - intros name -> Hshort Hc.
    rewrite substring_all by (unfold strlen in Hshort; lia).
    assert (Hfit : (strlen (ZONEINFO_DIR ++ name) >=? 1024 + 1) = false).
    { rewrite Z.geb_leb. apply Z.leb_gt. lia. }
    rewrite Hfit, prefix_app, advance_app.
    apply Z.eqb_neq in Hc. rewrite Hc. cbn [negb].
    rewrite bind_ret_run.
    unfold store_timezone0. rewrite !bind_modify_run, bind_get_run.
    reflexivity.
Qed.

Lemma apple_symlink_discovery_witness :
  get_zoneinfo_timezone
    (MoreSamples.host_with_link Apple "/usr/share/zoneinfo/Europe/Paris")
    Globals_start
  = mkRun (Ok (Some "Europe/Paris"))
      (set_android_timezone Timezone0
         (set_android_timezone0 "Europe/Paris"
            (set_android_timezone_init 1 Globals_start))) [] /\
  get_zoneinfo_timezone
    (MoreSamples.host_with_link Apple "/var/db/timezone/zoneinfo/Europe/Paris")
    Globals_start
  = mkRun (Ok None) (set_android_timezone_init 1 Globals_start) [].
Proof.
  split.
  - destruct (apple_symlink_discovery
                (MoreSamples.host_with_link Apple
                   "/usr/share/zoneinfo/Europe/Paris")
                Globals_start "/usr/share/zoneinfo/Europe/Paris"
                eq_refl eq_refl eq_refl eq_refl) as (_ & _ & H).
    apply (H "Europe/Paris"); [reflexivity | vm_compute; discriminate |].
    vm_compute. discriminate.
  - destruct (apple_symlink_discovery
                (MoreSamples.host_with_link Apple
                   "/var/db/timezone/zoneinfo/Europe/Paris")
                Globals_start "/var/db/timezone/zoneinfo/Europe/Paris"
                eq_refl eq_refl eq_refl eq_refl) as (_ & H & _).
    apply H; [vm_compute; discriminate | reflexivity].
Defined.

(** ** Reading the dates of zdump *)

Lemma read_digits_of_uint_acc (d : Decimal.uint) :
  forall acc : positive,
    read_digits (Z.pos acc) (NilEmpty.string_of_uint d)
    = Z.pos (Pos.of_uint_acc d acc).
Proof.
  induction d; intros acc; cbn [NilEmpty.string_of_uint Pos.of_uint_acc];
    [reflexivity | ..];
    cbn [read_digits]; rewrite <- IHd;
    match goal with
    | |- (if isdigit ?c then _ else _) = _ =>
        change (isdigit c) with true; cbv iota
    end;
    f_equal;
    match goal with
    | |- context [code ?c] =>
        let v := eval vm_compute in (code c) in change (code c) with v
    end;
    lia.
Qed.

Lemma read_digits_of_uint (d : Decimal.uint) :
  read_digits 0 (NilEmpty.string_of_uint d) = Z.of_N (Pos.of_uint d).
Proof.
  induction d; cbn [NilEmpty.string_of_uint Pos.of_uint];
    [reflexivity | ..];
    cbn [read_digits];
    match goal with
    | |- (if isdigit ?c then _ else _) = _ =>
        change (isdigit c) with true; cbv iota
    end.
  1: exact IHd.
  all: cbn [Z.of_N]; rewrite <- read_digits_of_uint_acc; reflexivity.
Qed.

(** [std::stoi] reads back what ["%d"] prints. *)
Lemma stoi_format_d (n : Z) :
  0 <= n <= INT_MAX -> stoi (format_d n) = Ok n.
Proof.
  intros Hn. unfold format_d.
  destruct n as [|p|p]; [reflexivity | | lia].
  cbn [Z.to_int NilZero.string_of_int].
  pose proof (Unsigned.of_to p) as Hp.
  pose proof (read_digits_of_uint (Pos.to_uint p)) as Hread.
  rewrite Hp in Hread. cbn [Z.of_N] in Hread.
  assert (Hrange : (INT_MIN <=? Z.pos p) && (Z.pos p <=? INT_MAX) = true).
  { apply andb_true_intro. split; apply Z.leb_le; unfold INT_MIN; lia. }
  destruct (Pos.to_uint p) eqn:E;
    [discriminate Hp | ..];
    unfold NilZero.string_of_uint; cbn [NilEmpty.string_of_uint] in *;
    unfold stoi; cbn [skip_spaces];
    match goal with
    | |- context [isspace ?c] => change (isspace c) with false; cbv iota
    end;
    match goal with
    | |- context [isdigit ?c] => change (isdigit c) with true
    end;
    cbv iota beta; rewrite Hread, Hrange; reflexivity.
Qed.

Lemma stoi_two_digit_text (n : Z) :
  0 <= n < 100 -> stoi (two_digit_text n) = Ok n.
Proof.
  intros Hn. unfold two_digit_text.
  rewrite stoi_two_digits.
  - f_equal. rewrite Nat2Z.inj_add, Nat2Z.inj_mul, !Z2Nat.id.
    + change (Z.of_nat 10) with 10. pose proof (Z.div_mod n 10). lia.
    + apply Z.mod_pos_bound. lia.
    + apply Z.div_pos; lia.
  - apply Nat2Z.inj_lt. rewrite Z2Nat.id by (apply Z.div_pos; lia).
    change (Z.of_nat 10) with 10. apply Z.div_lt_upper_bound; lia.
  - apply Nat2Z.inj_lt. rewrite Z2Nat.id by (apply Z.mod_pos_bound; lia).
    change (Z.of_nat 10) with 10. apply Z.mod_pos_bound. lia.
Qed.

Lemma month_index_name (m : Z) :
  0 <= m < 12 ->
  month_index kMonthName 0 (nth (Z.to_nat m) kMonthName "") = m.
Proof.
  intros Hm.
  assert (H : m = 0 \/ m = 1 \/ m = 2 \/ m = 3 \/ m = 4 \/ m = 5 \/ m = 6
              \/ m = 7 \/ m = 8 \/ m = 9 \/ m = 10 \/ m = 11) by lia.
  repeat destruct H as [-> | H]; try subst m; reflexivity.
Qed.

(** The run of [parseZdumpDate] on the tokens of a date. *)
Lemma parseZdumpDate_run (d date : tm) :
  zdump_date d ->
  parseZdumpDate (zdump_date_tokens d) date
  = mkRun (Ok 0)
      (mk_tm (tm_sec d) (tm_min d) (tm_hour d) (tm_mday d) (tm_mon d)
             (tm_year d) (tm_wday date) (tm_yday date) (tm_isdst date))
      [].
Proof.
  intros (Hmon & Hmday & Hhour & Hmin & Hsec & Hyear).
  unfold parseZdumpDate, zdump_date_tokens.
  cbn [List.length Nat.leb nth].
  rewrite month_index_name by exact Hmon.
  assert (Hm : (tm_mon d =? -1) = false) by (apply Z.eqb_neq; lia).
  rewrite Hm.
  rewrite bind_modify_run, bind_lift_run, stoi_format_d by exact Hmday.
  rewrite bind_modify_run.
  assert (Hhh : forall h m s : Z,
    substr 0 2 (two_digit_text h ++ ":" ++ two_digit_text m ++ ":"
                  ++ two_digit_text s) = Ok (two_digit_text h))
    by reflexivity.
  assert (Hmm : forall h m s : Z,
    substr 3 2 (two_digit_text h ++ ":" ++ two_digit_text m ++ ":"
                  ++ two_digit_text s) = Ok (two_digit_text m))
    by reflexivity.
  assert (Hss : forall h m s : Z,
    substr 6 2 (two_digit_text h ++ ":" ++ two_digit_text m ++ ":"
                  ++ two_digit_text s) = Ok (two_digit_text s))
    by reflexivity.
  rewrite bind_lift_run, Hhh, bind_lift_run, stoi_two_digit_text
    by exact Hhour.
  rewrite bind_modify_run.
  rewrite bind_lift_run, Hmm, bind_lift_run, stoi_two_digit_text
    by exact Hmin.
  rewrite bind_modify_run.
  rewrite bind_lift_run, Hss, bind_lift_run, stoi_two_digit_text
    by exact Hsec.
  rewrite bind_modify_run.
  rewrite bind_lift_run, stoi_format_d by exact Hyear.
  rewrite bind_modify_run. rewrite Z.add_simpl_r. reflexivity.
Qed.

(** X26.  [parseZdumpDate] reads back the dates that zdump prints.  Given
    the four tokens of a date (the English abbreviation of the month, the
    day in decimal, the time as hh:mm:ss with two digits each, the year in
    decimal) it returns 0 and stores exactly the month, day, hour, minute,
    second and year of that date, the year counted from 1900; the three
    other fields of the structure are not written. *)
Theorem parseZdumpDate_reads_zdump_date (d date : tm) :
  zdump_date d ->
  let r := parseZdumpDate (zdump_date_tokens d) date in
  outcome r = Ok 0 /\
  emitted r = [] /\
  civil_key (final r) = civil_key d /\
  tm_wday (final r) = tm_wday date /\
  tm_yday (final r) = tm_yday date /\
  tm_isdst (final r) = tm_isdst date.
Proof.
  intros Hd. cbv zeta. rewrite (parseZdumpDate_run d date Hd).
  repeat split.
Qed.

Lemma parseZdumpDate_reads_zdump_date_witness :
  zdump_date_tokens (gmtime Samples.dst_start_2024)
  = ["Mar"; "10"; "07:00:00"; "2024"] /\
  civil_key (final (parseZdumpDate ["Mar"; "10"; "07:00:00"; "2024"]
                      tm_zero))
  = civil_key (gmtime Samples.dst_start_2024).
Proof.
  split; [reflexivity|].
  destruct (parseZdumpDate_reads_zdump_date (gmtime Samples.dst_start_2024)
              tm_zero) as (_ & _ & Hk & _).
  - vm_compute. repeat split; discriminate.
  - exact Hk.
Defined.

(** ** The zdump strategy on well-formed output *)

Lemma bind_known_run {S A B} (m : M S A) (k : A -> M S B) (s s' : S)
    (a : A) (evs : list Event) :
  m s = mkRun (Ok a) s' evs ->
  bind m k s
  = mkRun (outcome (k a s')) (final (k a s'))
      (evs ++ emitted (k a s'))%list.
Proof. intros H. unfold bind. rewrite H. reflexivity. Qed.

Lemma parsed_date_key (d date : tm) :
  civil_key (parsed_date d date) = civil_key d.
Proof. reflexivity. Qed.

(** One turn of the loop on a well-formed line. *)
Lemma zdump_rule_reads (i : Z) (line : string) (t off : Z) (s : TimeZone) :
  zdump_line line t off ->
  Z.abs off < 86400 ->
  zdump_rule i line s
  = mkRun (Ok (inr off))
      (if i =? 1
       then set_mStandardDateUtc
              (parsed_date (gmtime t) (mStandardDateUtc s)) s
       else set_mDaylightDateUtc
              (parsed_date (gmtime t) (mDaylightDateUtc s)) s)
      [].
Proof.
  intros (Hutc & Hlocal & zone & wd & ut & sep & wd' & rest & Htok) Hoff.
  assert (Hdiff : forall a b,
            diffTime (parsed_date (gmtime (t + off)) a)
                     (parsed_date (gmtime t) b) = off).
  { intros a b.
    rewrite (diffTime_key _ (gmtime (t + off)) _ (gmtime t))
      by apply parsed_date_key.
    rewrite diffTime_gmtime; [lia|].
    replace (t + off - t) with off by lia. exact Hoff. }
  unfold zdump_rule. cbv zeta. rewrite Htok.
  remember (gmtime t) as utc eqn:Eutc.
  remember (gmtime (t + off)) as local eqn:Elocal.
  assert (H26 : vector_range 2 6
                  ((zone :: wd :: zdump_date_tokens utc)
                   ++ (ut :: sep :: wd' :: zdump_date_tokens local)
                   ++ rest)%list
                = Ok (zdump_date_tokens utc)) by reflexivity.
  assert (H913 : vector_range 9 13
                   ((zone :: wd :: zdump_date_tokens utc)
                    ++ (ut :: sep :: wd' :: zdump_date_tokens local)
                    ++ rest)%list
                 = Ok (zdump_date_tokens local)) by reflexivity.
  rewrite bind_lift_run, H26.
  destruct (i =? 1).
  - set (s1 := set_mStandardDateUtc
                 (parsed_date utc (mStandardDateUtc s)) s).
    rewrite (bind_known_run _ _ s s1 0 []).
    2:{ unfold zoom.
        rewrite (parseZdumpDate_run utc _ Hutc). reflexivity. }
    cbn [Z.eqb negb].
    rewrite bind_lift_run, H913.
    rewrite (bind_known_run _ _ s1 s1 (0, parsed_date local tm_zero) []).
    2:{ unfold with_local.
        rewrite (parseZdumpDate_run local _ Hlocal).
        reflexivity. }
    cbn [Z.eqb negb]. rewrite bind_get_run.
    cbn [ret outcome final emitted app].
    unfold s1 at 1. cbn [mStandardDateUtc set_mStandardDateUtc].
    rewrite Hdiff. reflexivity.
  - set (s1 := set_mDaylightDateUtc
                 (parsed_date utc (mDaylightDateUtc s)) s).
    rewrite (bind_known_run _ _ s s1 0 []).
    2:{ unfold zoom.
        rewrite (parseZdumpDate_run utc _ Hutc). reflexivity. }
    cbn [Z.eqb negb].
    rewrite bind_lift_run, H913.
    rewrite (bind_known_run _ _ s1 s1 (0, parsed_date local tm_zero) []).
    2:{ unfold with_local.
        rewrite (parseZdumpDate_run local _ Hlocal).
        reflexivity. }
    cbn [Z.eqb negb]. rewrite bind_get_run.
    cbn [ret outcome final emitted app].
    unfold s1 at 1. cbn [mDaylightDateUtc set_mDaylightDateUtc].
    rewrite Hdiff. reflexivity.
Qed.

(** The zdump command of an engine. *)
Lemma zdump_strategy_run (host : Host) (this : TimeZone) (out : string)
    (l1 l2 l3 l4 : string) (t2 off2 t4 off4 : Z) :
  host_tempfile host ZdumpOutput = Some out ->
  let argv := ["/bin/bash"; "-c";
               "zdump -v " ++ mTimeZoneName this ++ " | grep "
                 ++ format_d (mCurrentYear this)] in
  let run := host_runCommand host argv 5000 out in
  commandRan run = true ->
  exitCode run = 0 ->
  getlines (captured run) = [l1; l2; l3; l4] ->
  zdump_line l2 t2 off2 -> Z.abs off2 < 86400 ->
  zdump_line l4 t4 off4 -> Z.abs off4 < 86400 ->
  setAndroidTimeZoneUsingZdump host this
  = mkRun (Ok 0)
      (set_mDaylightOffset (off2 - off4)
         (set_mStandardOffset off4
            (set_mDaylightDateUtc
               (parsed_date (gmtime t4) (mDaylightDateUtc this))
               (set_mStandardDateUtc
                  (parsed_date (gmtime t2) (mStandardDateUtc this)) this))))
      [EvRunCommand argv 5000].
Proof.
  intros Htmp argv run Hran Hexit Hlines H2 Ho2 H4 Ho4.
  unfold setAndroidTimeZoneUsingZdump.
  rewrite bind_get_run. cbv zeta. rewrite Htmp, bind_emit_run.
  fold argv. fold run. rewrite Hran, Hexit, Hlines.
  cbn [andb Z.eqb List.length Nat.eqb nth].
  rewrite (bind_known_run _ _ _ _ _ _ (zdump_rule_reads 1 l2 t2 off2 this
                                         H2 Ho2)).
  cbn [Z.eqb Pos.eqb].
  rewrite (bind_known_run _ _ _ _ _ _ (zdump_rule_reads 3 l4 t4 off4 _
                                         H4 Ho4)).
  cbn [Z.eqb Pos.eqb].
  rewrite !bind_modify_run. reflexivity.
Qed.

(** X27.  The zdump strategy on well-formed output.  When the command runs,
    exits with 0 and prints four lines of which the second is the line of
    zdump for an instant [t2] at which the offset [off2] comes into force,
    and the fourth the one for [t4] and [off4], both offsets being less
    than a day, the strategy returns 0 after that one command; it stores the
    civil date of [t2] in [mStandardDateUtc] and that of [t4] in
    [mDaylightDateUtc], [off4] as the standard offset and [off2 - off4] as
    the daylight offset. *)
Theorem zdump_strategy_recovers_offsets (host : Host) (this : TimeZone)
    (out : string) (l1 l2 l3 l4 : string) (t2 off2 t4 off4 : Z) :
  host_tempfile host ZdumpOutput = Some out ->
  let argv := ["/bin/bash"; "-c";
               "zdump -v " ++ mTimeZoneName this ++ " | grep "
                 ++ format_d (mCurrentYear this)] in
  let run := host_runCommand host argv 5000 out in
  commandRan run = true ->
  exitCode run = 0 ->
  getlines (captured run) = [l1; l2; l3; l4] ->
  zdump_line l2 t2 off2 -> Z.abs off2 < 86400 ->
  zdump_line l4 t4 off4 -> Z.abs off4 < 86400 ->
  let r := setAndroidTimeZoneUsingZdump host this in
  outcome r = Ok 0 /\
  emitted r = [EvRunCommand argv 5000] /\
  mStandardOffset (final r) = off4 /\
  mDaylightOffset (final r) = off2 - off4 /\
  civil_key (mStandardDateUtc (final r)) = civil_key (gmtime t2) /\
  civil_key (mDaylightDateUtc (final r)) = civil_key (gmtime t4) /\
  same_subject this (final r).
Proof.
  intros Htmp argv run Hran Hexit Hlines H2 Ho2 H4 Ho4 r.
  unfold r.
  rewrite (zdump_strategy_run host this out l1 l2 l3 l4 t2 off2 t4 off4
             Htmp Hran Hexit Hlines H2 Ho2 H4 Ho4).
  repeat split.
Qed.

(** The sample output of zdump for New York in 2024. *)
Ltac new_york_zdump_line zone_abbr isdst gmtoff :=
  split; [vm_compute; repeat split; discriminate|];
  split; [vm_compute; repeat split; discriminate|];
  exists "America/New_York", "Sun", "UT", "=", "Sun",
         [zone_abbr; isdst; gmtoff];
  vm_compute; reflexivity.

Lemma zdump_strategy_recovers_offsets_witness :
  let this := set_mTimeZoneName "America/New_York"
                (TimeZone_new Samples.host_with_zdump) in
  let r := setAndroidTimeZoneUsingZdump Samples.host_with_zdump this in
  outcome r = Ok 0 /\
  mStandardOffset (final r) = -18000 /\
  mDaylightOffset (final r) = 3600.
Proof.
  cbv zeta.
  assert (Hlines : getlines Samples.zdump_new_york_2024
    = [nth 0 (getlines Samples.zdump_new_york_2024) "";
       nth 1 (getlines Samples.zdump_new_york_2024) "";
       nth 2 (getlines Samples.zdump_new_york_2024) "";
       nth 3 (getlines Samples.zdump_new_york_2024) ""])
    by (vm_compute; reflexivity).
  assert (H2 : zdump_line (nth 1 (getlines Samples.zdump_new_york_2024) "")
                 Samples.dst_start_2024 (-14400))
    by new_york_zdump_line "EDT" "isdst=1" "gmtoff=-14400".
  assert (H4 : zdump_line (nth 3 (getlines Samples.zdump_new_york_2024) "")
                 Samples.dst_end_2024 (-18000))
    by new_york_zdump_line "EST" "isdst=0" "gmtoff=-18000".
  destruct (zdump_strategy_recovers_offsets Samples.host_with_zdump
              (set_mTimeZoneName "America/New_York"
                 (TimeZone_new Samples.host_with_zdump))
              "/tmp/android-tz" _ _ _ _
              Samples.dst_start_2024 (-14400) Samples.dst_end_2024 (-18000)
              eq_refl eq_refl eq_refl Hlines
              H2 ltac:(vm_compute; reflexivity)
              H4 ltac:(vm_compute; reflexivity))
    as (Ho & _ & Hs & Hd & _).
  split; [exact Ho|]. split; [exact Hs | exact Hd].
Defined.

(** ** From the output of zdump to the answers of the engine *)

Lemma civil_lt_gmtime (x y : Z) : civil_lt (gmtime x) (gmtime y) <-> x < y.
Proof.
  rewrite <- utcCompare_lt.
  rewrite utcCompare_timegm by apply gmtime_valid.
  rewrite !timegm_gmtime.
  destruct (Z.sgn_spec (x - y)) as [[H ->] | [[H ->] | [H ->]]]; lia.
Qed.

Lemma civil_le_gmtime (x y : Z) : civil_le (gmtime x) (gmtime y) <-> x <= y.
Proof.
  rewrite <- utcCompare_ge.
  rewrite utcCompare_timegm by apply gmtime_valid.
  rewrite !timegm_gmtime.
  destruct (Z.sgn_spec (y - x)) as [[H ->] | [[H ->] | [H ->]]]; lia.
Qed.

(** X28.  From the output of zdump to the answers of the engine.  On a host
    other than Windows where the zdump command for the zone and the year
    prints four lines, the second for the instant [t2] at which the offset
    [off2] comes into force and the fourth for [t4] and [off4], the resolver
    succeeds, and from then on a query for an instant of that year is
    answered, without any further command, with [off2] when the instant
    lies in [t2, t4) and with [off4] otherwise. *)
Theorem zdump_rule_answers_with_zdump_offsets (host : Host)
    (tzname : string) (this : TimeZone) (out : string)
    (l1 l2 l3 l4 : string) (t2 off2 t4 off4 : Z) :
  platform host <> Win32 ->
  host_tempfile host ZdumpOutput = Some out ->
  let argv := ["/bin/bash"; "-c";
               "zdump -v " ++ tzname ++ " | grep "
                 ++ format_d (mCurrentYear this)] in
  let run := host_runCommand host argv 5000 out in
  commandRan run = true ->
  exitCode run = 0 ->
  getlines (captured run) = [l1; l2; l3; l4] ->
  zdump_line l2 t2 off2 -> Z.abs off2 < 86400 ->
  zdump_line l4 t4 off4 -> Z.abs off4 < 86400 ->
  let r := androidTimeZoneSet host tzname this in
  outcome r = Ok 0 /\
  forall host' timeNow,
    tm_year (gmtime timeNow) + 1900 = mCurrentYear this ->
    androidTimeZoneOffset host' timeNow (final r)
    = mkRun (Ok (if (t2 <=? timeNow) && (timeNow <? t4)
                 then off2 else off4))
        (final r) [].
Proof.
  intros Hplat Htmp argv run Hran Hexit Hlines H2 Ho2 H4 Ho4 r.
  pose proof (androidTimeZoneSet_run host tzname this) as H.
  cbv zeta in H. fold r in H. destruct H as (Hf & _ & Ho).
  set (start := set_mAndroidTimeZoneInit 0 (set_mTimeZoneName tzname this))
    in *.
  pose proof (zdump_strategy_run host start out l1 l2 l3 l4 t2 off2 t4 off4
                Htmp Hran Hexit Hlines H2 Ho2 H4 Ho4) as Hz.
  assert (Hbody : resolve_on_platform host tzname start
    = mkRun (Ok tt)
        (set_mAndroidTimeZoneInit 1
           (final (setAndroidTimeZoneUsingZdump host start)))
        (emitted (setAndroidTimeZoneUsingZdump host start))).
  { unfold resolve_on_platform.
    destruct (platform host); [| | contradiction Hplat; reflexivity];
      rewrite (bind_known_run _ _ _ _ _ _ Hz); rewrite Hz;
      cbn [Z.eqb negb]; unfold modify; cbn [outcome final emitted];
      rewrite app_nil_r; reflexivity. }
  rewrite Hbody in Hf, Ho. cbn [outcome final] in Hf, Ho.
  rewrite Hz in Hf. cbn [final] in Hf.
  split; [rewrite Ho; reflexivity|].
  intros host' timeNow Hyear.
  rewrite androidTimeZoneOffset_same_year;
    [| rewrite Hf; cbn; discriminate | rewrite Hf; exact Hyear].
  f_equal. f_equal.
  destruct (Z.eq_dec (off2 - off4) 0) as [Hsame | Hdiff].
  - rewrite getTimeZoneDiff_no_daylight by (rewrite Hf; exact Hsame).
    rewrite Hf. cbn [mStandardOffset set_mAndroidTimeZoneInit
                     set_mDaylightOffset set_mStandardOffset].
    destruct ((t2 <=? timeNow) && (timeNow <? t4)); lia.
  - destruct (getTimeZoneDiff_window (final r) timeNow) as [Hin Hout].
    { rewrite Hf. exact Hdiff. }
    assert (Hwin : in_daylight_window (final r) (gmtime timeNow)
                   <-> t2 <= timeNow < t4).
    { unfold in_daylight_window. rewrite Hf.
      cbn [mStandardDateUtc mDaylightDateUtc set_mAndroidTimeZoneInit
           set_mDaylightOffset set_mStandardOffset set_mDaylightDateUtc
           set_mStandardDateUtc].
      rewrite <- civil_le_gmtime, <- civil_lt_gmtime.
      unfold civil_le, civil_lt. rewrite !parsed_date_key. reflexivity. }
    destruct ((t2 <=? timeNow) && (timeNow <? t4)) eqn:E.
    + rewrite Hin.
      * rewrite Hf. cbn. lia.
      * apply Hwin. apply andb_prop in E. destruct E as [E1 E2].
        apply Z.leb_le in E1. apply Z.ltb_lt in E2. lia.
    + rewrite Hout.
      * rewrite Hf. reflexivity.
      * intros Hw. apply Hwin in Hw.
        apply andb_false_iff in E. destruct E as [E | E];
          [apply Z.leb_gt in E | apply Z.ltb_ge in E]; lia.
Qed.

(** New York in 2024: four hours behind UTC in July, five in January. *)
Lemma zdump_rule_answers_with_zdump_offsets_witness :
  let r := androidTimeZoneSet Samples.host_with_zdump "America/New_York"
             (TimeZone_new Samples.host_with_zdump) in
  outcome r = Ok 0 /\
  outcome (androidTimeZoneOffset Samples.host_without_tools
             Samples.july_2024 (final r)) = Ok (-14400) /\
  outcome (androidTimeZoneOffset Samples.host_without_tools
             Samples.january_2024 (final r)) = Ok (-18000).
Proof.
  cbv zeta.
  assert (Hlines : getlines Samples.zdump_new_york_2024
    = [nth 0 (getlines Samples.zdump_new_york_2024) "";
       nth 1 (getlines Samples.zdump_new_york_2024) "";
       nth 2 (getlines Samples.zdump_new_york_2024) "";
       nth 3 (getlines Samples.zdump_new_york_2024) ""])
    by (vm_compute; reflexivity).
  assert (H2 : zdump_line (nth 1 (getlines Samples.zdump_new_york_2024) "")
                 Samples.dst_start_2024 (-14400))
    by new_york_zdump_line "EDT" "isdst=1" "gmtoff=-14400".
  assert (H4 : zdump_line (nth 3 (getlines Samples.zdump_new_york_2024) "")
                 Samples.dst_end_2024 (-18000))
    by new_york_zdump_line "EST" "isdst=0" "gmtoff=-18000".
  destruct (zdump_rule_answers_with_zdump_offsets Samples.host_with_zdump
              "America/New_York" (TimeZone_new Samples.host_with_zdump)
              "/tmp/android-tz" _ _ _ _
              Samples.dst_start_2024 (-14400) Samples.dst_end_2024 (-18000)
              ltac:(discriminate) eq_refl eq_refl eq_refl Hlines
              H2 ltac:(vm_compute; reflexivity)
              H4 ltac:(vm_compute; reflexivity))
    as (Ho & Hq).
  split; [exact Ho|]. split.
  - rewrite (Hq Samples.host_without_tools Samples.july_2024 eq_refl).
    reflexivity.
  - rewrite (Hq Samples.host_without_tools Samples.january_2024 eq_refl).
    reflexivity.
Defined.
